(** * Audio-visual speech enhancement: the preprocessing pipeline

    A shallow embedding of [data_processor.py]: the video slicer, the audio
    slicer, the speech/noise pair mixer, the per-sample and per-batch
    orchestration and the video normalizer, with the properties the
    specification states about them.

    Conventions of the embedding.
    - Python integers are [Z] and Python floats are IEEE 754 binary64 numbers,
      Rocq's primitive floats: the time base ([float(ms) / 1000 * rate],
      [float(rate) / fps]) is computed with the rounding of the source, and
      [int(x)] truncates the rounded value toward zero.
    - Waveform samples are rationals; an [AudioSignal] is a mutable object and
      lives in a store, addressed by its allocation index.
    - A computation either returns, raises a Python exception, or does not
      terminate within the fuel it was given ([Diverge]).
    - The pixel arithmetic of [VideoNormalizer] is IEEE 754 arithmetic, on
      Rocq's primitive floats. *)

From Stdlib Require Import ZArith QArith Qround Qabs Floats Lia List String.
From stdpp Require Import base list.

Set Default Proof Using "Type".

(** ** Python results *)

Inductive exn : Type :=
  | ZeroDivisionError
  | ValueError
  | OverflowError
  | IOError
  | DetectionError
  | ParameterError
  | ReferenceError.

Inductive outcome (A : Type) : Type :=
  | Ret (a : A)
  | Raise (e : exn)
  | Diverge.

Arguments Ret {A} a.
Arguments Raise {A} e.
Arguments Diverge {A}.

Definition obind {A B : Type} (m : outcome A) (k : A -> outcome B) : outcome B :=
  match m with
  | Ret a => k a
  | Raise e => Raise e
  | Diverge => Diverge
  end.

Declare Scope outcome_scope.
Delimit Scope outcome_scope with O.
Notation "x <- m ;; k" := (obind m (fun x => k))
  (at level 100, m at next level, right associativity) : outcome_scope.

Definition returns {A : Type} (m : outcome A) : Prop := exists a, m = Ret a.
Definition raises {A : Type} (m : outcome A) : Prop := exists e, m = Raise e.

(** ** Python arithmetic *)

(** [int(x)] on a real value: truncation toward zero. *)
Definition py_int (x : Q) : Z := Z.quot (Qnum x) (Zpos (Qden x)).

(** [a / b] on ints under true division, as an exact quotient. The source
    rounds the quotient in binary64 before [int()] drops its fractional part;
    rounding does not carry a quotient across an integer while the dividend is
    below 2^53, as the frame, sample and hop counts of arrays in memory are. *)
Definition py_truediv (a b : Q) : outcome Q :=
  if Qeq_bool b 0 then Raise ZeroDivisionError else Ret (a / b)%Q.

(** [int(a / b)] for two integers. *)
Definition py_int_div (a b : Z) : outcome Z :=
  (q <- py_truediv (inject_Z a) (inject_Z b) ;; Ret (py_int q))%O.

(** *** Floats

    A Python float is a binary64 number; [x / y] and [x * y] below are the
    correctly rounded operations of Rocq's primitive floats. *)

(** [float(n)] for an int: the binary64 number nearest to [n], ties to even;
    an int too large for a float raises [OverflowError]. *)
Definition py_float (n : Z) : outcome float :=
  match binary_normalize prec emax n 0 false with
  | S754_infinity _ => Raise OverflowError
  | x => Ret (SF2Prim x)
  end.

(** [a / b] on floats: a zero divisor, of either sign, raises. *)
Definition py_float_div (a b : float) : outcome float :=
  if (b =? 0)%float then Raise ZeroDivisionError else Ret (a / b)%float.

(** [int(x)] on a float: the value without its fractional part; an infinity
    raises [OverflowError] and a NaN raises [ValueError]. *)
Definition py_int_float (x : float) : outcome Z :=
  match Prim2SF x with
  | S754_zero _ => Ret 0%Z
  | S754_finite s m e =>
      let a := if (0 <=? e)%Z then (Z.pos m * 2 ^ e)%Z else (Z.pos m / 2 ^ (- e))%Z in
      Ret (if s then (- a)%Z else a)
  | S754_infinity _ => Raise OverflowError
  | S754_nan => Raise ValueError
  end.

(** The rational number a finite float stands for (0 for the others). *)
Definition float_value (x : float) : Q :=
  match Prim2SF x with
  | S754_finite s m e =>
      let n := if s then Z.neg m else Z.pos m in
      if (0 <=? e)%Z then inject_Z (n * 2 ^ e) else n # (2 ^ Z.to_pos (- e))
  | _ => 0
  end.

(** A rational without its fractional part: rounded toward zero. *)
Definition toward_zero (x : Q) : Z := if Qle_bool 0 x then Qfloor x else Qceiling x.

(** ** The time base *)

(** [int((float(slice_duration_ms) / 1000) * reader.get_frame_rate())],
    line 23. *)
Definition frames_per_slice (slice_duration_ms : Z) (frame_rate : float) : outcome Z :=
  (ms <- py_float slice_duration_ms ;;
   py_int_float (ms / 1000 * frame_rate)%float)%O.

(** [int((float(slice_duration_ms) / 1000) * audio_signal.get_sample_rate())],
    line 35; the sample rate is an int and is converted for the product. *)
Definition samples_per_slice (slice_duration_ms : Z) (sample_rate : Z) : outcome Z :=
  (ms <- py_float slice_duration_ms ;;
   rate <- py_float sample_rate ;;
   py_int_float (ms / 1000 * rate)%float)%O.

(** [int(float(audio_signal.get_sample_rate()) / video_frame_rate)], lines 43
    and 67. *)
Definition n_fft_of (sample_rate : Z) (video_frame_rate : float) : outcome Z :=
  (rate <- py_float sample_rate ;;
   q <- py_float_div rate video_frame_rate ;;
   py_int_float q)%O.

(** [int(n_fft / 4)], lines 44 and 68. [n_fft] is the integer part of a
    float, so the quotient by 4 is exact in binary64. *)
Definition hop_length_of (n_fft : Z) : Z := py_int (inject_Z n_fft / 4)%Q.

(** The specification's reading of the same quantities: the integer nearest to
    the exact value. A tie has two nearest integers, so this is a relation. *)
Definition nearest_integer (x : Q) (z : Z) : Prop :=
  (Qabs (x - inject_Z z) <= 1 # 2)%Q.

Definition spec_time_base (slice_duration_ms : Z) (frame_rate : float)
    (sample_rate : Z) (video_frame_rate : float) : Prop :=
  exists frames samples n_fft,
    frames_per_slice slice_duration_ms frame_rate = Ret frames
    /\ nearest_integer ((inject_Z slice_duration_ms / 1000) * float_value frame_rate)%Q
                       frames
    /\ samples_per_slice slice_duration_ms sample_rate = Ret samples
    /\ nearest_integer ((inject_Z slice_duration_ms / 1000) * inject_Z sample_rate)%Q
                       samples
    /\ n_fft_of sample_rate video_frame_rate = Ret n_fft
    /\ nearest_integer (inject_Z sample_rate / float_value video_frame_rate)%Q n_fft
    /\ hop_length_of n_fft = (n_fft / 4)%Z.

(** ** Arrays

    A stacked array ([np.stack], [np.concatenate]) is kept as the list of its
    items along the first axis together with the shape every item has; numpy
    keeps that shape even when the first axis is empty. *)

Record stack (T : Type) : Type := mk_stack {
  item_shape : list Z;
  items : list T
}.

Arguments mk_stack {T} item_shape items.
Arguments item_shape {T} s.
Arguments items {T} s.

(** [len(a)], that is [a.shape[0]]. *)
Definition shape0 {T : Type} (a : stack T) : Z := Z.of_nat (length (items a)).

(** [range(n)]. *)
Definition py_range (n : Z) : list Z := map Z.of_nat (seq 0 (Z.to_nat n)).

(** [l[a:b]] for [0 <= a <= b], the only bounds the pipeline slices with;
    bounds past the end are clipped. *)
Definition py_slice {T : Type} (a b : Z) (l : list T) : list T :=
  take (Z.to_nat (b - a)) (drop (Z.to_nat a) l).

(** [a[:n]] on the first axis, for [0 <= n]. *)
Definition stack_take {T : Type} (n : Z) (a : stack T) : stack T :=
  mk_stack (item_shape a) (take (Z.to_nat n) (items a)).

Definition shape_eqb (s1 s2 : list Z) : bool :=
  bool_decide (s1 = s2).

(** [np.stack(slices)]: raises on an empty list and on items of different
    shapes. *)
Definition np_stack {T : Type} (shape_of : T -> list Z) (slices : list T)
    : outcome (stack T) :=
  match slices with
  | [] => Raise ValueError
  | s :: _ =>
      if forallb (fun t => shape_eqb (shape_of t) (shape_of s)) slices
      then Ret (mk_stack (shape_of s) slices)
      else Raise ValueError
  end.

(** [np.concatenate(arrays)] along the first axis: raises on an empty list and
    when the arrays disagree on the other axes. *)
Definition np_concatenate {T : Type} (arrays : list (stack T)) : outcome (stack T) :=
  match arrays with
  | [] => Raise ValueError
  | a :: _ =>
      if forallb (fun b => shape_eqb (item_shape b) (item_shape a)) arrays
      then Ret (mk_stack (item_shape a) (concat (map items arrays)))
      else Raise ValueError
  end.

(** The arrays agree on the shape of an item. *)
Definition same_item_shapes {T : Type} (arrays : list (stack T)) : Prop :=
  forall a b, In a arrays -> In b arrays -> item_shape a = item_shape b.

(** A spectrogram: frequency bins by time frames. *)
Record spectrogram : Type := mk_spectrogram {
  n_bins : Z;
  n_frames : Z;
  cell : Z -> Z -> Q
}.

Definition spectrogram_shape (s : spectrogram) : list Z := [n_bins s; n_frames s].

(** [spectrogram[:-1, :]]. *)
Definition drop_last_bin (s : spectrogram) : spectrogram :=
  mk_spectrogram (Z.max 0 (n_bins s - 1)) (n_frames s) (cell s).

(** [spectrogram[:, a:b]] for [0 <= a <= b]. *)
Definition slice_frames (a b : Z) (s : spectrogram) : spectrogram :=
  mk_spectrogram (n_bins s)
                 (Z.max 0 (Z.min b (n_frames s) - Z.min a (n_frames s)))
                 (fun k t => cell s k (a + t)).

(** ** The store of audio signals *)

(** An [AudioSignal] object: its samples and its sample rate. *)
Record AudioSignal : Type := mk_signal {
  sig_data : list Q;
  sig_rate : Z
}.

(** The store is the list of the objects allocated so far; an address is an
    index into it. *)
Abbreviation loc := nat (only parsing).
Abbreviation heap := (list AudioSignal) (only parsing).

Definition M (A : Type) : Type := heap -> outcome (A * heap).

Definition ret {A : Type} (a : A) : M A := fun h => Ret (a, h).

Definition bind {A B : Type} (m : M A) (k : A -> M B) : M B :=
  fun h =>
    match m h with
    | Ret (a, h') => k a h'
    | Raise e => Raise e
    | Diverge => Diverge
    end.

Definition raise {A : Type} (e : exn) : M A := fun _ => Raise e.
Definition diverge {A : Type} : M A := fun _ => Diverge.

Definition lift {A : Type} (m : outcome A) : M A :=
  fun h => match m with Ret a => Ret (a, h) | Raise e => Raise e | Diverge => Diverge end.

Declare Scope heap_scope.
Delimit Scope heap_scope with M.
Notation "x <- m ;; k" := (bind m (fun x => k))
  (at level 100, m at next level, right associativity) : heap_scope.
Notation "m ;;; k" := (bind m (fun _ => k))
  (at level 100, right associativity) : heap_scope.

(** A new object; its address is the next free index. *)
Definition new (o : AudioSignal) : M loc := fun h => Ret (length h, h ++ [o]).

Definition load (l : loc) : M AudioSignal :=
  fun h => match h !! l with Some o => Ret (o, h) | None => Raise ReferenceError end.

Definition store (l : loc) (o : AudioSignal) : M unit :=
  fun h => Ret (tt, <[l := o]> h).

Fixpoint load_all (ls : list loc) : M (list AudioSignal) :=
  match ls with
  | [] => ret []
  | l :: rest => (o <- load l ;; os <- load_all rest ;; ret (o :: os))%M
  end.

(** ** [AudioSignal] and [AudioMixer]

    The classes of [mediaio.audio_io] are outside this file's source; their
    methods are modelled from the specification's description of the waveform
    interface (sections 3, 4.3 and 6). *)

Definition get_number_of_samples (l : loc) : M Z :=
  (o <- load l ;; ret (Z.of_nat (length (sig_data o))))%M.

Definition get_sample_rate (l : loc) : M Z :=
  (o <- load l ;; ret (sig_rate o))%M.

Definition get_data (l : loc) : M (list Q) :=
  (o <- load l ;; ret (sig_data o))%M.

(** Modelled from the spec: [AudioSignal(data, sample_rate)] builds a waveform
    of its own from the samples it is given ("retain an unmodified copy"). *)
Definition AudioSignal_init (data : list Q) (sample_rate : Z) : M loc :=
  new (mk_signal data sample_rate).

(** Modelled from the spec: [pad_with_zeros(n)] appends trailing zeros up to
    [n] samples, in place, and keeps the sample rate. *)
Definition pad_with_zeros (l : loc) (new_length : Z) : M unit :=
  (o <- load l ;;
   store l (mk_signal
              (sig_data o ++ replicate (Z.to_nat new_length - length (sig_data o)) 0%Q)
              (sig_rate o)))%M.

(** Modelled from the spec: [truncate(n)] keeps the first [n] samples, in
    place, and keeps the sample rate. *)
Definition truncate (l : loc) (new_length : Z) : M unit :=
  (o <- load l ;;
   store l (mk_signal (take (Z.to_nat new_length) (sig_data o)) (sig_rate o)))%M.

(** Modelled from the spec: [AudioSignal.concat(signals)] is a new waveform,
    the signals' samples one after the other, at the first signal's rate. *)
Definition AudioSignal_concat (signals : list loc) : M loc :=
  (os <- load_all signals ;;
   match os with
   | [] => raise ValueError
   | o :: _ => new (mk_signal (concat (map sig_data os)) (sig_rate o))
   end)%M.

(** The largest absolute sample, [np.abs(data).max()]; an empty array has
    none. *)
Definition abs_max (data : list Q) : outcome Q :=
  match data with
  | [] => Raise ValueError
  | _ => Ret (fold_right (fun x m => if Qle_bool m (Qabs x) then Qabs x else m) 0%Q data)
  end.

(** Modelled from the spec: [peak_normalize(peak=None)] divides every sample by
    the peak, in place, and returns the peak used; without an argument the peak
    is the largest absolute sample. A zero-length waveform is an error. Where
    the peak is zero numpy leaves non-finite samples; here the quotient is
    Rocq's [x / 0], which no property below looks at. *)
Definition peak_normalize (l : loc) (peak : option Q) : M Q :=
  (o <- load l ;;
   p <- match peak with
        | Some p => ret p
        | None => lift (abs_max (sig_data o))
        end ;;
   store l (mk_signal (map (fun x => x / p)%Q (sig_data o)) (sig_rate o)) ;;;
   ret p)%M.

(** The weighted sum [mixed_data += w * signal] over the signals, starting from
    zeros of the reference signal's shape. *)
Fixpoint mix_into (acc : list Q) (weighted : list (Q * list Q)) : outcome (list Q) :=
  match weighted with
  | [] => Ret acc
  | (w, d) :: rest =>
      if (length d =? length acc)%nat
      then mix_into (zip_with (fun a x => a + w * x)%Q acc d) rest
      else Raise ValueError
  end.

(** Modelled from the spec: [AudioMixer.mix(signals, mixing_weights)] is a new
    waveform, the weighted sample-wise sum of the signals, with the length and
    the sample rate of the first one. *)
Definition AudioMixer_mix (signals : list loc) (mixing_weights : list Q) : M loc :=
  (os <- load_all signals ;;
   match os with
   | [] => raise ValueError
   | ref :: _ =>
       mixed <- lift (mix_into (replicate (length (sig_data ref)) 0%Q)
                               (zip mixing_weights (map sig_data os))) ;;
       new (mk_signal mixed (sig_rate ref))
   end)%M.

(** ** Video normalizer

    [video_samples] is a four-axis array, slices by height by width by frames;
    [v !! s] is a slice, then a row, then a pixel position's values along the
    frame axis. The source holds the pixels in binary32; the arithmetic here is
    binary64, which has the same zero, infinities and NaN. *)

Definition video_array : Type := list (list (list (list float))).

(** [np.mean] and [np.std] of the values at one pixel position, summed in the
    order of the list, in binary64. numpy accumulates in the array's own
    precision (binary32 for the pipeline's arrays) and in an order of its own;
    the results are the same where every partial sum is exact in both, as on
    the corpus of the zero-variance property below. *)
Definition fsum (l : list float) : float := fold_left PrimFloat.add l 0%float.

Definition float_of_nat (n : nat) : float := PrimFloat.of_uint63 (Uint63.of_Z (Z.of_nat n)).

Definition fmean (l : list float) : float := (fsum l / float_of_nat (length l))%float.

Definition fstd (l : list float) : float :=
  let m := fmean l in
  PrimFloat.sqrt (fmean (map (fun x => PrimFloat.abs (x - m) * PrimFloat.abs (x - m))%float l)).

(** The values at pixel position [(r, c)] over every slice and frame: the
    entries reduced by [axis=(0, 3)]. *)
Definition pixel_values (video_samples : video_array) (r c : nat) : list float :=
  concat (map (fun slice => default [] (slice !! r ≫= (.!! c))) video_samples).

Definition image_shape (video_samples : video_array) : nat * nat :=
  match video_samples with
  | [] => (0, 0)%nat
  | slice :: _ => (length slice, match slice with row :: _ => length row | [] => 0%nat end)
  end.

Definition reduce_image (f : list float -> float) (video_samples : video_array)
    : list (list float) :=
  let '(height, width) := image_shape video_samples in
  map (fun r => map (fun c => f (pixel_values video_samples r c)) (seq 0 width))
      (seq 0 height).

Record VideoNormalizer : Type := mk_normalizer {
  mean_image : list (list float);
  std_image : list (list float)
}.

(** [VideoNormalizer.__init__], lines 161-164. *)
Definition VideoNormalizer_init (video_samples : video_array) : VideoNormalizer :=
  mk_normalizer (reduce_image fmean video_samples) (reduce_image fstd video_samples).

(** [video_samples[s, :, :, f] op= img], in place. *)
Definition update_plane (op : float -> float -> float) (img : list (list float))
    (s f : nat) (video_samples : video_array) : video_array :=
  imap (fun s' slice =>
    if (s' =? s)%nat then
      imap (fun r row =>
        imap (fun c px =>
          imap (fun f' x =>
            if (f' =? f)%nat
            then op x (default nan (img !! r ≫= (.!! c)))
            else x) px) row) slice
    else slice) video_samples.

(** [video_samples.shape[3]]. *)
Definition n_frames_per_slice (video_samples : video_array) : nat :=
  match video_samples with
  | ((px :: _) :: _) :: _ => length px
  | _ => 0
  end.

(** [VideoNormalizer.normalize], lines 166-170: the array after the in-place
    loops. *)
Definition normalize (self : VideoNormalizer) (video_samples : video_array) : video_array :=
  fold_left (fun v s =>
    fold_left (fun v f =>
      let v := update_plane PrimFloat.sub (mean_image self) s f v in
      update_plane PrimFloat.div (std_image self) s f v)
      (seq 0 (n_frames_per_slice video_samples)) v)
    (seq 0 (length video_samples)) video_samples.

(** The specification's reading of the noise extension: the noise repeated
    periodically, [n] samples of it. *)
Definition tiled (noise : list Q) (n : nat) : list Q :=
  map (fun i => default 0%Q (noise !! (i mod length noise)%nat)) (seq 0 n).

Section Pipeline.

(** *** External collaborators *)

(** Decoded frames and cropped mouth images; [FaceDetector.crop_mouth] may
    fail. *)
Variables frame image : Type.
Variable crop_mouth : frame -> outcome image.

(** The file system: a video file decodes to its frames and frame rate, a wav
    file to its samples and sample rate. *)
Variable video_at : string -> option (list frame * float).
Variable wav_at : string -> option (list Q * Z).

(** [noise.amplify(speech)] scales the noise by a gain that depends on both
    signals; the specification leaves the gain open. *)
Variable amplify_gain : list Q -> list Q -> Q.

(** The value of [amplitude_to_db(magphase(stft(data, n_fft, hop_length))[0])]
    at a frequency bin and a time frame. *)
Variable stft_db : list Q -> Z -> Z -> Z -> Z -> Q.

(** [MelConverter(rate, n_fft, hop_length, ...).signal_to_mel_spectrogram]. *)
Variable mel_spectrogram : AudioSignal -> Z -> Z -> outcome spectrogram.

(** Modelled from the spec: [AudioSignal.from_wav_file(path)] loads a waveform;
    a missing file is an error. *)
Definition from_wav_file (path : string) : M loc :=
  match wav_at path with
  | Some (data, rate) => new (mk_signal data rate)
  | None => raise IOError
  end.

(** Modelled from the spec: [noise.amplify(reference)] scales the samples in
    place. *)
Definition amplify (l reference : loc) : M unit :=
  (o <- load l ;;
   r <- load reference ;;
   store l (mk_signal (map (Qmult (amplify_gain (sig_data o) (sig_data r))) (sig_data o))
                      (sig_rate o)))%M.

(** [librosa.stft] with its default centring: [1 + n_fft // 2] frequency bins,
    and one frame per hop over the signal padded with [n_fft // 2] zeros at
    both ends. It rejects a hop length below 1, and a padded signal shorter
    than one frame: an empty signal under an odd [n_fft]. An empty signal
    under an even [n_fft] gives one frame. (The pipeline calls it with
    [hop_length = n_fft // 4], so [n_fft] is at least 4 when the hop length is
    accepted.) *)
Definition librosa_stft_db (data : list Q) (n_fft hop_length : Z) : outcome spectrogram :=
  if (hop_length <? 1)%Z then Raise ParameterError
  else
    let padded := (Z.of_nat (length data) + 2 * (n_fft / 2))%Z in
    if (padded <? n_fft)%Z then Raise ParameterError
    else
      Ret (mk_spectrogram (1 + n_fft / 2)
                          (1 + (padded - n_fft) / hop_length)
                          (stft_db data n_fft hop_length)).

(** *** Video slicer *)

(** The loop of lines 20-21: one mouth crop per frame, in order; the first
    failing detection propagates. *)
Fixpoint crop_all (frames : list frame) : outcome (list image) :=
  match frames with
  | [] => Ret []
  | f :: rest =>
      (c <- crop_mouth f ;; cs <- crop_all rest ;; Ret (c :: cs))%O
  end.

(** The shape of [mouth_cropped_frames[:, :, a:b]]. *)
Definition video_slice_shape (mouth_height mouth_width : Z) (s : list image) : list Z :=
  [mouth_height; mouth_width; Z.of_nat (length s)].

(** [preprocess_video_sample], lines 11-31. The mouth-cropped volume is kept
    as the list of crops along its frame axis. *)
Definition preprocess_video_sample (video_file_path : string) (slice_duration_ms : Z)
    (mouth_height mouth_width : Z) : outcome (stack (list image) * float) :=
  match video_at video_file_path with
  | None => Raise IOError
  | Some (frames, frame_rate) =>
      (mouth_cropped_frames <- crop_all frames ;;
       let frame_count := Z.of_nat (length frames) in
       frames_per_slice <- frames_per_slice slice_duration_ms frame_rate ;;
       n_slices <- py_int_div frame_count frames_per_slice ;;
       let slices :=
         map (fun i => py_slice (i * frames_per_slice) ((i + 1) * frames_per_slice)
                                mouth_cropped_frames)
             (py_range n_slices) in
       stacked <- np_stack (video_slice_shape mouth_height mouth_width) slices ;;
       Ret (stacked, frame_rate))%O
  end.

(** *** Audio slicer *)

(** Lines 35-41 of [preprocess_audio_signal]: the waveform is forced to
    [samples_per_slice * n_video_slices] samples. Returns [samples_per_slice]. *)
Definition force_length (audio_signal : loc) (slice_duration_ms n_video_slices : Z) : M Z :=
  (sample_rate <- get_sample_rate audio_signal ;;
   samples_per_slice <- lift (samples_per_slice slice_duration_ms sample_rate) ;;
   let signal_length := (samples_per_slice * n_video_slices)%Z in
   n <- get_number_of_samples audio_signal ;;
   (if (n <? signal_length)%Z
    then pad_with_zeros audio_signal signal_length
    else truncate audio_signal signal_length) ;;;
   ret samples_per_slice)%M.

(** A waveform after lines 38-41, for a target [signal_length]. *)
Definition force_to (o : AudioSignal) (signal_length : Z) : AudioSignal :=
  if (Z.of_nat (length (sig_data o)) <? signal_length)%Z
  then mk_signal (sig_data o
                  ++ replicate (Z.to_nat signal_length - length (sig_data o)) 0%Q)
                 (sig_rate o)
  else mk_signal (take (Z.to_nat signal_length) (sig_data o)) (sig_rate o).

(** The waveform that [force_length] leaves behind; when line 35 raises, the
    waveform is as it was. *)
Definition forced_signal (o : AudioSignal) (slice_duration_ms n_video_slices : Z)
    : AudioSignal :=
  match samples_per_slice slice_duration_ms (sig_rate o) with
  | Ret samples_per_slice => force_to o (samples_per_slice * n_video_slices)
  | _ => o
  end.

(** A slice of a linear dB spectrogram: its cells are those of the transform of
    some signal, from some frame on. *)
Definition linear_db_slice (s : spectrogram) : Prop :=
  exists data n_fft hop_length a,
    forall k t, cell s k t = stft_db data n_fft hop_length k (a + t)%Z.

(** A stack the linear path of the audio slicer may return for
    [n_video_slices]: enough slices, each with an even number of bins. *)
Definition well_sliced (n_video_slices : Z) (st : stack spectrogram) : Prop :=
  (n_video_slices <= shape0 st)%Z
  /\ forall s, In s (items st) -> (n_bins s mod 2 = 0)%Z /\ linear_db_slice s.

(** Lines 46-53: the spectrogram, mel-scale or linear magnitude in dB. *)
Definition compute_spectrogram (audio_signal : loc) (n_fft hop_length : Z) (mel : bool)
    : M spectrogram :=
  (if mel then
     o <- load audio_signal ;;
     lift (mel_spectrogram o n_fft hop_length)
   else
     data <- get_data audio_signal ;;
     spectrogram <- lift (librosa_stft_db data n_fft hop_length) ;;
     ret (if negb (n_bins spectrogram mod 2 =? 0)%Z
          then drop_last_bin spectrogram
          else spectrogram))%M.

(** [preprocess_audio_signal], lines 34-63. *)
Definition preprocess_audio_signal (audio_signal : loc)
    (slice_duration_ms n_video_slices : Z) (video_frame_rate : float) (mel : bool)
    : M (stack spectrogram) :=
  (samples_per_slice <- force_length audio_signal slice_duration_ms n_video_slices ;;
   sample_rate <- get_sample_rate audio_signal ;;
   n_fft <- lift (n_fft_of sample_rate video_frame_rate) ;;
   let hop_length := hop_length_of n_fft in
   spectrogram <- compute_spectrogram audio_signal n_fft hop_length mel ;;
   spectrogram_samples_per_slice <- lift (py_int_div samples_per_slice hop_length) ;;
   n_slices <- lift (py_int_div (n_frames spectrogram) spectrogram_samples_per_slice) ;;
   let slices :=
     map (fun i => slice_frames (i * spectrogram_samples_per_slice)
                                ((i + 1) * spectrogram_samples_per_slice) spectrogram)
         (py_range n_slices) in
   lift (np_stack spectrogram_shape slices))%M.

(** *** Audio pair mixer *)

(** The loop of lines 88-89. Every iteration binds [noise_signal] to a new
    object; the loop has no bound of its own, so the model takes fuel. *)
Fixpoint extend_noise (fuel : nat) (speech_signal noise_signal : loc) : M loc :=
  (n_noise <- get_number_of_samples noise_signal ;;
   n_speech <- get_number_of_samples speech_signal ;;
   if (n_noise <? n_speech)%Z then
     match fuel with
     | O => diverge
     | S fuel' =>
         noise_signal' <- AudioSignal_concat [noise_signal; noise_signal] ;;
         extend_noise fuel' speech_signal noise_signal'
     end
   else ret noise_signal)%M.

(** Lines 88-91: the noise extended by the loop, then cut to the speech
    signal's length. *)
Definition extend_and_truncate_noise (fuel : nat) (speech_signal noise_signal : loc)
    : M loc :=
  (noise_signal <- extend_noise fuel speech_signal noise_signal ;;
   n_speech <- get_number_of_samples speech_signal ;;
   truncate noise_signal n_speech ;;;
   ret noise_signal)%M.

(** Lines 85-94: load both files, extend and cut the noise, amplify it and mix.
    Returns the speech, noise and mixed signals. *)
Definition load_and_mix (fuel : nat) (speech_file_path noise_file_path : string)
    : M (loc * loc * loc) :=
  (speech_signal <- from_wav_file speech_file_path ;;
   noise_signal <- from_wav_file noise_file_path ;;
   noise_signal <- extend_and_truncate_noise fuel speech_signal noise_signal ;;
   amplify noise_signal speech_signal ;;;
   mixed_signal <- AudioMixer_mix [speech_signal; noise_signal] [1%Q; 1%Q] ;;
   ret (speech_signal, noise_signal, mixed_signal))%M.

Record pair_result : Type := mk_pair_result {
  pr_mixed_spectrograms : stack spectrogram;
  pr_speech_spectrograms : stack spectrogram;
  pr_noise_spectrograms : stack spectrogram;
  pr_original_mixed : loc;
  pr_peak : Q
}.

(** Lines 96-104: keep the mixed signal, normalize, slice the three signals. *)
Definition normalize_and_slice (signals : loc * loc * loc)
    (slice_duration_ms n_video_slices : Z) (video_frame_rate : float) (mel : bool)
    : M pair_result :=
  (let '(speech_signal, noise_signal, mixed_signal) := signals in
   mixed_data <- get_data mixed_signal ;;
   mixed_rate <- get_sample_rate mixed_signal ;;
   original_mixed <- AudioSignal_init mixed_data mixed_rate ;;
   peak <- peak_normalize mixed_signal None ;;
   peak_normalize speech_signal (Some peak) ;;;
   speech_spectrograms <-
     preprocess_audio_signal speech_signal slice_duration_ms n_video_slices
                             video_frame_rate mel ;;
   noise_spectrograms <-
     preprocess_audio_signal noise_signal slice_duration_ms n_video_slices
                             video_frame_rate mel ;;
   mixed_spectrograms <-
     preprocess_audio_signal mixed_signal slice_duration_ms n_video_slices
                             video_frame_rate mel ;;
   ret (mk_pair_result mixed_spectrograms speech_spectrograms noise_spectrograms
                       original_mixed peak))%M.

(** [preprocess_audio_pair], lines 82-104. *)
Definition preprocess_audio_pair (fuel : nat) (speech_file_path noise_file_path : string)
    (slice_duration_ms n_video_slices : Z) (video_frame_rate : float) (mel : bool)
    : M pair_result :=
  (signals <- load_and_mix fuel speech_file_path noise_file_path ;;
   normalize_and_slice signals slice_duration_ms n_video_slices video_frame_rate mel)%M.

(** *** Sample orchestrator *)

(** The tuple [preprocess_sample] returns. *)
Record Sample : Type := mk_sample {
  video_samples : stack (list image);
  mixed_spectrograms : stack spectrogram;
  speech_spectrograms : stack spectrogram;
  noise_spectrograms : stack spectrogram;
  mixed_signal : loc;
  peak : Q;
  video_frame_rate : float
}.

(** [preprocess_sample], lines 107-125; the mouth crop size is the default
    128 by 128 of [preprocess_video_sample]. *)
Definition preprocess_sample (fuel : nat)
    (video_file_path speech_file_path noise_file_path : string)
    (slice_duration_ms : Z) : M Sample :=
  (video <- lift (preprocess_video_sample video_file_path slice_duration_ms 128 128) ;;
   let '(video_samples, video_frame_rate) := video in
   pair <- preprocess_audio_pair fuel speech_file_path noise_file_path
             slice_duration_ms (shape0 video_samples) video_frame_rate false ;;
   let n_slices := Z.min (shape0 video_samples) (shape0 (pr_mixed_spectrograms pair)) in
   ret (mk_sample (stack_take n_slices video_samples)
                  (stack_take n_slices (pr_mixed_spectrograms pair))
                  (stack_take n_slices (pr_speech_spectrograms pair))
                  (stack_take n_slices (pr_noise_spectrograms pair))
                  (pr_original_mixed pair)
                  (pr_peak pair)
                  video_frame_rate))%M.

(** [try_preprocess_sample], lines 128-134: [preprocess_sample] on the triple, with
    the default [slice_duration_ms=200]; an exception becomes [None]. Console
    output is not modelled. *)
Definition try_preprocess_sample (fuel : nat) (sample : string * string * string)
    : M (option Sample) :=
  fun h =>
    let '(video_file_path, speech_file_path, noise_file_path) := sample in
    match preprocess_sample fuel video_file_path speech_file_path noise_file_path 200 h with
    | Ret (p, h') => Ret (Some p, h')
    | Raise _ => Ret (None, h)
    | Diverge => Diverge
    end.

(** *** Batch orchestrator *)

(** [zip(video_file_paths, speech_file_paths, noise_file_paths)]: as long as
    the shortest list. *)
Definition zip3 {A B C : Type} (a : list A) (b : list B) (c : list C) : list (A * B * C) :=
  zip (zip a b) c.

(** [thread_pool.map(f, xs)]: the results in the order of [xs]. A worker is a
    process of its own, started from the caller's store; what it allocates is
    its own and is gone when it is done. A worker that raises makes [map]
    raise; one that never finishes keeps [map] from returning. *)
Fixpoint pool_map {A B : Type} (f : A -> M B) (xs : list A) (h : heap) : outcome (list B) :=
  match xs with
  | [] => Ret []
  | x :: rest =>
      match f x h with
      | Ret (y, _) => (ys <- pool_map f rest h ;; Ret (y :: ys))%O
      | Raise e => Raise e
      | Diverge => Diverge
      end
  end.

(** The list comprehension of line 144. *)
Definition not_none {A : Type} (preprocessed : list (option A)) : list A :=
  omap id preprocessed.

(** [preprocess_data], lines 137-156. *)
Definition preprocess_data (fuel : nat)
    (video_file_paths speech_file_paths noise_file_paths : list string)
    : M (stack (list image) * stack spectrogram * stack spectrogram * stack spectrogram) :=
  fun h =>
    let samples := zip3 video_file_paths speech_file_paths noise_file_paths in
    (preprocessed <- pool_map (try_preprocess_sample fuel) samples h ;;
     let preprocessed := not_none preprocessed in
     v <- np_concatenate (map video_samples preprocessed) ;;
     m <- np_concatenate (map mixed_spectrograms preprocessed) ;;
     s <- np_concatenate (map speech_spectrograms preprocessed) ;;
     n <- np_concatenate (map noise_spectrograms preprocessed) ;;
     Ret (v, m, s, n, h))%O.


(** What became of one sample in the pool: kept when [preprocess_sample]
    returned, [None] when it raised. *)
Definition sample_outcome (fuel : nat) (h : list AudioSignal)
    (sample : string * string * string) (r : option Sample) : Prop :=
  let '(video_file_path, speech_file_path, noise_file_path) := sample in
  match r with
  | Some p =>
      exists h', preprocess_sample fuel video_file_path speech_file_path
                                   noise_file_path 200 h = Ret (p, h')
  | None =>
      exists e, preprocess_sample fuel video_file_path speech_file_path
                                  noise_file_path 200 h = Raise e
  end.

(** The surviving samples can be concatenated: there is one at least, and on
    each of the four streams they agree on the shape of a slice. *)
Definition concatenable (survivors : list Sample) : Prop :=
  survivors <> []
  /\ same_item_shapes (map video_samples survivors)
  /\ same_item_shapes (map mixed_spectrograms survivors)
  /\ same_item_shapes (map speech_spectrograms survivors)
  /\ same_item_shapes (map noise_spectrograms survivors).

(** The spectrogram of lines 50-53 after the test of lines 52-53: an odd number
    of frequency bins loses its last bin. *)
Definition trim_to_even (sp : spectrogram) : spectrogram :=
  if negb (n_bins sp mod 2 =? 0)%Z then drop_last_bin sp else sp.

(** What the linear path of the audio slicer needs beyond a sample count per
    slice (line 35) and an n_fft (line 43): a hop of at least one sample and a
    slice of at least one hop (lines 50 and 56), a padded signal of at least
    one frame (line 50), and at least one whole window among the frames (line
    63). The forced signal has [max(0, samples * n_video_slices)] samples. *)
Definition slicing_fits (samples n_video_slices n_fft : Z) : Prop :=
  let hop_length := hop_length_of n_fft in
  let signal_length := Z.max 0 (samples * n_video_slices) in
  (1 <= hop_length <= samples)%Z
  /\ (n_fft <= signal_length + 2 * (n_fft / 2))%Z
  /\ (Z.quot samples hop_length
      <= 1 + (signal_length + 2 * (n_fft / 2) - n_fft) / hop_length)%Z.

(** Lines 56-63 on a spectrogram: [n_frames // q] windows of [q] frames,
    stacked. *)
Definition sliced (sp : spectrogram) (q : Z) : stack spectrogram :=
  mk_stack [n_bins sp; q]
           (map (fun i => slice_frames (i * q) ((i + 1) * q) sp)
                (py_range (Z.quot (n_frames sp) q))).

(** Arrays side by side along the time axis. *)
Fixpoint hstack (bins : Z) (arrays : list spectrogram) : spectrogram :=
  match arrays with
  | [] => mk_spectrogram bins 0 (fun _ _ => 0%Q)
  | a :: rest =>
      let r := hstack bins rest in
      mk_spectrogram bins (n_frames a + n_frames r)
        (fun k t => if (t <? n_frames a)%Z then cell a k t else cell r k (t - n_frames a))
  end.

(** [np.concatenate(arrays, axis=1)]: raises on an empty list and when the
    arrays disagree on the number of frequency bins. *)
Definition np_concatenate_axis1 (arrays : list spectrogram) : outcome spectrogram :=
  match arrays with
  | [] => Raise ValueError
  | a :: _ =>
      if forallb (fun b => (n_bins b =? n_bins a)%Z) arrays
      then Ret (hstack (n_bins a) arrays)
      else Raise ValueError
  end.

(** *** Signal reconstructor *)

(** The phase that [MelConverter(rate, n_fft, hop_length, ...)
    .signal_to_mel_spectrogram(signal, get_phase=True)] returns beside the
    spectrogram, and [MelConverter.reconstruct_signal_from_spectrogram
    (spectrogram, phase, peak, mel=False, db=db)] of a converter built with
    [rate], [n_fft] and [hop_length]. *)
Variable signal_phase : AudioSignal -> Z -> Z -> outcome spectrogram.
Variable reconstruct_signal_from_spectrogram :
  Z -> Z -> Z -> spectrogram -> spectrogram -> Q -> bool -> outcome AudioSignal.

(** [reconstruct_speech_signal], lines 66-79. The reconstructed waveform is a
    new object. *)
Definition reconstruct_speech_signal (mixed_signal : loc)
    (speech_spectrograms : stack spectrogram) (video_frame_rate : float) (peak : Q)
    (db : bool) : M loc :=
  (sample_rate <- get_sample_rate mixed_signal ;;
   n_fft <- lift (n_fft_of sample_rate video_frame_rate) ;;
   let hop_length := hop_length_of n_fft in
   mixed <- load mixed_signal ;;
   original_phase <- lift (signal_phase mixed n_fft hop_length) ;;
   speech_spectrogram <- lift (np_concatenate_axis1 (items speech_spectrograms)) ;;
   let spectrogram_length :=
     Z.min (n_frames speech_spectrogram) (n_frames original_phase) in
   let speech_spectrogram := slice_frames 0 spectrogram_length speech_spectrogram in
   let original_phase :=
     slice_frames 0 spectrogram_length (drop_last_bin original_phase) in
   reconstructed <-
     lift (reconstruct_signal_from_spectrogram sample_rate n_fft hop_length
             speech_spectrogram original_phase peak db) ;;
   new reconstructed)%M.

(** * Properties *)

(** ** Facts about [int] *)

Lemma py_int_inject_div (a b : Z) :
  (b <> 0)%Z -> py_int (inject_Z a / inject_Z b)%Q = Z.quot a b.
Proof.
  intros Hb. unfold py_int, Qdiv, Qmult, Qinv, inject_Z. simpl.
  destruct b as [|p|p]; [congruence| |]; simpl.
  - rewrite Z.mul_1_r. reflexivity.
  - change (Z.pos (1 * p)) with (Z.pos p).
    change (Z.neg p) with (- Z.pos p)%Z.
    replace (a * -1)%Z with (- a)%Z by lia.
    rewrite Z.quot_opp_l, Z.quot_opp_r by lia. reflexivity.
Qed.

Lemma py_int_div_nonzero (a b : Z) :
  (b <> 0)%Z -> py_int_div a b = Ret (Z.quot a b).
Proof.
  intros Hb. unfold py_int_div, py_truediv.
  destruct (Qeq_bool (inject_Z b) 0) eqn:E.
  - apply Qeq_bool_eq in E. unfold Qeq in E. simpl in E. lia.
  - simpl. now rewrite py_int_inject_div.
Qed.

Lemma py_int_div_zero (a : Z) : py_int_div a 0 = Raise ZeroDivisionError.
Proof. reflexivity. Qed.

Lemma hop_length_quot (n_fft : Z) : hop_length_of n_fft = Z.quot n_fft 4.
Proof. unfold hop_length_of. apply (py_int_inject_div n_fft 4). lia. Qed.

Lemma toward_zero_inject_Z (z : Z) : toward_zero (inject_Z z) = z.
Proof.
  unfold toward_zero. destruct (Qle_bool 0 (inject_Z z)).
  - apply Qfloor_Z.
  - apply Qceiling_Z.
Qed.

(** [int(x)] drops the fractional part of the number the float stands for. *)
Lemma py_int_float_toward_zero (x : float) (z : Z) :
  py_int_float x = Ret z -> z = toward_zero (float_value x).
Proof.
  unfold py_int_float, float_value.
  destruct (Prim2SF x) as [s|s| |s m e]; intros H; inversion H as [Hz]; clear H.
  - reflexivity.
  - destruct (Z.leb_spec 0 e) as [He|He].
    + rewrite toward_zero_inject_Z. destruct s; [|reflexivity].
      change (Z.neg m) with (- Z.pos m)%Z. lia.
    + assert (Hd : Z.pos (2 ^ Z.to_pos (- e)) = (2 ^ (- e))%Z).
      { rewrite Pos2Z.inj_pow, Z2Pos.id by lia. reflexivity. }
      unfold toward_zero. destruct s.
      * assert (Hneg : Qle_bool 0 (Z.neg m # 2 ^ Z.to_pos (- e)) = false).
        { unfold Qle_bool. cbn [Qnum Qden]. apply Z.leb_gt. lia. }
        rewrite Hneg. unfold Qceiling, Qfloor, Qopp. cbn [Qnum Qden].
        now rewrite Hd.
      * assert (Hpos : Qle_bool 0 (Z.pos m # 2 ^ Z.to_pos (- e)) = true).
        { unfold Qle_bool. cbn [Qnum Qden]. apply Z.leb_le. lia. }
        rewrite Hpos. unfold Qfloor. now rewrite Hd.
Qed.

(** ** The time base truncates binary64 values (C3) *)

(** C3, as stated, fails: with a 750 ms slice at 25 frames per second the
    product is 18.75, exactly so in binary64 too, the source computes 18
    frames per slice, and 18 is not the nearest integer. *)
Lemma time_base_not_nearest :
  frames_per_slice 750 25 = Ret 18%Z
  /\ ~ nearest_integer ((inject_Z 750 / 1000) * float_value 25)%Q 18
  /\ ~ spec_time_base 750 25 16000 25.
Proof.
  assert (H : ~ nearest_integer ((inject_Z 750 / 1000) * float_value 25)%Q 18).
  { unfold nearest_integer. vm_compute. intros H. apply H. reflexivity. }
  split; [vm_compute; reflexivity|]. split; [exact H|].
  intros (frames & samples & n_fft & Hf & Hn & _).
  vm_compute in Hf. inversion Hf. subst frames. exact (H Hn).
Qed.

(** Nor are the parameters the floor of the exact value: the source rounds
    every operation in binary64 before [int()] truncates. 1160 ms at 25
    frames per second is exactly 29 frames and the source computes 28; 350 ms
    at 44100 Hz is exactly 15435 samples and the source computes 15434;
    16000 Hz over the float nearest to 12.8 is less than 1250 and the source
    computes 1250. *)
Lemma time_base_rounds_in_binary64 :
  frames_per_slice 1160 25 = Ret 28%Z
  /\ Qfloor ((inject_Z 1160 / 1000) * float_value 25)%Q = 29%Z
  /\ samples_per_slice 350 44100 = Ret 15434%Z
  /\ Qfloor ((inject_Z 350 / 1000) * inject_Z 44100)%Q = 15435%Z
  /\ n_fft_of 16000 0x1.999999999999ap+3 = Ret 1250%Z
  /\ Qfloor (inject_Z 16000 / float_value 0x1.999999999999ap+3)%Q = 1249%Z.
Proof. repeat split; vm_compute; reflexivity. Qed.

(** C3, amended: the time base is computed in binary64 and [int()] truncates
    it. Whenever the source computes them, frames_per_slice is the integer
    part of the float [float(ms) / 1000 * frame_rate], samples_per_slice the
    integer part of the float [float(ms) / 1000 * float(sample_rate)], n_fft
    the integer part of the float [float(sample_rate) / video_frame_rate], and
    hop_length is [n_fft / 4] without its fractional part, the floor for the
    non-negative n_fft of the pipeline. *)
Theorem time_base_truncates (slice_duration_ms : Z) (frame_rate : float)
    (sample_rate : Z) (video_frame_rate : float) (frames samples n_fft : Z) :
  frames_per_slice slice_duration_ms frame_rate = Ret frames ->
  samples_per_slice slice_duration_ms sample_rate = Ret samples ->
  n_fft_of sample_rate video_frame_rate = Ret n_fft ->
  exists (ms rate : float),
    py_float slice_duration_ms = Ret ms
    /\ py_float sample_rate = Ret rate
    /\ frames = toward_zero (float_value (ms / 1000 * frame_rate))
    /\ samples = toward_zero (float_value (ms / 1000 * rate))
    /\ n_fft = toward_zero (float_value (rate / video_frame_rate))
    /\ hop_length_of n_fft = Z.quot n_fft 4
    /\ ((0 <= n_fft)%Z -> hop_length_of n_fft = (n_fft / 4)%Z).
Proof.
  unfold frames_per_slice, samples_per_slice, n_fft_of. intros Hf Hs Hn.
  destruct (py_float slice_duration_ms) as [ms| |]; try discriminate.
  destruct (py_float sample_rate) as [rate| |]; try discriminate.
  cbn [obind] in Hf, Hs, Hn.
  unfold py_float_div in Hn.
  destruct (video_frame_rate =? 0)%float; [discriminate|]. cbn [obind] in Hn.
  exists ms, rate.
  split; [reflexivity|]. split; [reflexivity|].
  split; [now apply py_int_float_toward_zero|].
  split; [now apply py_int_float_toward_zero|].
  split; [now apply py_int_float_toward_zero|].
  rewrite hop_length_quot. split; [reflexivity|].
  intros Hpos. apply Z.quot_div_nonneg; lia.
Qed.

Lemma time_base_truncates_witness :
  exists (ms rate : float),
    py_float 350 = Ret ms
    /\ py_float 44100 = Ret rate
    /\ 8%Z = toward_zero (float_value (ms / 1000 * 25))
    /\ 15434%Z = toward_zero (float_value (ms / 1000 * rate))
    /\ 1764%Z = toward_zero (float_value (rate / 25))
    /\ hop_length_of 1764 = Z.quot 1764 4
    /\ ((0 <= 1764)%Z -> hop_length_of 1764 = (1764 / 4)%Z).
Proof.
  apply (time_base_truncates 350 25 44100 25 8 15434 1764);
    vm_compute; reflexivity.
Defined.

(** ** Running store computations *)

Lemma bind_run {A B : Type} (m : M A) (k : A -> M B) (h h1 : heap) (a : A) :
  m h = Ret (a, h1) -> bind m k h = k a h1.
Proof. intros H. unfold bind. now rewrite H. Qed.

Lemma bind_ret_inv {A B : Type} (m : M A) (k : A -> M B) (h h2 : heap) (b : B) :
  bind m k h = Ret (b, h2) ->
  exists a h1, m h = Ret (a, h1) /\ k a h1 = Ret (b, h2).
Proof.
  unfold bind. destruct (m h) as [[a h1]| |]; [eauto|discriminate|discriminate].
Qed.

Lemma lift_ret_inv {A : Type} (m : outcome A) (h h1 : heap) (a : A) :
  lift m h = Ret (a, h1) -> m = Ret a /\ h1 = h.
Proof. unfold lift. destruct m; intros H; inversion H; auto. Qed.

Lemma ret_ret_inv {A : Type} (a b : A) (h h1 : heap) :
  ret a h = Ret (b, h1) -> b = a /\ h1 = h.
Proof. unfold ret. intros H. inversion H. auto. Qed.

Lemma load_run (l : loc) (h : heap) (o : AudioSignal) :
  h !! l = Some o -> load l h = Ret (o, h).
Proof. intros H. unfold load. now rewrite H. Qed.

Lemma load_ret_inv (l : loc) (h h1 : heap) (o : AudioSignal) :
  load l h = Ret (o, h1) -> h !! l = Some o /\ h1 = h.
Proof.
  unfold load. destruct (h !! l); intros H; inversion H; auto.
Qed.

Lemma get_number_of_samples_run (l : loc) (h : heap) (o : AudioSignal) :
  h !! l = Some o ->
  get_number_of_samples l h = Ret (Z.of_nat (length (sig_data o)), h).
Proof. intros H. unfold get_number_of_samples. now rewrite (bind_run _ _ _ _ _ (load_run _ _ _ H)). Qed.

Lemma get_sample_rate_run (l : loc) (h : heap) (o : AudioSignal) :
  h !! l = Some o -> get_sample_rate l h = Ret (sig_rate o, h).
Proof. intros H. unfold get_sample_rate. now rewrite (bind_run _ _ _ _ _ (load_run _ _ _ H)). Qed.

Lemma get_data_run (l : loc) (h : heap) (o : AudioSignal) :
  h !! l = Some o -> get_data l h = Ret (sig_data o, h).
Proof. intros H. unfold get_data. now rewrite (bind_run _ _ _ _ _ (load_run _ _ _ H)). Qed.

Lemma truncate_run (l : loc) (n : Z) (h : heap) (o : AudioSignal) :
  h !! l = Some o ->
  truncate l n h
  = Ret (tt, <[l := mk_signal (take (Z.to_nat n) (sig_data o)) (sig_rate o)]> h).
Proof. intros H. unfold truncate. now rewrite (bind_run _ _ _ _ _ (load_run _ _ _ H)). Qed.

Lemma pad_with_zeros_run (l : loc) (n : Z) (h : heap) (o : AudioSignal) :
  h !! l = Some o ->
  pad_with_zeros l n h
  = Ret (tt, <[l := mk_signal
                      (sig_data o ++ replicate (Z.to_nat n - length (sig_data o)) 0%Q)
                      (sig_rate o)]> h).
Proof. intros H. unfold pad_with_zeros. now rewrite (bind_run _ _ _ _ _ (load_run _ _ _ H)). Qed.

Lemma concat_twice_run (l : loc) (h : heap) (o : AudioSignal) :
  h !! l = Some o ->
  AudioSignal_concat [l; l] h
  = Ret (length h, h ++ [mk_signal (sig_data o ++ sig_data o) (sig_rate o)]).
Proof.
  intros H. unfold AudioSignal_concat, load_all, bind, load, ret, new.
  rewrite H. simpl. rewrite H. simpl. now rewrite app_nil_r.
Qed.

(** ** The noise extension (C5, C6) *)

Lemma tiled_length (noise : list Q) (n : nat) : length (tiled noise n) = n.
Proof. unfold tiled. now rewrite length_map, length_seq. Qed.

Lemma tiled_lookup (noise : list Q) (n i : nat) :
  (i < n)%nat ->
  tiled noise n !! i = Some (default 0%Q (noise !! (i mod length noise)%nat)).
Proof.
  intros Hi. unfold tiled.
  change (map ?f ?l) with (f <$> l).
  rewrite list_lookup_fmap, lookup_seq_lt by exact Hi. reflexivity.
Qed.

Lemma tiled_take (noise : list Q) (n m : nat) :
  (n <= m)%nat -> take n (tiled noise m) = tiled noise n.
Proof.
  intros H. unfold tiled. rewrite firstn_map. f_equal.
  rewrite take_seq. f_equal. lia.
Qed.


Lemma tiled_double (noise : list Q) (k : nat) :
  tiled noise (k * length noise) ++ tiled noise (k * length noise)
  = tiled noise (2 * (k * length noise)).
Proof.
  set (m := (k * length noise)%nat).
  apply list_eq. intros i.
  destruct (decide (i < m)%nat) as [Hlt|Hge].
  - rewrite lookup_app_l by (rewrite tiled_length; exact Hlt).
    rewrite !tiled_lookup by lia. reflexivity.
  - rewrite lookup_app_r by (rewrite tiled_length; lia).
    rewrite tiled_length.
    destruct (decide (i < 2 * m)%nat) as [Hlt2|Hge2].
    + rewrite !tiled_lookup by lia. do 3 f_equal.
      destruct (length noise) as [|p] eqn:E; [unfold m in *; lia|].
      replace i with ((i - m) + k * S p)%nat at 2 by (unfold m; lia).
      now rewrite Nat.Div0.mod_add.
    + rewrite !lookup_ge_None_2; [reflexivity| |]; rewrite tiled_length; lia.
Qed.

(** The loop, from a noise signal that already is a whole number of periods:
    it ends within [length speech - length noise] iterations, on a whole number
    of periods at least as long as the speech, and touches no other object. *)
Lemma extend_noise_tiles (orig : list Q) (speech_signal : loc) (os : AudioSignal) :
  forall (fuel : nat) (h : heap) (noise_signal : loc) (k : nat) (rate : Z),
    h !! speech_signal = Some os ->
    h !! noise_signal = Some (mk_signal (tiled orig (k * length orig)) rate) ->
    (0 < k * length orig)%nat ->
    (length (sig_data os) - k * length orig <= fuel)%nat ->
    exists (noise_signal' : loc) (h' : heap) (k' : nat),
      extend_noise fuel speech_signal noise_signal h = Ret (noise_signal', h')
      /\ h' !! noise_signal' = Some (mk_signal (tiled orig (k' * length orig)) rate)
      /\ (length (sig_data os) <= k' * length orig)%nat
      /\ (forall l o, h !! l = Some o -> h' !! l = Some o).
Proof.
  induction fuel as [|fuel IH]; intros h noise_signal k rate Hs Hn Hpos Hfuel.
  - exists noise_signal, h, k. simpl.
    rewrite (bind_run _ _ _ _ _ (get_number_of_samples_run _ _ _ Hn)).
    rewrite (bind_run _ _ _ _ _ (get_number_of_samples_run _ _ _ Hs)).
    simpl. rewrite tiled_length.
    destruct (Z.ltb_spec (Z.of_nat (k * length orig)) (Z.of_nat (length (sig_data os))));
      [lia|].
    repeat split; [exact Hn|lia|auto].
  - simpl.
    rewrite (bind_run _ _ _ _ _ (get_number_of_samples_run _ _ _ Hn)).
    rewrite (bind_run _ _ _ _ _ (get_number_of_samples_run _ _ _ Hs)).
    simpl. rewrite tiled_length.
    destruct (Z.ltb_spec (Z.of_nat (k * length orig)) (Z.of_nat (length (sig_data os))))
      as [Hlt|Hge].
    + rewrite (bind_run _ _ _ _ _ (concat_twice_run _ _ _ Hn)). simpl.
      rewrite tiled_double.
      replace (2 * (k * length orig))%nat with ((2 * k) * length orig)%nat by lia.
      destruct (IH (h ++ [mk_signal (tiled orig (2 * k * length orig)) rate])
                   (length h) (2 * k)%nat rate) as (l' & h' & k' & Hrun & Hl' & Hlen & Hpres).
      * apply lookup_app_l_Some. exact Hs.
      * apply list_lookup_middle. reflexivity.
      * lia.
      * lia.
      * exists l', h', k'. repeat split; try assumption.
        intros l o Hl. apply Hpres. apply lookup_app_l_Some. exact Hl.
    + exists noise_signal, h, k. repeat split; [exact Hn|lia|auto].
Qed.

(** C5: for a non-empty noise shorter than the speech, the extension step
    (lines 88-91) terminates, given at least [length speech] iterations, and
    leaves the noise signal equal, sample for sample, to the original noise
    tiled periodically and cut to the speech signal's length; sample [i] of it
    is sample [i mod length noise] of the original. *)
Theorem noise_extension_periodic (h : heap) (speech_signal noise_signal : loc)
    (os on : AudioSignal) (fuel : nat) :
  h !! speech_signal = Some os ->
  h !! noise_signal = Some on ->
  sig_data on <> [] ->
  (length (sig_data on) < length (sig_data os))%nat ->
  (length (sig_data os) <= fuel)%nat ->
  exists (noise_signal' : loc) (h' : heap) (extended : list Q),
    extend_and_truncate_noise fuel speech_signal noise_signal h = Ret (noise_signal', h')
    /\ h' !! noise_signal' = Some (mk_signal extended (sig_rate on))
    /\ extended = tiled (sig_data on) (length (sig_data os))
    /\ length extended = length (sig_data os)
    /\ (forall i, (i < length (sig_data os))%nat ->
          extended !! i = sig_data on !! (i mod length (sig_data on))%nat).
Proof.
  intros Hs Hn Hne Hshort Hfuel.
  assert (Hpos : (0 < length (sig_data on))%nat).
  { destruct (sig_data on); [congruence|simpl; lia]. }
  assert (Hn1 : h !! noise_signal
                = Some (mk_signal (tiled (sig_data on) (1 * length (sig_data on)))
                                  (sig_rate on))).
  { rewrite Hn. f_equal. destruct on as [d r]. cbn [sig_data sig_rate].
    rewrite Nat.mul_1_l. f_equal. apply list_eq. intros i.
    destruct (decide (i < length d)%nat) as [Hi|Hi].
    - rewrite tiled_lookup by exact Hi. rewrite Nat.mod_small by exact Hi.
      destruct (lookup_lt_is_Some_2 d i Hi) as [x Hx]. now rewrite Hx.
    - rewrite !lookup_ge_None_2; [reflexivity| |]; rewrite ?tiled_length; lia. }
  destruct (extend_noise_tiles (sig_data on) speech_signal os fuel h noise_signal 1
              (sig_rate on) Hs Hn1) as (l' & h' & k' & Hrun & Hl' & Hlen & Hpres);
    [lia|lia|].
  exists l', (<[l' := mk_signal (tiled (sig_data on) (length (sig_data os))) (sig_rate on)]> h'),
         (tiled (sig_data on) (length (sig_data os))).
  split; [|split; [|split; [|split]]].
  - unfold extend_and_truncate_noise.
    rewrite (bind_run _ _ _ _ _ Hrun).
    rewrite (bind_run _ _ _ _ _ (get_number_of_samples_run _ _ _ (Hpres _ _ Hs))).
    rewrite (bind_run _ _ _ _ _ (truncate_run _ _ _ _ Hl')).
    simpl. rewrite Nat2Z.id, tiled_take by exact Hlen. reflexivity.
  - apply list_lookup_insert_eq. apply lookup_lt_Some in Hl'. exact Hl'.
  - reflexivity.
  - apply tiled_length.
  - intros i Hi. rewrite tiled_lookup by exact Hi.
    assert (Hm : (i mod length (sig_data on) < length (sig_data on))%nat)
      by (apply Nat.mod_upper_bound; lia).
    destruct (lookup_lt_is_Some_2 _ _ Hm) as [x Hx]. now rewrite Hx.
Qed.

(** On an empty noise signal the loop never leaves: however many iterations it
    is given, it asks for more. *)
Lemma extend_noise_empty_diverges (speech_signal : loc) (os : AudioSignal) :
  sig_data os <> [] ->
  forall (fuel : nat) (h : heap) (noise_signal : loc) (rate : Z),
    h !! speech_signal = Some os ->
    h !! noise_signal = Some (mk_signal [] rate) ->
    extend_noise fuel speech_signal noise_signal h = Diverge.
Proof.
  intros Hne.
  assert (Hlt : (Z.of_nat (length (@nil Q)) <? Z.of_nat (length (sig_data os)))%Z = true).
  { apply Z.ltb_lt. destruct (sig_data os); [congruence|simpl; lia]. }
  induction fuel as [|fuel IH]; intros h noise_signal rate Hs Hn; simpl;
    rewrite (bind_run _ _ _ _ _ (get_number_of_samples_run _ _ _ Hn));
    rewrite (bind_run _ _ _ _ _ (get_number_of_samples_run _ _ _ Hs));
    cbn [sig_data]; rewrite Hlt.
  - reflexivity.
  - rewrite (bind_run _ _ _ _ _ (concat_twice_run _ _ _ Hn)). simpl.
    apply (IH _ _ rate).
    + apply lookup_app_l_Some. exact Hs.
    + apply list_lookup_middle. reflexivity.
Qed.


Lemma bind_diverge {A B : Type} (m : M A) (k : A -> M B) (h : heap) :
  m h = Diverge -> bind m k h = Diverge.
Proof. intros H. unfold bind. now rewrite H. Qed.

(** C6 fails on the source: when the noise file holds no sample and the speech
    file holds at least one, [preprocess_audio_pair] neither returns nor
    raises, whatever the number of iterations granted to the loop of lines
    88-89. *)
Theorem zero_length_noise_never_returns (fuel : nat)
    (speech_file_path noise_file_path : string)
    (speech_data : list Q) (speech_rate noise_rate : Z)
    (slice_duration_ms n_video_slices : Z) (video_frame_rate : float) (mel : bool)
    (h : heap) :
  wav_at speech_file_path = Some (speech_data, speech_rate) ->
  speech_data <> [] ->
  wav_at noise_file_path = Some ([], noise_rate) ->
  preprocess_audio_pair fuel speech_file_path noise_file_path slice_duration_ms
                        n_video_slices video_frame_rate mel h
  = Diverge.
Proof.
  intros Hs Hne Hn.
  unfold preprocess_audio_pair. apply bind_diverge.
  unfold load_and_mix, from_wav_file. rewrite Hs, Hn.
  unfold bind at 1. unfold new at 1.
  unfold bind at 1. unfold new at 1.
  apply bind_diverge. unfold extend_and_truncate_noise. apply bind_diverge.
  apply (extend_noise_empty_diverges _ (mk_signal speech_data speech_rate) Hne
           fuel _ _ noise_rate).
  - apply lookup_app_l_Some, list_lookup_middle. reflexivity.
  - rewrite length_app. simpl.
    replace (length h + 1)%nat with (length (h ++ [mk_signal speech_data speech_rate]))
      by (rewrite length_app; reflexivity).
    apply list_lookup_middle. reflexivity.
Qed.

(** ** The length-forcing step (C4) *)

Lemma force_to_length (o : AudioSignal) (signal_length : Z) :
  length (sig_data (force_to o signal_length)) = Z.to_nat signal_length.
Proof.
  unfold force_to.
  destruct (Z.ltb_spec (Z.of_nat (length (sig_data o))) signal_length); cbn [sig_data].
  - rewrite length_app, length_replicate. lia.
  - rewrite length_take. lia.
Qed.

Lemma force_to_rate (o : AudioSignal) (signal_length : Z) :
  sig_rate (force_to o signal_length) = sig_rate o.
Proof. unfold force_to. now destruct (_ <? _)%Z. Qed.

Lemma forced_signal_ret (o : AudioSignal) (slice_duration_ms n_video_slices sps : Z) :
  samples_per_slice slice_duration_ms (sig_rate o) = Ret sps ->
  forced_signal o slice_duration_ms n_video_slices = force_to o (sps * n_video_slices).
Proof. intros H. unfold forced_signal. now rewrite H. Qed.

Lemma forced_signal_rate (o : AudioSignal) (slice_duration_ms n_video_slices : Z) :
  sig_rate (forced_signal o slice_duration_ms n_video_slices) = sig_rate o.
Proof.
  unfold forced_signal.
  destruct (samples_per_slice _ _); [apply force_to_rate|reflexivity..].
Qed.

Lemma force_length_run (l : loc) (h : heap) (o : AudioSignal)
    (slice_duration_ms n_video_slices sps : Z) :
  h !! l = Some o ->
  samples_per_slice slice_duration_ms (sig_rate o) = Ret sps ->
  force_length l slice_duration_ms n_video_slices h
  = Ret (sps, <[l := forced_signal o slice_duration_ms n_video_slices]> h).
Proof.
  intros Hl Hsps. unfold force_length.
  rewrite (forced_signal_ret _ _ _ _ Hsps). unfold force_to.
  rewrite (bind_run _ _ _ _ _ (get_sample_rate_run _ _ _ Hl)).
  unfold bind at 1. unfold lift. rewrite Hsps.
  rewrite (bind_run _ _ _ _ _ (get_number_of_samples_run _ _ _ Hl)).
  destruct (Z.of_nat (length (sig_data o)) <? sps * n_video_slices)%Z.
  - now rewrite (bind_run _ _ _ _ _ (pad_with_zeros_run _ _ _ _ Hl)).
  - now rewrite (bind_run _ _ _ _ _ (truncate_run _ _ _ _ Hl)).
Qed.

Lemma forced_signal_length (o : AudioSignal) (slice_duration_ms n_video_slices sps : Z) :
  samples_per_slice slice_duration_ms (sig_rate o) = Ret sps ->
  Z.of_nat (length (sig_data (forced_signal o slice_duration_ms n_video_slices)))
  = Z.max 0 (sps * n_video_slices).
Proof.
  intros Hsps. rewrite (forced_signal_ret _ _ _ _ Hsps), force_to_length. lia.
Qed.

(** C4: after the length-forcing step of the audio slicer (lines 35-41) the
    waveform has exactly [samples_per_slice * n_video_slices] samples, for the
    [samples_per_slice] line 35 computes: the old samples followed by zeros
    when it was shorter, its first samples when it was at least as long; its
    sample rate is the one it had. *)
Theorem length_forcing (h : heap) (audio_signal : loc) (o : AudioSignal)
    (slice_duration_ms n_video_slices samples : Z) :
  h !! audio_signal = Some o ->
  samples_per_slice slice_duration_ms (sig_rate o) = Ret samples ->
  (0 <= samples)%Z -> (0 <= n_video_slices)%Z ->
  exists (forced : list Q),
    force_length audio_signal slice_duration_ms n_video_slices h
    = Ret (samples, <[audio_signal := mk_signal forced (sig_rate o)]> h)
    /\ Z.of_nat (length forced) = (samples * n_video_slices)%Z
    /\ ((Z.of_nat (length (sig_data o)) < samples * n_video_slices)%Z ->
        exists (k : nat), forced = sig_data o ++ replicate k 0%Q)
    /\ ((samples * n_video_slices <= Z.of_nat (length (sig_data o)))%Z ->
        forced = take (Z.to_nat (samples * n_video_slices)) (sig_data o)).
Proof.
  intros Hl Hsps Hpos Hn.
  assert (Htarget : (0 <= samples * n_video_slices)%Z) by lia.
  exists (sig_data (force_to o (samples * n_video_slices))).
  split; [|split; [|split]].
  - rewrite (force_length_run _ _ _ _ _ _ Hl Hsps), (forced_signal_ret _ _ _ _ Hsps).
    do 3 f_equal. unfold force_to. now destruct (_ <? _)%Z.
  - rewrite force_to_length. lia.
  - intros Hshort. unfold force_to.
    destruct (Z.ltb_spec (Z.of_nat (length (sig_data o))) (samples * n_video_slices));
      [|lia].
    cbn [sig_data]. eauto.
  - intros Hlong. unfold force_to.
    destruct (Z.ltb_spec (Z.of_nat (length (sig_data o))) (samples * n_video_slices));
      [lia|].
    reflexivity.
Qed.


(** ** What the audio slicer returns and what it touches *)

Lemma new_ret_inv (o : AudioSignal) (h h1 : heap) (l : loc) :
  new o h = Ret (l, h1) -> l = length h /\ h1 = h ++ [o].
Proof. unfold new. intros H. inversion H. auto. Qed.

Lemma get_sample_rate_ret_inv (l : loc) (h h1 : heap) (r : Z) :
  get_sample_rate l h = Ret (r, h1) ->
  exists o, h !! l = Some o /\ r = sig_rate o /\ h1 = h.
Proof.
  unfold get_sample_rate. intros H.
  apply bind_ret_inv in H as (o & h0 & Hload & Hret).
  apply load_ret_inv in Hload as [Hl ->].
  apply ret_ret_inv in Hret as [-> ->]. eauto.
Qed.

Lemma get_data_ret_inv (l : loc) (h h1 : heap) (d : list Q) :
  get_data l h = Ret (d, h1) ->
  exists o, h !! l = Some o /\ d = sig_data o /\ h1 = h.
Proof.
  unfold get_data. intros H.
  apply bind_ret_inv in H as (o & h0 & Hload & Hret).
  apply load_ret_inv in Hload as [Hl ->].
  apply ret_ret_inv in Hret as [-> ->]. eauto.
Qed.

Lemma force_length_ret_inv (l : loc) (h h1 : heap)
    (slice_duration_ms n_video_slices sps : Z) :
  force_length l slice_duration_ms n_video_slices h = Ret (sps, h1) ->
  exists o, h !! l = Some o
            /\ samples_per_slice slice_duration_ms (sig_rate o) = Ret sps
            /\ h1 = <[l := forced_signal o slice_duration_ms n_video_slices]> h.
Proof.
  intros H. pose proof H as H0. unfold force_length in H0.
  apply bind_ret_inv in H0 as (r & h0 & Hrate & H0).
  apply get_sample_rate_ret_inv in Hrate as (o & Hl & -> & ->).
  apply bind_ret_inv in H0 as (sps0 & h0 & Hsps & _).
  apply lift_ret_inv in Hsps as [Hsps _].
  rewrite (force_length_run _ _ _ _ _ _ Hl Hsps) in H. inversion H. subst. eauto.
Qed.

Lemma py_int_div_ret_inv (a b q : Z) :
  py_int_div a b = Ret q -> b <> 0%Z /\ q = Z.quot a b.
Proof.
  intros H. destruct (Z.eq_dec b 0%Z) as [->|Hb].
  - rewrite py_int_div_zero in H. discriminate.
  - rewrite py_int_div_nonzero in H by exact Hb. inversion H. auto.
Qed.

Lemma py_range_length (n : Z) : length (py_range n) = Z.to_nat n.
Proof. unfold py_range. now rewrite length_map, length_seq. Qed.

Lemma np_stack_ret_inv {T : Type} (shape_of : T -> list Z) (slices : list T)
    (st : stack T) :
  np_stack shape_of slices = Ret st ->
  slices <> [] /\ items st = slices
  /\ forall t, In t slices -> shape_of t = item_shape st.
Proof.
  unfold np_stack. destruct slices as [|s rest]; [discriminate|].
  destruct (forallb _ _) eqn:E; [|discriminate].
  intros H. inversion H. subst st. cbn [items item_shape].
  split; [discriminate|]. split; [reflexivity|].
  intros t Ht. rewrite forallb_forall in E. specialize (E t Ht).
  unfold shape_eqb in E. now apply bool_decide_eq_true in E.
Qed.

(** The frame count of the centred transform covers every whole slice of the
    forced signal. *)
Lemma frames_cover_slices (samples_per_slice n_video_slices n_fft hop_length : Z) :
  (1 <= hop_length)%Z -> (1 <= n_video_slices)%Z ->
  (1 <= Z.quot samples_per_slice hop_length)%Z ->
  (n_video_slices
   <= Z.quot (1 + (samples_per_slice * n_video_slices + 2 * (n_fft / 2) - n_fft)
                  / hop_length)
             (Z.quot samples_per_slice hop_length))%Z.
Proof.
  intros Hhop Hn Hq.
  assert (Hsps : (0 <= samples_per_slice)%Z).
  { destruct (Z.lt_ge_cases samples_per_slice 0) as [Hneg|]; [|assumption].
    pose proof (Z.quot_opp_l (- samples_per_slice) hop_length ltac:(lia)) as E.
    rewrite Z.opp_involutive in E.
    pose proof (Z.quot_pos (- samples_per_slice) hop_length ltac:(lia) ltac:(lia)).
    lia. }
  rewrite Z.quot_div_nonneg in * by lia.
  set (q := (samples_per_slice / hop_length)%Z) in *.
  assert (Hqh : (q * hop_length <= samples_per_slice)%Z).
  { unfold q. rewrite Z.mul_comm. apply Z.mul_div_le. lia. }
  assert (Hpar : (2 * (n_fft / 2) - n_fft >= -1)%Z).
  { pose proof (Z.mod_pos_bound n_fft 2 ltac:(lia)).
    pose proof (Z.div_mod n_fft 2 ltac:(lia)). lia. }
  assert (Hfr : (q * n_video_slices - 1
                 <= (samples_per_slice * n_video_slices + 2 * (n_fft / 2) - n_fft)
                    / hop_length)%Z).
  { apply Z.div_le_lower_bound; [lia|]. nia. }
  assert (Hqn : (1 <= q * n_video_slices)%Z) by nia.
  rewrite (Z.quot_div_nonneg samples_per_slice hop_length) by lia. fold q.
  rewrite Z.quot_div_nonneg by lia.
  apply Z.div_le_lower_bound; [lia|]. nia.
Qed.


Lemma quot_ge_1 (a b : Z) :
  (1 <= b)%Z -> (1 <= Z.quot a b)%Z -> (b <= a)%Z.
Proof.
  intros Hb Hq.
  destruct (Z.lt_ge_cases a 0) as [Hneg|Hpos].
  - pose proof (Z.quot_opp_l (- a) b ltac:(lia)) as E.
    rewrite Z.opp_involutive in E.
    pose proof (Z.quot_pos (- a) b ltac:(lia) ltac:(lia)). lia.
  - rewrite Z.quot_div_nonneg in Hq by lia.
    pose proof (Z.mul_div_le a b ltac:(lia)). nia.
Qed.

Lemma quot_pos_divisor (a b : Z) :
  (0 <= a)%Z -> (1 <= Z.quot a b)%Z -> (1 <= b)%Z.
Proof.
  intros Ha Hq. destruct (Z.le_gt_cases b 0) as [Hb|Hb]; [|lia].
  exfalso. destruct (Z.eq_dec b 0%Z) as [->|Hb0].
  - rewrite Z.quot_0_r_ext in Hq by reflexivity. lia.
  - replace b with (- (- b))%Z in Hq by lia.
    rewrite Z.quot_opp_r in Hq by lia.
    pose proof (Z.quot_pos a (- b) Ha ltac:(lia)). lia.
Qed.

Lemma compute_spectrogram_ret_inv (l : loc) (n_fft hop_length : Z) (mel : bool)
    (h h1 : heap) (sp : spectrogram) :
  compute_spectrogram l n_fft hop_length mel h = Ret (sp, h1) ->
  h1 = h
  /\ (mel = false ->
      exists o sp0,
        h !! l = Some o
        /\ librosa_stft_db (sig_data o) n_fft hop_length = Ret sp0
        /\ sp = if negb (n_bins sp0 mod 2 =? 0)%Z then drop_last_bin sp0 else sp0).
Proof.
  unfold compute_spectrogram. destruct mel; intros H.
  - apply bind_ret_inv in H as (o & h0 & Hload & Hmel).
    apply load_ret_inv in Hload as [_ ->].
    apply lift_ret_inv in Hmel as [_ ->]. split; [reflexivity|discriminate].
  - apply bind_ret_inv in H as (d & h0 & Hdata & H).
    apply get_data_ret_inv in Hdata as (o & Hl & -> & ->).
    apply bind_ret_inv in H as (sp0 & h0 & Hstft & H).
    apply lift_ret_inv in Hstft as [Hstft ->].
    apply ret_ret_inv in H as [-> ->].
    split; [reflexivity|]. intros _. exists o, sp0. auto.
Qed.

Lemma librosa_stft_db_ret_inv (data : list Q) (n_fft hop_length : Z) (sp : spectrogram) :
  librosa_stft_db data n_fft hop_length = Ret sp ->
  (1 <= hop_length)%Z
  /\ (n_fft <= Z.of_nat (length data) + 2 * (n_fft / 2))%Z
  /\ n_bins sp = (1 + n_fft / 2)%Z
  /\ n_frames sp
     = (1 + (Z.of_nat (length data) + 2 * (n_fft / 2) - n_fft) / hop_length)%Z
  /\ cell sp = stft_db data n_fft hop_length.
Proof.
  unfold librosa_stft_db.
  destruct (Z.ltb_spec hop_length 1); [discriminate|].
  destruct (Z.ltb_spec (Z.of_nat (length data) + 2 * (n_fft / 2)) n_fft);
    [discriminate|].
  intros Hret. inversion Hret. cbn. repeat split; lia.
Qed.

(** What [preprocess_audio_signal] does when it returns: the signal is left
    forced to its target length and nothing else in the store changes; on the
    linear path the stack holds at least [n_video_slices] slices, every slice
    has an even number of frequency bins and is a window of the dB
    spectrogram of the forced signal. *)
Lemma preprocess_audio_signal_ret_inv (l : loc)
    (slice_duration_ms n_video_slices : Z) (video_frame_rate : float) (mel : bool)
    (h h1 : heap) (st : stack spectrogram) :
  preprocess_audio_signal l slice_duration_ms n_video_slices video_frame_rate mel h
  = Ret (st, h1) ->
  exists o,
    h !! l = Some o
    /\ h1 = <[l := forced_signal o slice_duration_ms n_video_slices]> h
    /\ (mel = false ->
        (n_video_slices <= shape0 st)%Z
        /\ forall s, In s (items st) ->
             (n_bins s mod 2 = 0)%Z
             /\ exists n_fft hop_length a,
                  forall k t,
                    cell s k t
                    = stft_db (sig_data (forced_signal o slice_duration_ms n_video_slices))
                              n_fft hop_length k (a + t)%Z).
Proof.
  unfold preprocess_audio_signal. intros H.
  apply bind_ret_inv in H as (sps & h0 & Hforce & H).
  apply force_length_ret_inv in Hforce as (o & Hl & Hsps & ->).
  set (forced := forced_signal o slice_duration_ms n_video_slices) in *.
  assert (Hl' : <[l := forced]> h !! l = Some forced).
  { apply list_lookup_insert_eq. now apply lookup_lt_Some in Hl. }
  rewrite (bind_run _ _ _ _ _ (get_sample_rate_run _ _ _ Hl')) in H.
  apply bind_ret_inv in H as (n_fft & h0 & Hnfft & H).
  apply lift_ret_inv in Hnfft as [Hnfft ->].
  apply bind_ret_inv in H as (sp & h0 & Hspec & H).
  apply compute_spectrogram_ret_inv in Hspec as [-> Hspec].
  apply bind_ret_inv in H as (q & h0 & Hq & H).
  apply lift_ret_inv in Hq as [Hq ->].
  apply bind_ret_inv in H as (ns & h0 & Hns & H).
  apply lift_ret_inv in Hns as [Hns ->].
  apply lift_ret_inv in H as [Hstack ->].
  exists o. split; [exact Hl|]. split; [reflexivity|].
  intros ->. destruct (Hspec eq_refl) as (o' & sp0 & Hlo & Hstft & Hsp).
  rewrite Hl' in Hlo. inversion Hlo. subst o'. clear Hlo Hspec.
  apply librosa_stft_db_ret_inv in Hstft as (Hhop & Hpad & Hbins & Hframes & Hcell).
  apply py_int_div_ret_inv in Hq as [Hhop0 ->].
  apply py_int_div_ret_inv in Hns as [Hq0 ->].
  apply np_stack_ret_inv in Hstack as (Hne & Hitems & _).
  set (hop := hop_length_of n_fft) in *.
  assert (Hframes' : n_frames sp = n_frames sp0).
  { rewrite Hsp. now destruct (negb _). }
  assert (Hcell' : cell sp = cell sp0).
  { rewrite Hsp. now destruct (negb _). }
  assert (Heven : (n_bins sp mod 2 = 0)%Z).
  { rewrite Hsp. destruct (Z.eqb_spec (n_bins sp0 mod 2) 0) as [E|E]; cbn [negb].
    - exact E.
    - unfold drop_last_bin. cbn [n_bins].
      pose proof (quot_ge_1 n_fft 4 ltac:(lia)
                    ltac:(rewrite <- hop_length_quot; exact Hhop)) as Hn4.
      pose proof (Z.div_le_lower_bound n_fft 2 2 ltac:(lia) ltac:(lia)).
      pose proof (Z.mod_pos_bound (n_bins sp0) 2 ltac:(lia)).
      rewrite Z.max_r by lia.
      rewrite <- Zminus_mod_idemp_l.
      replace (n_bins sp0 mod 2)%Z with 1%Z by lia. reflexivity. }
  split.
  - unfold shape0. rewrite Hitems, length_map, py_range_length.
    destruct (Z.le_gt_cases n_video_slices 0) as [Hn0|Hn1]; [lia|].
    assert (Hns : (1 <= Z.quot (n_frames sp) (Z.quot sps hop))%Z).
    { destruct (Z.le_gt_cases (Z.quot (n_frames sp) (Z.quot sps hop)) 0) as [Hle|];
        [|lia].
      exfalso. apply Hne. unfold py_range.
      now replace (Z.to_nat _) with 0%nat by lia. }
    assert (Hfr : (0 <= n_frames sp)%Z).
    { rewrite Hframes', Hframes.
      pose proof (Z.div_pos (Z.of_nat (length (sig_data forced)) + 2 * (n_fft / 2) - n_fft)
                    hop ltac:(lia) ltac:(lia)).
      lia. }
    pose proof (quot_pos_divisor _ _ Hfr Hns) as Hq1.
    pose proof (quot_ge_1 sps hop Hhop Hq1) as Hsh.
    pose proof (forced_signal_length o slice_duration_ms n_video_slices sps Hsps)
      as Hflen.
    fold forced in Hflen. rewrite Z.max_r in Hflen by nia.
    pose proof (frames_cover_slices sps n_video_slices n_fft hop Hhop ltac:(lia) Hq1)
      as Hcover.
    rewrite Hframes', Hframes, Hflen. lia.
  - intros s Hs. rewrite Hitems in Hs. apply in_map_iff in Hs as (i & <- & _).
    split; [exact Heven|].
    exists n_fft, hop, (i * Z.quot sps hop)%Z.
    intros k t. cbn [slice_frames cell]. now rewrite Hcell', Hcell.
Qed.


(** ** The retained copy of the mixed signal (C8) *)

Lemma peak_normalize_ret_inv (l : loc) (peak : option Q) (h h1 : heap) (p : Q) :
  peak_normalize l peak h = Ret (p, h1) ->
  exists o,
    h !! l = Some o
    /\ h1 = <[l := mk_signal (map (fun x => x / p)%Q (sig_data o)) (sig_rate o)]> h.
Proof.
  unfold peak_normalize. intros H.
  apply bind_ret_inv in H as (o & h0 & Hload & H).
  apply load_ret_inv in Hload as [Hl ->].
  apply bind_ret_inv in H as (p0 & h0 & Hpeak & H).
  assert (h0 = h) as ->.
  { destruct peak.
    - now apply ret_ret_inv in Hpeak as [_ ->].
    - now apply lift_ret_inv in Hpeak as [_ ->]. }
  apply bind_ret_inv in H as (u & h0 & Hstore & H).
  apply ret_ret_inv in H as [-> ->].
  unfold store in Hstore. inversion Hstore. eauto.
Qed.

Lemma load_all_ret_inv (ls : list loc) (h h1 : heap) (os : list AudioSignal) :
  load_all ls h = Ret (os, h1) ->
  h1 = h /\ Forall (fun l => (l < length h)%nat) ls.
Proof.
  revert os h1. induction ls as [|l ls IH]; intros os h1 H; simpl in H.
  - apply ret_ret_inv in H as [_ ->]. auto.
  - apply bind_ret_inv in H as (o & h0 & Hload & H).
    apply load_ret_inv in Hload as [Hl ->].
    apply bind_ret_inv in H as (os' & h0 & Hrest & H).
    apply IH in Hrest as [-> Hall].
    apply ret_ret_inv in H as [_ ->].
    split; [reflexivity|]. constructor; [|exact Hall].
    now apply lookup_lt_Some in Hl.
Qed.

(** The signals [load_and_mix] hands over are objects of the store, and the
    mixed one is the newest. *)
Lemma load_and_mix_ret_inv (fuel : nat) (speech_file_path noise_file_path : string)
    (h h1 : heap) (speech_signal noise_signal mixed_signal : loc) :
  load_and_mix fuel speech_file_path noise_file_path h
  = Ret ((speech_signal, noise_signal, mixed_signal), h1) ->
  (speech_signal < mixed_signal)%nat /\ (noise_signal < mixed_signal)%nat
  /\ length h1 = S mixed_signal.
Proof.
  unfold load_and_mix. intros H.
  apply bind_ret_inv in H as (s & h0 & _ & H).
  apply bind_ret_inv in H as (n0 & h2 & _ & H).
  apply bind_ret_inv in H as (n & h3 & _ & H).
  apply bind_ret_inv in H as (u & h4 & _ & H).
  apply bind_ret_inv in H as (m & h5 & Hmix & H).
  apply ret_ret_inv in H as [E ->]. inversion E. subst s n m. clear E.
  unfold AudioMixer_mix in Hmix.
  apply bind_ret_inv in Hmix as (os & h6 & Hload & Hmix).
  apply load_all_ret_inv in Hload as [-> Hvalid].
  destruct os as [|ref os]; [discriminate|].
  apply bind_ret_inv in Hmix as (mixed & h6 & Hlift & Hnew).
  apply lift_ret_inv in Hlift as [_ ->].
  apply new_ret_inv in Hnew as [-> ->].
  inversion Hvalid as [|? ? Hs Hrest]. subst.
  inversion Hrest as [|? ? Hn _]. subst.
  rewrite length_app. simpl. lia.
Qed.

(** C8: the [original_mixed] waveform that [preprocess_audio_pair] returns is,
    when the call is over, sample for sample the mixed signal as it was right
    after mixing (line 94), although the mixed signal itself has since been
    divided by its peak, in place, and forced to the slicing length, and the
    speech signal has been scaled by the same peak. *)
Theorem original_mixed_is_untouched (fuel : nat)
    (speech_file_path noise_file_path : string)
    (slice_duration_ms n_video_slices : Z) (video_frame_rate : float) (mel : bool)
    (h h' : heap) (result : pair_result) :
  preprocess_audio_pair fuel speech_file_path noise_file_path slice_duration_ms
                        n_video_slices video_frame_rate mel h
  = Ret (result, h') ->
  exists (speech_signal noise_signal mixed_signal : loc) (h1 : heap) (mixed : AudioSignal),
    load_and_mix fuel speech_file_path noise_file_path h
    = Ret ((speech_signal, noise_signal, mixed_signal), h1)
    /\ h1 !! mixed_signal = Some mixed
    /\ h' !! pr_original_mixed result = Some mixed
    /\ pr_original_mixed result <> mixed_signal
    /\ h' !! mixed_signal
       = Some (forced_signal
                 (mk_signal (map (fun x => x / pr_peak result)%Q (sig_data mixed))
                            (sig_rate mixed))
                 slice_duration_ms n_video_slices).
Proof.
  unfold preprocess_audio_pair. intros H.
  apply bind_ret_inv in H as ([[s n] m] & h1 & Hmix & H).
  pose proof (load_and_mix_ret_inv _ _ _ _ _ _ _ _ Hmix) as (Hsm & Hnm & Hlen).
  unfold normalize_and_slice in H.
  apply bind_ret_inv in H as (d & h0 & Hdata & H).
  apply get_data_ret_inv in Hdata as (mixed & Hm & -> & ->).
  rewrite (bind_run _ _ _ _ _ (get_sample_rate_run _ _ _ Hm)) in H.
  apply bind_ret_inv in H as (orig & h2 & Hnew & H).
  apply new_ret_inv in Hnew as [-> ->].
  apply bind_ret_inv in H as (p & h3 & Hpm & H).
  apply peak_normalize_ret_inv in Hpm as (om & Hom & ->).
  apply bind_ret_inv in H as (p' & h4 & Hps & H).
  apply peak_normalize_ret_inv in Hps as (os & Hos & ->).
  apply bind_ret_inv in H as (sts & h5 & Hss & H).
  apply preprocess_audio_signal_ret_inv in Hss as (os' & Hos' & -> & _).
  apply bind_ret_inv in H as (stn & h6 & Hsn & H).
  apply preprocess_audio_signal_ret_inv in Hsn as (on & Hon & -> & _).
  apply bind_ret_inv in H as (stm & h7 & Hsm' & H).
  apply preprocess_audio_signal_ret_inv in Hsm' as (om' & Hom' & -> & _).
  apply ret_ret_inv in H as [-> ->]. cbn [pr_original_mixed pr_peak].
  rewrite (lookup_app_l_Some _ _ _ _ Hm) in Hom. inversion Hom. subst om. clear Hom.
  exists s, n, m, h1, mixed.
  split; [exact Hmix|]. split; [exact Hm|].
  rewrite Hlen. split; [|split; [lia|]].
  - rewrite !list_lookup_insert_ne by lia.
    rewrite list_lookup_middle by (symmetry; exact Hlen).
    now destruct mixed.
  - rewrite list_lookup_insert_eq
      by (rewrite !length_insert, length_app; simpl; lia).
    f_equal. f_equal.
    rewrite !list_lookup_insert_ne in Hom' by lia.
    rewrite list_lookup_insert_eq in Hom' by (rewrite length_app; simpl; lia).
    now inversion Hom'.
Qed.


(** ** Slice counts of a sample (C1) *)

Lemma preprocess_audio_signal_well_sliced (l : loc)
    (slice_duration_ms n_video_slices : Z) (vfr : float)
    (h h1 : heap) (st : stack spectrogram) :
  preprocess_audio_signal l slice_duration_ms n_video_slices vfr false h
  = Ret (st, h1) ->
  well_sliced n_video_slices st.
Proof.
  intros H. apply preprocess_audio_signal_ret_inv in H as (o & _ & _ & Hlin).
  destruct (Hlin eq_refl) as [Hn Hs]. split; [exact Hn|].
  intros s Hin. destruct (Hs s Hin) as [Heven (n_fft & hop & a & Hcell)].
  split; [exact Heven|]. unfold linear_db_slice. eauto.
Qed.

Lemma pair_streams_well_sliced (fuel : nat)
    (speech_file_path noise_file_path : string)
    (slice_duration_ms n_video_slices : Z) (vfr : float)
    (h h' : heap) (result : pair_result) :
  preprocess_audio_pair fuel speech_file_path noise_file_path slice_duration_ms
                        n_video_slices vfr false h
  = Ret (result, h') ->
  well_sliced n_video_slices (pr_mixed_spectrograms result)
  /\ well_sliced n_video_slices (pr_speech_spectrograms result)
  /\ well_sliced n_video_slices (pr_noise_spectrograms result).
Proof.
  unfold preprocess_audio_pair. intros H.
  apply bind_ret_inv in H as ([[s n] m] & h1 & _ & H).
  unfold normalize_and_slice in H.
  apply bind_ret_inv in H as (d & h0 & _ & H).
  apply bind_ret_inv in H as (r & h2 & _ & H).
  apply bind_ret_inv in H as (orig & h3 & _ & H).
  apply bind_ret_inv in H as (p & h4 & _ & H).
  apply bind_ret_inv in H as (p' & h5 & _ & H).
  apply bind_ret_inv in H as (sts & h6 & Hss & H).
  apply bind_ret_inv in H as (stn & h7 & Hsn & H).
  apply bind_ret_inv in H as (stm & h8 & Hsm & H).
  apply ret_ret_inv in H as [-> ->]. cbn.
  split; [|split]; eapply preprocess_audio_signal_well_sliced; eassumption.
Qed.

Lemma stack_take_shape0 {T : Type} (n : Z) (a : stack T) :
  (0 <= n <= shape0 a)%Z -> shape0 (stack_take n a) = n.
Proof.
  unfold shape0, stack_take. cbn [items]. intros H.
  rewrite length_take. lia.
Qed.

(** C1: when [preprocess_sample] returns, the video stream and the mixed,
    speech and noise spectrogram streams it returns all hold exactly [n]
    slices, where [n] is the smaller of the video slicer's and the mixed
    spectrogram's slice counts, and each stream is the first [n] slices of what
    its slicer produced. *)
Theorem slice_counts_agree (fuel : nat)
    (video_file_path speech_file_path noise_file_path : string)
    (slice_duration_ms : Z) (h h' : heap) (sample : Sample) :
  preprocess_sample fuel video_file_path speech_file_path noise_file_path
                    slice_duration_ms h
  = Ret (sample, h') ->
  exists (video : stack (list image)) (pair : pair_result),
    preprocess_video_sample video_file_path slice_duration_ms 128 128
    = Ret (video, video_frame_rate sample)
    /\ preprocess_audio_pair fuel speech_file_path noise_file_path slice_duration_ms
                             (shape0 video) (video_frame_rate sample) false h
       = Ret (pair, h')
    /\ shape0 (video_samples sample)
       = Z.min (shape0 video) (shape0 (pr_mixed_spectrograms pair))
    /\ shape0 (mixed_spectrograms sample)
       = Z.min (shape0 video) (shape0 (pr_mixed_spectrograms pair))
    /\ shape0 (speech_spectrograms sample)
       = Z.min (shape0 video) (shape0 (pr_mixed_spectrograms pair))
    /\ shape0 (noise_spectrograms sample)
       = Z.min (shape0 video) (shape0 (pr_mixed_spectrograms pair))
    /\ items (video_samples sample)
       = take (Z.to_nat (Z.min (shape0 video) (shape0 (pr_mixed_spectrograms pair))))
              (items video)
    /\ items (mixed_spectrograms sample)
       = take (Z.to_nat (Z.min (shape0 video) (shape0 (pr_mixed_spectrograms pair))))
              (items (pr_mixed_spectrograms pair))
    /\ items (speech_spectrograms sample)
       = take (Z.to_nat (Z.min (shape0 video) (shape0 (pr_mixed_spectrograms pair))))
              (items (pr_speech_spectrograms pair))
    /\ items (noise_spectrograms sample)
       = take (Z.to_nat (Z.min (shape0 video) (shape0 (pr_mixed_spectrograms pair))))
              (items (pr_noise_spectrograms pair)).
Proof.
  unfold preprocess_sample. intros H.
  apply bind_ret_inv in H as ([video rate] & h0 & Hvideo & H).
  apply lift_ret_inv in Hvideo as [Hvideo ->].
  apply bind_ret_inv in H as (pair & h1 & Hpair & H).
  apply ret_ret_inv in H as [-> ->]. cbn.
  exists video, pair. split; [exact Hvideo|]. split; [exact Hpair|].
  destruct (pair_streams_well_sliced _ _ _ _ _ _ _ _ _ Hpair)
    as ([Hm _] & [Hs _] & [Hn _]).
  assert (H0 : (0 <= shape0 video)%Z) by (unfold shape0; lia).
  rewrite !stack_take_shape0 by lia.
  repeat split; reflexivity.
Qed.


(** ** The batch (C7) *)

Lemma np_concatenate_ok {T : Type} (arrays : list (stack T)) :
  arrays <> [] -> same_item_shapes arrays ->
  exists sh, np_concatenate arrays = Ret (mk_stack sh (concat (map items arrays))).
Proof.
  intros Hne Hsame. unfold np_concatenate.
  destruct arrays as [|a rest]; [congruence|].
  destruct (forallb _ _) eqn:E; [eauto|].
  exfalso. apply Bool.not_true_iff_false in E. apply E.
  apply forallb_forall. intros b Hb. unfold shape_eqb.
  apply bool_decide_eq_true. apply Hsame; [exact Hb|now left].
Qed.

Lemma np_concatenate_raise {T : Type} (arrays : list (stack T)) :
  ~ (arrays <> [] /\ same_item_shapes arrays) ->
  np_concatenate arrays = Raise ValueError.
Proof.
  intros Hbad. unfold np_concatenate.
  destruct arrays as [|a rest]; [reflexivity|].
  destruct (forallb _ _) eqn:E; [|reflexivity].
  exfalso. apply Hbad. split; [discriminate|].
  rewrite forallb_forall in E. intros x y Hx Hy.
  pose proof (E x Hx) as Ex. pose proof (E y Hy) as Ey.
  unfold shape_eqb in Ex, Ey.
  apply bool_decide_eq_true in Ex. apply bool_decide_eq_true in Ey. congruence.
Qed.

Lemma np_concatenate_cases {T : Type} (arrays : list (stack T)) :
  (arrays <> [] /\ same_item_shapes arrays) \/ ~ (arrays <> [] /\ same_item_shapes arrays).
Proof.
  destruct (np_concatenate arrays) eqn:E.
  - left. unfold np_concatenate in E.
    destruct arrays as [|x rest]; [discriminate|].
    destruct (forallb _ _) eqn:F; [|discriminate].
    split; [discriminate|].
    rewrite forallb_forall in F. intros u v Hu Hv.
    pose proof (F u Hu) as Eu. pose proof (F v Hv) as Ev.
    unfold shape_eqb in Eu, Ev.
    apply bool_decide_eq_true in Eu. apply bool_decide_eq_true in Ev. congruence.
  - right. intros [Hne Hsame].
    destruct (np_concatenate_ok arrays Hne Hsame) as [sh Hok]. congruence.
  - unfold np_concatenate in E. destruct arrays; [discriminate|].
    destruct (forallb _ _); discriminate.
Qed.

Lemma try_preprocess_sample_no_raise (fuel : nat) (sample : string * string * string)
    (h : heap) (e : exn) :
  try_preprocess_sample fuel sample h <> Raise e.
Proof.
  unfold try_preprocess_sample. destruct sample as [[v s] n].
  destruct (preprocess_sample fuel v s n 200 h) as [[p h']| |]; discriminate.
Qed.

Lemma pool_map_try (fuel : nat) (h : heap) (samples : list (string * string * string)) :
  pool_map (try_preprocess_sample fuel) samples h = Diverge
  \/ exists results,
       pool_map (try_preprocess_sample fuel) samples h = Ret results
       /\ Forall2 (sample_outcome fuel h) samples results.
Proof.
  induction samples as [|[[v s] n] rest IH]; cbn [pool_map].
  - right. exists []. split; [reflexivity|constructor].
  - destruct (try_preprocess_sample fuel (v, s, n) h) as [[r h']|e|] eqn:E.
    + assert (Hr : sample_outcome fuel h (v, s, n) r).
      { unfold try_preprocess_sample in E. simpl.
        destruct (preprocess_sample fuel v s n 200 h) as [[p h'']|e|];
          inversion E; subst; eauto. }
      destruct IH as [IH|(results & IH & Hall)]; rewrite IH; [left; reflexivity|].
      right. exists (r :: results). split; [reflexivity|].
      constructor; assumption.
    + exfalso. exact (try_preprocess_sample_no_raise _ _ _ _ E).
    + now left.
Qed.

Lemma zip3_length {A B C : Type} (a : list A) (b : list B) (c : list C) :
  length (zip3 a b c) = Nat.min (Nat.min (length a) (length b)) (length c).
Proof. unfold zip3. now rewrite !length_zip_with. Qed.

(** C7, amended: [preprocess_data] works on as many triples as the shortest
    path list has, so lists of different lengths do not make it raise; no
    exception of a sample reaches it, a sample that raises being dropped; and
    once every worker is done it raises exactly when the surviving samples
    cannot be concatenated, that is when none is left or when they disagree on
    the shape of a slice, and otherwise returns the survivors' streams
    concatenated in order. *)
Theorem batch_failure_policy (fuel : nat)
    (video_file_paths speech_file_paths noise_file_paths : list string) (h : heap) :
  length (zip3 video_file_paths speech_file_paths noise_file_paths)
  = Nat.min (Nat.min (length video_file_paths) (length speech_file_paths))
            (length noise_file_paths)
  /\ (forall sample e, try_preprocess_sample fuel sample h <> Raise e)
  /\ ((pool_map (try_preprocess_sample fuel)
                (zip3 video_file_paths speech_file_paths noise_file_paths) h = Diverge
       /\ preprocess_data fuel video_file_paths speech_file_paths noise_file_paths h
          = Diverge)
      \/ exists results,
           pool_map (try_preprocess_sample fuel)
                    (zip3 video_file_paths speech_file_paths noise_file_paths) h
           = Ret results
           /\ Forall2 (sample_outcome fuel h)
                      (zip3 video_file_paths speech_file_paths noise_file_paths) results
           /\ (raises (preprocess_data fuel video_file_paths speech_file_paths
                                       noise_file_paths h)
               <-> ~ concatenable (not_none results))
           /\ (concatenable (not_none results) ->
               exists v m s n,
                 preprocess_data fuel video_file_paths speech_file_paths
                                 noise_file_paths h = Ret (v, m, s, n, h)
                 /\ items v = concat (map (fun p => items (video_samples p))
                                          (not_none results))
                 /\ items m = concat (map (fun p => items (mixed_spectrograms p))
                                          (not_none results))
                 /\ items s = concat (map (fun p => items (speech_spectrograms p))
                                          (not_none results))
                 /\ items n = concat (map (fun p => items (noise_spectrograms p))
                                          (not_none results)))).
Proof.
  split; [apply zip3_length|]. split; [intros; apply try_preprocess_sample_no_raise|].
  unfold preprocess_data.
  destruct (pool_map_try fuel h (zip3 video_file_paths speech_file_paths noise_file_paths))
    as [Hdiv|(results & Hrun & Hall)].
  - left. rewrite Hdiv. split; reflexivity.
  - right. exists results. rewrite Hrun. cbn [obind].
    split; [reflexivity|]. split; [exact Hall|].
    set (survivors := not_none results). clearbody survivors.
    assert (Hok : concatenable survivors ->
              exists v m s n,
                (v <- np_concatenate (map video_samples survivors) ;;
                 m <- np_concatenate (map mixed_spectrograms survivors) ;;
                 s <- np_concatenate (map speech_spectrograms survivors) ;;
                 n <- np_concatenate (map noise_spectrograms survivors) ;;
                 Ret (v, m, s, n, h))%O = Ret (v, m, s, n, h)
                /\ items v = concat (map (fun p => items (video_samples p)) survivors)
                /\ items m = concat (map (fun p => items (mixed_spectrograms p)) survivors)
                /\ items s = concat (map (fun p => items (speech_spectrograms p)) survivors)
                /\ items n = concat (map (fun p => items (noise_spectrograms p)) survivors)).
    { intros (Hne & Hv & Hm & Hs & Hn).
      assert (Hne' : forall (B : Type) (f : Sample -> B), map f survivors <> []).
      { intros B f. destruct survivors; [congruence|discriminate]. }
      destruct (np_concatenate_ok _ (Hne' _ video_samples) Hv) as [sv ->].
      destruct (np_concatenate_ok _ (Hne' _ mixed_spectrograms) Hm) as [sm ->].
      destruct (np_concatenate_ok _ (Hne' _ speech_spectrograms) Hs) as [ss ->].
      destruct (np_concatenate_ok _ (Hne' _ noise_spectrograms) Hn) as [sn ->].
      cbn [obind]. do 4 eexists. split; [reflexivity|].
      cbn [items]. rewrite !map_map. auto. }
    split; [|exact Hok].
    split.
    + intros [e He] Hc. destruct (Hok Hc) as (v & m & s & n & Hret & _).
      congruence.
    + intros Hbad. exists ValueError.
      assert (Hne' : forall (B : Type) (f : Sample -> B),
                survivors <> [] -> map f survivors <> []).
      { intros B f Hne. destruct survivors; [congruence|discriminate]. }
      destruct (np_concatenate_cases (map video_samples survivors)) as [[Hne Hv]|Hv];
        [|now rewrite (np_concatenate_raise _ Hv)].
      destruct (np_concatenate_ok _ Hne Hv) as [sv ->]. cbn [obind].
      destruct (np_concatenate_cases (map mixed_spectrograms survivors)) as [[_ Hm]|Hm];
        [|now rewrite (np_concatenate_raise _ Hm)].
      assert (Hs0 : survivors <> []) by (intros E; apply Hne; now rewrite E).
      destruct (np_concatenate_ok _ (Hne' _ mixed_spectrograms Hs0) Hm) as [sm ->].
      cbn [obind].
      destruct (np_concatenate_cases (map speech_spectrograms survivors)) as [[_ Hs]|Hs];
        [|now rewrite (np_concatenate_raise _ Hs)].
      destruct (np_concatenate_ok _ (Hne' _ speech_spectrograms Hs0) Hs) as [ss ->].
      cbn [obind].
      destruct (np_concatenate_cases (map noise_spectrograms survivors)) as [[_ Hn]|Hn];
        [|now rewrite (np_concatenate_raise _ Hn)].
      exfalso. apply Hbad. unfold concatenable. auto.
Qed.


(** * Further properties of the pipeline *)

(** ** The video slicer *)

Lemma crop_all_ret_iff (frames : list frame) (crops : list image) :
  crop_all frames = Ret crops
  <-> Forall2 (fun f c => crop_mouth f = Ret c) frames crops.
Proof.
  revert crops. induction frames as [|f rest IH]; intros crops; simpl.
  - split.
    + intros H. inversion H. constructor.
    + intros H. inversion H. reflexivity.
  - split.
    + intros H. destruct (crop_mouth f) as [c| |] eqn:Ec; try discriminate.
      simpl in H. destruct (crop_all rest) as [cs| |] eqn:Er; try discriminate.
      simpl in H. inversion H. subst. constructor; [exact Ec|]. now apply IH.
    + intros H. inversion H as [|? c ? cs Hc Hrest]. subst.
      rewrite Hc. simpl. apply IH in Hrest. rewrite Hrest. reflexivity.
Qed.

Lemma py_slice_chunk {T : Type} (l : list T) (j k : nat) :
  py_slice (Z.of_nat j * Z.of_nat k) ((Z.of_nat j + 1) * Z.of_nat k) l
  = take k (drop (j * k) l).
Proof.
  unfold py_slice. f_equal; [lia|]. f_equal. lia.
Qed.

Lemma chunks_concat {T : Type} (l : list T) (k n : nat) :
  (n * k <= length l)%nat ->
  concat (map (fun j => take k (drop (j * k) l)) (seq 0 n)) = take (n * k) l.
Proof.
  induction n as [|n IH]; intros Hlen; [reflexivity|].
  rewrite seq_S, map_app, concat_app, IH by lia. simpl.
  rewrite app_nil_r, take_take_drop. f_equal. lia.
Qed.

(** The chunks the video slicer cuts: [n] windows of [k] crops each. *)
Lemma video_chunks (crops : list image) (k n : nat) :
  map (fun i => py_slice (i * Z.of_nat k) ((i + 1) * Z.of_nat k) crops)
      (py_range (Z.of_nat n))
  = map (fun j => take k (drop (j * k) crops)) (seq 0 n).
Proof.
  unfold py_range. rewrite Nat2Z.id, map_map.
  apply map_ext. intros j. apply py_slice_chunk.
Qed.

Lemma np_stack_uniform {T : Type} (shape_of : T -> list Z) (slices : list T)
    (sh : list Z) :
  slices <> [] -> (forall t, In t slices -> shape_of t = sh) ->
  np_stack shape_of slices = Ret (mk_stack sh slices).
Proof.
  intros Hne Hall. unfold np_stack. destruct slices as [|s rest]; [congruence|].
  assert (Hs : shape_of s = sh) by (apply Hall; now left).
  destruct (forallb _ _) eqn:E.
  - now rewrite Hs.
  - exfalso. apply Bool.not_true_iff_false in E. apply E.
    apply forallb_forall. intros t Ht. unfold shape_eqb.
    apply bool_decide_eq_true. rewrite Hs. now apply Hall.
Qed.

(** The video slicer in closed form, once the file is there, every frame has a
    mouth and line 23 has computed the slice length. *)
Lemma preprocess_video_sample_run (video_file_path : string)
    (slice_duration_ms mouth_height mouth_width : Z)
    (frames : list frame) (frame_rate : float) (crops : list image) (fps : Z) :
  video_at video_file_path = Some (frames, frame_rate) ->
  crop_all frames = Ret crops ->
  frames_per_slice slice_duration_ms frame_rate = Ret fps ->
  preprocess_video_sample video_file_path slice_duration_ms mouth_height mouth_width
  = if (fps =? 0)%Z
    then Raise ZeroDivisionError
    else if ((1 <=? fps) && (fps <=? Z.of_nat (length frames)))%Z
    then Ret (mk_stack
                [mouth_height; mouth_width; fps]
                (map (fun j => take (Z.to_nat fps) (drop (j * Z.to_nat fps) crops))
                     (seq 0 (length frames / Z.to_nat fps))),
              frame_rate)
    else Raise ValueError.
Proof.
  intros Hfile Hcrops Hfps. unfold preprocess_video_sample. rewrite Hfile, Hcrops.
  cbn [obind]. rewrite Hfps. cbn [obind].
  assert (Hlen : length crops = length frames).
  { apply crop_all_ret_iff in Hcrops. symmetry. exact (Forall2_length _ _ _ Hcrops). }
  destruct (Z.eqb_spec fps 0) as [E0|E0].
  - rewrite E0, py_int_div_zero. reflexivity.
  - rewrite py_int_div_nonzero by exact E0. cbn [obind].
    destruct (Z.leb_spec 1 fps) as [H1|H1]; cbn [andb].
    + destruct (Z.leb_spec fps (Z.of_nat (length frames))) as [H2|H2].
      * rewrite Z.quot_div_nonneg by lia.
        assert (Hn : (Z.of_nat (length frames) / fps)%Z
                     = Z.of_nat (length frames / Z.to_nat fps)).
        { rewrite Nat2Z.inj_div, Z2Nat.id by lia. reflexivity. }
        rewrite Hn.
        assert (Hch : map (fun i => py_slice (i * fps) ((i + 1) * fps) crops)
                          (py_range (Z.of_nat (length frames / Z.to_nat fps)))
                      = map (fun j => take (Z.to_nat fps)
                                           (drop (j * Z.to_nat fps) crops))
                            (seq 0 (length frames / Z.to_nat fps))).
        { rewrite <- video_chunks. apply map_ext. intros i.
          now rewrite Z2Nat.id by lia. }
        rewrite Hch.
        assert (Hq : (1 <= length frames / Z.to_nat fps)%nat).
        { apply Nat.div_le_lower_bound; lia. }
        rewrite (np_stack_uniform _ _ [mouth_height; mouth_width; fps]).
        -- reflexivity.
        -- destruct (length frames / Z.to_nat fps)%nat; [lia|discriminate].
        -- intros t Ht. apply in_map_iff in Ht as (j & <- & Hj).
           apply in_seq in Hj. unfold video_slice_shape. do 3 f_equal.
           rewrite length_take, length_drop.
           pose proof (Nat.Div0.mul_div_le (length frames) (Z.to_nat fps)).
           nia.
      * rewrite Z.quot_small by lia. reflexivity.
    + assert (Hq : (Z.quot (Z.of_nat (length frames)) fps <= 0)%Z).
      { replace fps with (- (- fps))%Z by lia.
        rewrite Z.quot_opp_r by lia.
        pose proof (Z.quot_pos (Z.of_nat (length frames)) (- fps) ltac:(lia) ltac:(lia)).
        lia. }
      unfold py_range. replace (Z.to_nat _) with 0%nat by lia. reflexivity.
Qed.

(** When the video slicer returns, the file was there, every frame had a
    mouth and line 23 computed a slice length. *)
Lemma preprocess_video_sample_ret_inv (video_file_path : string)
    (slice_duration_ms mouth_height mouth_width : Z)
    (st : stack (list image)) (rate : float) :
  preprocess_video_sample video_file_path slice_duration_ms mouth_height mouth_width
  = Ret (st, rate) ->
  exists frames frame_rate crops fps,
    video_at video_file_path = Some (frames, frame_rate)
    /\ crop_all frames = Ret crops
    /\ frames_per_slice slice_duration_ms frame_rate = Ret fps.
Proof.
  unfold preprocess_video_sample. intros H.
  destruct (video_at video_file_path) as [[frames frame_rate]|]; [|discriminate].
  destruct (crop_all frames) as [crops| |] eqn:Hcrops; try discriminate.
  cbn [obind] in H.
  destruct (frames_per_slice slice_duration_ms frame_rate) as [fps| |] eqn:Hfps;
    try discriminate.
  exists frames, frame_rate, crops, fps. auto.
Qed.

Lemma crop_all_returns (frames : list frame) :
  (forall f, In f frames -> exists c, crop_mouth f = Ret c) ->
  exists crops, crop_all frames = Ret crops.
Proof.
  induction frames as [|f rest IH]; intros Hall; simpl.
  - eauto.
  - destruct (Hall f (or_introl eq_refl)) as [c ->].
    destruct IH as [cs ->]; [intros g Hg; apply Hall; now right|].
    simpl. eauto.
Qed.

Lemma crop_all_ret_each (frames : list frame) (crops : list image) :
  crop_all frames = Ret crops ->
  forall f, In f frames -> exists c, crop_mouth f = Ret c.
Proof.
  intros H. apply crop_all_ret_iff in H.
  induction H as [|f c fs cs Hc _ IH]; intros g Hg; [destruct Hg|].
  destruct Hg as [<-|Hg]; eauto.
Qed.

(** X1: The video slicer returns exactly when the file decodes, every frame
    yields a mouth crop, line 23 computes a slice length (in binary64, then
    [int()]), and that length is at least one frame and at most the video's
    frame count. *)
Theorem video_slicer_returns_iff (video_file_path : string)
    (slice_duration_ms mouth_height mouth_width : Z) :
  (exists st frame_rate,
     preprocess_video_sample video_file_path slice_duration_ms mouth_height mouth_width
     = Ret (st, frame_rate))
  <-> exists frames frame_rate fps,
        video_at video_file_path = Some (frames, frame_rate)
        /\ (forall f, In f frames -> exists c, crop_mouth f = Ret c)
        /\ frames_per_slice slice_duration_ms frame_rate = Ret fps
        /\ (1 <= fps <= Z.of_nat (length frames))%Z.
Proof.
  split.
  - intros (st & rate & H).
    destruct (preprocess_video_sample_ret_inv _ _ _ _ _ _ H)
      as (frames & frame_rate & crops & fps & Hfile & Hcrops & Hfps).
    rewrite (preprocess_video_sample_run _ _ _ _ _ _ _ _ Hfile Hcrops Hfps) in H.
    exists frames, frame_rate, fps. split; [exact Hfile|].
    split; [exact (crop_all_ret_each _ _ Hcrops)|]. split; [exact Hfps|].
    destruct (Z.eqb_spec fps 0); [discriminate|].
    destruct (Z.leb_spec 1 fps); [|discriminate].
    destruct (Z.leb_spec fps (Z.of_nat (length frames))); [lia|discriminate].
  - intros (frames & frame_rate & fps & Hfile & Hall & Hfps & Hlo & Hhi).
    destruct (crop_all_returns frames Hall) as [crops Hcrops].
    rewrite (preprocess_video_sample_run _ _ _ _ _ _ _ _ Hfile Hcrops Hfps).
    destruct (Z.eqb_spec fps 0); [lia|].
    destruct (Z.leb_spec 1 fps); [|lia].
    destruct (Z.leb_spec fps (Z.of_nat (length frames))); [|lia].
    cbn [andb]. eauto.
Qed.

(** X2: The errors of the video slicer on a video whose frames all show a
    mouth. An exception of line 23 (a slice duration too large for a float, a
    product that is infinite or not a number) is the slicer's; a slice of zero
    frames is a division by zero at line 24; and a video shorter than one
    slice, or a negative slice length, leaves nothing to stack at line 31. *)
Theorem video_slicer_errors (video_file_path : string)
    (slice_duration_ms mouth_height mouth_width : Z)
    (frames : list frame) (frame_rate : float) :
  video_at video_file_path = Some (frames, frame_rate) ->
  (forall f, In f frames -> exists c, crop_mouth f = Ret c) ->
  (forall e,
     frames_per_slice slice_duration_ms frame_rate = Raise e ->
     preprocess_video_sample video_file_path slice_duration_ms mouth_height mouth_width
     = Raise e)
  /\ (forall fps,
        frames_per_slice slice_duration_ms frame_rate = Ret fps ->
        (fps = 0%Z ->
         preprocess_video_sample video_file_path slice_duration_ms
                                 mouth_height mouth_width
         = Raise ZeroDivisionError)
        /\ ((Z.of_nat (length frames) < fps)%Z ->
            preprocess_video_sample video_file_path slice_duration_ms
                                    mouth_height mouth_width
            = Raise ValueError)
        /\ ((fps < 0)%Z ->
            preprocess_video_sample video_file_path slice_duration_ms
                                    mouth_height mouth_width
            = Raise ValueError)).
Proof.
  intros Hfile Hall.
  destruct (crop_all_returns frames Hall) as [crops Hcrops].
  split.
  - intros e He. unfold preprocess_video_sample.
    rewrite Hfile, Hcrops. cbn [obind]. now rewrite He.
  - intros fps Hfps.
    rewrite (preprocess_video_sample_run _ _ _ _ _ _ _ _ Hfile Hcrops Hfps).
    split; [|split].
    + intros ->. reflexivity.
    + intros Hshort.
      destruct (Z.eqb_spec fps 0); [lia|].
      destruct (Z.leb_spec 1 fps); [|reflexivity].
      destruct (Z.leb_spec fps (Z.of_nat (length frames))); [lia|reflexivity].
    + intros Hneg.
      destruct (Z.eqb_spec fps 0); [lia|].
      destruct (Z.leb_spec 1 fps); [lia|reflexivity].
Qed.

Lemma crop_all_first_failure (before after : list frame) (f : frame) (e : exn) :
  (forall g, In g before -> exists c, crop_mouth g = Ret c) ->
  crop_mouth f = Raise e ->
  crop_all (before ++ f :: after) = Raise e.
Proof.
  intros Hall Hf. induction before as [|g rest IH]; simpl.
  - now rewrite Hf.
  - destruct (Hall g (or_introl eq_refl)) as [c ->]. simpl.
    rewrite IH; [reflexivity|]. intros g' Hg'. apply Hall. now right.
Qed.

(** X3: A frame without a mouth stops the video slicer: the detector's exception at
    the first such frame is the slicer's, whatever the frames after it, the
    frame rate and the slice duration. *)
Theorem video_slicer_detection_failure (video_file_path : string)
    (slice_duration_ms mouth_height mouth_width : Z)
    (before after : list frame) (f : frame) (frame_rate : float) (e : exn) :
  video_at video_file_path = Some (before ++ f :: after, frame_rate) ->
  (forall g, In g before -> exists c, crop_mouth g = Ret c) ->
  crop_mouth f = Raise e ->
  preprocess_video_sample video_file_path slice_duration_ms mouth_height mouth_width
  = Raise e.
Proof.
  intros Hfile Hall Hf. unfold preprocess_video_sample.
  rewrite Hfile, (crop_all_first_failure _ _ _ _ Hall Hf). reflexivity.
Qed.

(** X4: What the video slicer returns: the crops of the frames, in order, cut
    into windows of exactly [frames_per_slice] crops, for the
    [frames_per_slice] line 23 computes; the windows, end to end, are the
    first [n_slices * frames_per_slice] crops, and fewer than
    [frames_per_slice] trailing frames are left out. The frame rate is the
    file's. *)
Theorem video_slices_partition (video_file_path : string)
    (slice_duration_ms mouth_height mouth_width : Z)
    (st : stack (list image)) (rate : float) :
  preprocess_video_sample video_file_path slice_duration_ms mouth_height mouth_width
  = Ret (st, rate) ->
  exists frames crops fps,
    video_at video_file_path = Some (frames, rate)
    /\ Forall2 (fun f c => crop_mouth f = Ret c) frames crops
    /\ frames_per_slice slice_duration_ms rate = Ret fps
    /\ (1 <= fps)%Z
    /\ item_shape st = [mouth_height; mouth_width; fps]
    /\ shape0 st = (Z.of_nat (length frames) / fps)%Z
    /\ Forall (fun s => Z.of_nat (length s) = fps) (items st)
    /\ concat (items st) = take (Z.to_nat (shape0 st * fps)) crops
    /\ (0 <= Z.of_nat (length frames) - shape0 st * fps < fps)%Z.
Proof.
  intros H.
  destruct (preprocess_video_sample_ret_inv _ _ _ _ _ _ H)
    as (frames & frame_rate & crops & fps & Hfile & Hcrops & Hfps).
  rewrite (preprocess_video_sample_run _ _ _ _ _ _ _ _ Hfile Hcrops Hfps) in H.
  destruct (Z.eqb_spec fps 0); [discriminate|].
  destruct (Z.leb_spec 1 fps) as [H1|]; [|discriminate].
  destruct (Z.leb_spec fps (Z.of_nat (length frames))) as [H2|]; [|discriminate].
  cbn [andb] in H. inversion H. subst rate. clear H.
  set (k := Z.to_nat fps).
  assert (Hk : Z.of_nat k = fps) by (unfold k; lia).
  assert (Hlen : length crops = length frames).
  { apply crop_all_ret_iff in Hcrops. symmetry. exact (Forall2_length _ _ _ Hcrops). }
  pose proof (Nat.Div0.mul_div_le (length frames) k) as Hmul.
  assert (Hcount : shape0 (mk_stack [mouth_height; mouth_width; fps]
                     (map (fun j => take k (drop (j * k) crops))
                          (seq 0 (length frames / k))))
                   = (Z.of_nat (length frames) / fps)%Z).
  { unfold shape0. cbn [items]. rewrite length_map, length_seq.
    rewrite Nat2Z.inj_div, Hk. reflexivity. }
  exists frames, crops, fps.
  split; [exact Hfile|]. split; [now apply crop_all_ret_iff|].
  split; [exact Hfps|].
  split; [exact H1|]. split; [reflexivity|]. split; [exact Hcount|].
  split; [|split].
  - cbn [items]. apply Forall_forall. intros s Hs.
    apply list_elem_of_In, in_map_iff in Hs as (j & <- & Hj). apply in_seq in Hj.
    rewrite length_take, length_drop. nia.
  - rewrite Hcount. cbn [items].
    rewrite chunks_concat by lia. f_equal.
    rewrite <- Hk, <- Nat2Z.inj_div, <- Nat2Z.inj_mul. lia.
  - rewrite Hcount.
    pose proof (Z.mod_pos_bound (Z.of_nat (length frames)) fps ltac:(lia)).
    pose proof (Z.div_mod (Z.of_nat (length frames)) fps ltac:(lia)). lia.
Qed.


(** ** The audio slicer, linear path *)

Lemma bind_lift_ret {A B : Type} (m : outcome A) (k : A -> M B) (h : heap) (a : A) :
  m = Ret a -> bind (lift m) k h = k a h.
Proof. intros ->. reflexivity. Qed.

Lemma bind_lift_raise {A B : Type} (m : outcome A) (k : A -> M B) (h : heap) (e : exn) :
  m = Raise e -> bind (lift m) k h = Raise e.
Proof. intros ->. reflexivity. Qed.

Lemma librosa_stft_db_run (data : list Q) (n_fft hop_length : Z) :
  (1 <= hop_length)%Z ->
  (n_fft <= Z.of_nat (length data) + 2 * (n_fft / 2))%Z ->
  librosa_stft_db data n_fft hop_length
  = Ret (mk_spectrogram
           (1 + n_fft / 2)
           (1 + (Z.of_nat (length data) + 2 * (n_fft / 2) - n_fft) / hop_length)
           (stft_db data n_fft hop_length)).
Proof.
  intros Hhop Hpad. unfold librosa_stft_db.
  destruct (Z.ltb_spec hop_length 1); [lia|].
  destruct (Z.ltb_spec (Z.of_nat (length data) + 2 * (n_fft / 2)) n_fft); [lia|].
  reflexivity.
Qed.

Lemma compute_spectrogram_linear_run (l : loc) (n_fft hop_length : Z) (h : heap)
    (o : AudioSignal) (sp0 : spectrogram) :
  h !! l = Some o ->
  librosa_stft_db (sig_data o) n_fft hop_length = Ret sp0 ->
  compute_spectrogram l n_fft hop_length false h = Ret (trim_to_even sp0, h).
Proof.
  intros Hl Hstft. unfold compute_spectrogram.
  rewrite (bind_run _ _ _ _ _ (get_data_run _ _ _ Hl)).
  rewrite (bind_lift_ret _ _ _ _ Hstft). reflexivity.
Qed.

Lemma slice_frames_inside (sp : spectrogram) (q i : Z) :
  (1 <= q)%Z -> (0 <= i)%Z -> ((i + 1) * q <= n_frames sp)%Z ->
  n_frames (slice_frames (i * q) ((i + 1) * q) sp) = q.
Proof. intros Hq Hi Hin. cbn [slice_frames n_frames]. nia. Qed.

Lemma py_range_In (n i : Z) : In i (py_range n) <-> (0 <= i < n)%Z.
Proof.
  unfold py_range. rewrite in_map_iff. split.
  - intros (j & <- & Hj). apply in_seq in Hj. lia.
  - intros Hi. exists (Z.to_nat i). split; [lia|]. apply in_seq. lia.
Qed.

(** Stacking the windows of a spectrogram that holds at least one. *)
Lemma np_stack_sliced (sp : spectrogram) (q : Z) :
  (1 <= q <= n_frames sp)%Z ->
  np_stack spectrogram_shape
           (map (fun i => slice_frames (i * q) ((i + 1) * q) sp)
                (py_range (Z.quot (n_frames sp) q)))
  = Ret (sliced sp q).
Proof.
  intros Hq. unfold sliced. apply np_stack_uniform.
  - assert (Hn : (1 <= Z.quot (n_frames sp) q)%Z).
    { rewrite Z.quot_div_nonneg by lia. apply Z.div_le_lower_bound; lia. }
    unfold py_range. destruct (Z.to_nat (Z.quot (n_frames sp) q)) eqn:E; [lia|].
    discriminate.
  - intros t Ht. apply in_map_iff in Ht as (i & <- & Hi). apply py_range_In in Hi.
    unfold spectrogram_shape. f_equal. f_equal.
    apply slice_frames_inside; [lia|lia|].
    rewrite Z.quot_div_nonneg in Hi by lia.
    pose proof (Z.mul_div_le (n_frames sp) q ltac:(lia)). nia.
Qed.

(** With at least one video slice, a hop of at least one sample and a slice of
    at least one hop are all the linear path needs. *)
Lemma slicing_fits_pos (samples n_video_slices n_fft : Z) :
  (1 <= hop_length_of n_fft <= samples)%Z -> (1 <= n_video_slices)%Z ->
  slicing_fits samples n_video_slices n_fft.
Proof.
  intros [Hhop Hsh] Hn. unfold slicing_fits. cbn zeta.
  set (hop := hop_length_of n_fft) in *.
  rewrite Z.max_r by nia.
  split; [lia|].
  pose proof (Z.mod_pos_bound n_fft 2 ltac:(lia)).
  pose proof (Z.div_mod n_fft 2 ltac:(lia)).
  split; [nia|].
  assert (Hq : (1 <= Z.quot samples hop)%Z).
  { rewrite Z.quot_div_nonneg by lia. apply Z.div_le_lower_bound; lia. }
  pose proof (frames_cover_slices samples n_video_slices n_fft hop Hhop Hn Hq) as Hcover.
  apply quot_ge_1; lia.
Qed.

(** Without a video slice the forced signal is empty: the linear path needs an
    even n_fft and a slice shorter than two hops. *)
Lemma slicing_fits_zero (samples n_fft : Z) :
  slicing_fits samples 0 n_fft
  <-> (1 <= hop_length_of n_fft <= samples)%Z
      /\ (n_fft mod 2 = 0)%Z
      /\ (samples < 2 * hop_length_of n_fft)%Z.
Proof.
  unfold slicing_fits. cbn zeta.
  set (hop := hop_length_of n_fft).
  rewrite Z.mul_0_r, Z.max_id, !Z.add_0_l.
  pose proof (Z.mod_pos_bound n_fft 2 ltac:(lia)) as Hmod.
  pose proof (Z.div_mod n_fft 2 ltac:(lia)) as Hdiv.
  split.
  - intros ([Hhop Hsh] & Hpad & Hfit).
    assert (Heven : (n_fft mod 2 = 0)%Z) by lia.
    split; [lia|]. split; [exact Heven|].
    replace (2 * (n_fft / 2) - n_fft)%Z with 0%Z in Hfit by lia.
    rewrite Z.div_0_l in Hfit by lia.
    rewrite Z.quot_div_nonneg in Hfit by lia.
    destruct (Z.lt_ge_cases samples (2 * hop)) as [|Hge]; [assumption|].
    pose proof (Z.div_le_lower_bound samples hop 2 ltac:(lia) ltac:(lia)). lia.
  - intros ([Hhop Hsh] & Heven & Hlt).
    split; [lia|]. split; [lia|].
    replace (2 * (n_fft / 2) - n_fft)%Z with 0%Z by lia.
    rewrite Z.div_0_l by lia.
    rewrite Z.quot_div_nonneg by lia.
    pose proof (Z.div_lt_upper_bound samples hop 2 ltac:(lia) ltac:(lia)). lia.
Qed.

(** The linear path of the audio slicer in closed form. *)
Lemma preprocess_audio_signal_linear_run (l : loc)
    (slice_duration_ms n_video_slices : Z) (video_frame_rate : float)
    (h : heap) (o : AudioSignal) (sps n_fft : Z) :
  h !! l = Some o ->
  samples_per_slice slice_duration_ms (sig_rate o) = Ret sps ->
  n_fft_of (sig_rate o) video_frame_rate = Ret n_fft ->
  slicing_fits sps n_video_slices n_fft ->
  exists sp0,
    librosa_stft_db (sig_data (forced_signal o slice_duration_ms n_video_slices))
                    n_fft (hop_length_of n_fft) = Ret sp0
    /\ n_frames sp0
       = (1 + (Z.max 0 (sps * n_video_slices) + 2 * (n_fft / 2) - n_fft)
              / hop_length_of n_fft)%Z
    /\ preprocess_audio_signal l slice_duration_ms n_video_slices video_frame_rate false h
       = Ret (sliced (trim_to_even sp0) (Z.quot sps (hop_length_of n_fft)),
              <[l := forced_signal o slice_duration_ms n_video_slices]> h).
Proof.
  intros Hl Hsps Hnfft ([Hhop Hsh] & Hpad & Hfit). cbn zeta in *.
  set (hop := hop_length_of n_fft) in *.
  set (forced := forced_signal o slice_duration_ms n_video_slices).
  pose proof (forced_signal_length o slice_duration_ms n_video_slices sps Hsps) as Hflen.
  fold forced in Hflen.
  assert (Hfrate : sig_rate forced = sig_rate o) by apply forced_signal_rate.
  assert (Hl' : <[l := forced]> h !! l = Some forced).
  { apply list_lookup_insert_eq. now apply lookup_lt_Some in Hl. }
  assert (Hq : (1 <= Z.quot sps hop)%Z).
  { rewrite Z.quot_div_nonneg by lia. apply Z.div_le_lower_bound; lia. }
  pose proof (librosa_stft_db_run (sig_data forced) n_fft hop Hhop
                ltac:(rewrite Hflen; exact Hpad)) as Hstft.
  rewrite Hflen in Hstft.
  eexists. split; [exact Hstft|]. split; [reflexivity|].
  unfold preprocess_audio_signal.
  rewrite (bind_run _ _ _ _ _ (force_length_run _ _ _ _ _ _ Hl Hsps)).
  rewrite (bind_run _ _ _ _ _ (get_sample_rate_run _ _ _ Hl')).
  rewrite Hfrate, (bind_lift_ret _ _ _ _ Hnfft).
  rewrite (bind_run _ _ _ _ _ (compute_spectrogram_linear_run _ _ _ _ _ _ Hl' Hstft)).
  fold hop.
  rewrite (bind_lift_ret _ _ _ _ (py_int_div_nonzero sps hop ltac:(lia))).
  set (sp := trim_to_even _).
  assert (Hframes : n_frames sp
                    = (1 + (Z.max 0 (sps * n_video_slices) + 2 * (n_fft / 2) - n_fft)
                           / hop)%Z).
  { unfold sp, trim_to_even. now destruct (negb _). }
  rewrite (bind_lift_ret _ _ _ _
             (py_int_div_nonzero (n_frames sp) (Z.quot sps hop) ltac:(lia))).
  unfold lift. rewrite np_stack_sliced by lia. reflexivity.
Qed.

(** The conditions under which the linear path can have returned. *)
Lemma preprocess_audio_signal_linear_conditions (l : loc)
    (slice_duration_ms n_video_slices : Z) (video_frame_rate : float)
    (h h' : heap) (o : AudioSignal) (st : stack spectrogram) :
  h !! l = Some o ->
  preprocess_audio_signal l slice_duration_ms n_video_slices video_frame_rate false h
  = Ret (st, h') ->
  exists sps n_fft,
    samples_per_slice slice_duration_ms (sig_rate o) = Ret sps
    /\ n_fft_of (sig_rate o) video_frame_rate = Ret n_fft
    /\ slicing_fits sps n_video_slices n_fft.
Proof.
  intros Hl H. unfold preprocess_audio_signal in H.
  apply bind_ret_inv in H as (sps & h0 & Hforce & H).
  apply force_length_ret_inv in Hforce as (o' & Hl0 & Hsps & ->).
  rewrite Hl in Hl0. inversion Hl0. subst o'. clear Hl0.
  set (forced := forced_signal o slice_duration_ms n_video_slices) in *.
  assert (Hfrate : sig_rate forced = sig_rate o) by apply forced_signal_rate.
  assert (Hl' : <[l := forced]> h !! l = Some forced).
  { apply list_lookup_insert_eq. now apply lookup_lt_Some in Hl. }
  rewrite (bind_run _ _ _ _ _ (get_sample_rate_run _ _ _ Hl')) in H.
  apply bind_ret_inv in H as (n_fft & h0 & Hnfft & H).
  apply lift_ret_inv in Hnfft as [Hnfft ->].
  apply bind_ret_inv in H as (sp & h0 & Hspec & H).
  apply compute_spectrogram_ret_inv in Hspec as [-> Hspec].
  destruct (Hspec eq_refl) as (o' & sp0 & Hlo & Hstft & Hsp).
  rewrite Hl' in Hlo. inversion Hlo. subst o'. clear Hlo Hspec.
  apply librosa_stft_db_ret_inv in Hstft as (Hhop & Hpad & _ & Hframes & _).
  apply bind_ret_inv in H as (q & h0 & Hq & H).
  apply lift_ret_inv in Hq as [Hq ->].
  apply py_int_div_ret_inv in Hq as [_ ->].
  apply bind_ret_inv in H as (ns & h0 & Hns & H).
  apply lift_ret_inv in Hns as [Hns ->].
  apply py_int_div_ret_inv in Hns as [Hq0 ->].
  apply lift_ret_inv in H as [Hstack _].
  apply np_stack_ret_inv in Hstack as (Hne & _ & _).
  rewrite Hfrate in Hnfft.
  exists sps, n_fft. split; [exact Hsps|]. split; [exact Hnfft|].
  unfold slicing_fits. cbn zeta.
  set (hop := hop_length_of n_fft) in *.
  pose proof (forced_signal_length o slice_duration_ms n_video_slices sps Hsps) as Hflen.
  fold forced in Hflen. rewrite Hflen in Hpad, Hframes.
  assert (Hfr' : n_frames sp = n_frames sp0).
  { rewrite Hsp. now destruct (negb _). }
  assert (Hns : (1 <= Z.quot (n_frames sp) (Z.quot sps hop))%Z).
  { destruct (Z.le_gt_cases (Z.quot (n_frames sp) (Z.quot sps hop)) 0) as [Hle|];
      [|lia].
    exfalso. apply Hne. unfold py_range.
    now replace (Z.to_nat _) with 0%nat by lia. }
  assert (Hfr : (0 <= n_frames sp)%Z).
  { rewrite Hfr', Hframes.
    pose proof (Z.div_pos (Z.max 0 (sps * n_video_slices) + 2 * (n_fft / 2) - n_fft)
                  hop ltac:(lia) ltac:(lia)).
    lia. }
  pose proof (quot_pos_divisor _ _ Hfr Hns) as Hqpos.
  pose proof (quot_ge_1 sps hop Hhop Hqpos) as Hsh.
  pose proof (quot_ge_1 (n_frames sp) (Z.quot sps hop) Hqpos Hns) as Hfit.
  rewrite Hfr', Hframes in Hfit.
  split; [lia|]. split; [exact Hpad|exact Hfit].
Qed.

(** X5: The audio slicer, on its linear path and for a video slice count that
    is not negative, returns exactly when lines 35 and 43 compute a sample
    count per slice and an n_fft (the video frame rate is not zero, nothing
    overflows), a hop is at least one sample (n_fft is at least 4), a slice is
    at least one hop long, and either there is a video slice or, with none,
    n_fft is even and a slice is shorter than two hops. *)
Theorem audio_slicer_returns_iff (l : loc)
    (slice_duration_ms n_video_slices : Z) (video_frame_rate : float)
    (h : heap) (o : AudioSignal) :
  h !! l = Some o ->
  (0 <= n_video_slices)%Z ->
  ((exists st h',
      preprocess_audio_signal l slice_duration_ms n_video_slices video_frame_rate false h
      = Ret (st, h'))
   <-> exists samples n_fft,
         samples_per_slice slice_duration_ms (sig_rate o) = Ret samples
         /\ n_fft_of (sig_rate o) video_frame_rate = Ret n_fft
         /\ (1 <= hop_length_of n_fft <= samples)%Z
         /\ ((1 <= n_video_slices)%Z
             \/ (n_video_slices = 0%Z
                 /\ (n_fft mod 2 = 0)%Z
                 /\ (samples < 2 * hop_length_of n_fft)%Z))).
Proof.
  intros Hl Hn. split.
  - intros (st & h' & H).
    destruct (preprocess_audio_signal_linear_conditions _ _ _ _ _ _ _ _ Hl H)
      as (sps & n_fft & Hsps & Hnfft & Hfits).
    exists sps, n_fft. split; [exact Hsps|]. split; [exact Hnfft|].
    destruct (Z.eq_dec n_video_slices 0%Z) as [->|Hpos].
    + apply slicing_fits_zero in Hfits as (Hhop & Heven & Hlt). auto.
    + destruct Hfits as (Hhop & _). split; [exact Hhop|]. left. lia.
  - intros (sps & n_fft & Hsps & Hnfft & Hhop & Hcase).
    assert (Hfits : slicing_fits sps n_video_slices n_fft).
    { destruct Hcase as [Hpos|(-> & Heven & Hlt)].
      - now apply slicing_fits_pos.
      - apply slicing_fits_zero. auto. }
    destruct (preprocess_audio_signal_linear_run l slice_duration_ms n_video_slices
                video_frame_rate h o sps n_fft Hl Hsps Hnfft Hfits)
      as (sp0 & _ & _ & Hrun).
    eauto.
Qed.


Lemma trim_to_even_even (sp : spectrogram) :
  (1 <= n_bins sp)%Z -> (n_bins (trim_to_even sp) mod 2 = 0)%Z.
Proof.
  intros Hpos. unfold trim_to_even.
  destruct (Z.eqb_spec (n_bins sp mod 2) 0) as [E|E]; cbn [negb]; [exact E|].
  unfold drop_last_bin. cbn [n_bins].
  pose proof (Z.mod_pos_bound (n_bins sp) 2 ltac:(lia)).
  rewrite Z.max_r by lia. rewrite <- Zminus_mod_idemp_l.
  replace (n_bins sp mod 2)%Z with 1%Z by lia. reflexivity.
Qed.

Lemma sliced_lookup (sp : spectrogram) (q : Z) (i : nat) (s : spectrogram) :
  (1 <= q <= n_frames sp)%Z ->
  items (sliced sp q) !! i = Some s ->
  s = slice_frames (Z.of_nat i * q) ((Z.of_nat i + 1) * q) sp
  /\ ((Z.of_nat i + 1) * q <= n_frames sp)%Z.
Proof.
  intros Hq Hs. unfold sliced, py_range in Hs. cbn [items] in Hs.
  change (map ?f ?l) with (f <$> l) in Hs.
  rewrite !list_lookup_fmap in Hs.
  destruct (seq 0 (Z.to_nat (Z.quot (n_frames sp) q)) !! i) as [j|] eqn:Ej;
    [|discriminate].
  apply lookup_seq in Ej as [-> Hi]. cbn in Hs. inversion Hs. split; [reflexivity|].
  rewrite Z.quot_div_nonneg in Hi by lia.
  pose proof (Z.mul_div_le (n_frames sp) q ltac:(lia)). nia.
Qed.

Lemma hstack_windows (sp : spectrogram) (q : Z) (m a : nat) :
  (1 <= q)%Z -> ((Z.of_nat a + Z.of_nat m) * q <= n_frames sp)%Z ->
  n_frames (hstack (n_bins sp)
              (map (fun i => slice_frames (i * q) ((i + 1) * q) sp)
                   (map Z.of_nat (seq a m))))
  = (Z.of_nat m * q)%Z
  /\ forall k t,
       (0 <= t < Z.of_nat m * q)%Z ->
       cell (hstack (n_bins sp)
               (map (fun i => slice_frames (i * q) ((i + 1) * q) sp)
                    (map Z.of_nat (seq a m)))) k t
       = cell sp k (Z.of_nat a * q + t)%Z.
Proof.
  intros Hq. revert a. induction m as [|m IH]; intros a Hin.
  - simpl. split; [reflexivity|]. intros k t Ht. lia.
  - cbn [seq map hstack].
    destruct (IH (S a) ltac:(lia)) as [Hn Hc].
    rewrite slice_frames_inside by lia.
    cbn [n_frames cell]. split; [rewrite Hn; lia|].
    intros k t Ht.
    destruct (Z.ltb_spec t q) as [Hlt|Hge].
    + reflexivity.
    + rewrite Hc by lia. f_equal. lia.
Qed.

(** X6: What the audio slicer returns on its linear path, for a video slice
    count that is not negative: windows of the dB spectrogram of the
    length-forced signal, an even number of bins high and
    [samples_per_slice // hop_length] frames wide, for the [samples_per_slice]
    and the [n_fft] that lines 35 and 43 compute; window [i] starts at frame
    [i] times that width; there are as many as fit, and the frames after the
    last whole window, fewer than a window, are left out. *)
Theorem audio_slices_windows (l : loc)
    (slice_duration_ms n_video_slices : Z) (video_frame_rate : float)
    (h h' : heap) (o : AudioSignal) (st : stack spectrogram) :
  h !! l = Some o ->
  (0 <= n_video_slices)%Z ->
  preprocess_audio_signal l slice_duration_ms n_video_slices video_frame_rate false h
  = Ret (st, h') ->
  exists samples n_fft sp,
    samples_per_slice slice_duration_ms (sig_rate o) = Ret samples
    /\ n_fft_of (sig_rate o) video_frame_rate = Ret n_fft
    /\ (n_bins sp mod 2 = 0)%Z
    /\ n_frames sp
       = (1 + (samples * n_video_slices + 2 * (n_fft / 2) - n_fft)
              / hop_length_of n_fft)%Z
    /\ (forall k t,
          cell sp k t
          = stft_db (sig_data (forced_signal o slice_duration_ms n_video_slices))
                    n_fft (hop_length_of n_fft) k t)
    /\ item_shape st = [n_bins sp; Z.quot samples (hop_length_of n_fft)]
    /\ shape0 st = (n_frames sp / Z.quot samples (hop_length_of n_fft))%Z
    /\ (forall i s,
          items st !! i = Some s ->
          n_bins s = n_bins sp
          /\ n_frames s = Z.quot samples (hop_length_of n_fft)
          /\ forall k t,
               cell s k t
               = cell sp k (Z.of_nat i * Z.quot samples (hop_length_of n_fft) + t)%Z)
    /\ (0 <= n_frames sp - shape0 st * Z.quot samples (hop_length_of n_fft)
        < Z.quot samples (hop_length_of n_fft))%Z.
Proof.
  intros Hl Hn H.
  destruct (preprocess_audio_signal_linear_conditions _ _ _ _ _ _ _ _ Hl H)
    as (sps & n_fft & Hsps & Hnfft & Hfits).
  destruct (preprocess_audio_signal_linear_run l slice_duration_ms n_video_slices
              video_frame_rate h o sps n_fft Hl Hsps Hnfft Hfits)
    as (sp0 & Hstft & Hframes & Hrun).
  rewrite Hrun in H. inversion H. subst st h'. clear H Hrun.
  destruct Hfits as ([Hhop Hsh] & _ & Hfit). cbn zeta in *.
  set (hop := hop_length_of n_fft) in *.
  rewrite Z.max_r in Hframes, Hfit by nia.
  apply librosa_stft_db_ret_inv in Hstft as (_ & _ & Hbins & _ & Hcell).
  assert (Hq : (1 <= Z.quot sps hop)%Z).
  { rewrite Z.quot_div_nonneg by lia. apply Z.div_le_lower_bound; lia. }
  assert (Hn4 : (4 <= n_fft)%Z).
  { apply (quot_ge_1 n_fft 4); [lia|]. rewrite <- hop_length_quot. fold hop. lia. }
  assert (Hb : (1 <= n_bins sp0)%Z).
  { rewrite Hbins. pose proof (Z.div_le_lower_bound n_fft 2 2 ltac:(lia) ltac:(lia)).
    lia. }
  set (sp := trim_to_even sp0).
  assert (Hfr : n_frames sp = n_frames sp0).
  { unfold sp, trim_to_even. now destruct (negb _). }
  assert (Hce : cell sp = cell sp0).
  { unfold sp, trim_to_even. now destruct (negb _). }
  assert (Hqt : (Z.quot sps hop <= n_frames sp)%Z) by (rewrite Hfr, Hframes; exact Hfit).
  assert (Hfr0 : (0 <= n_frames sp)%Z) by lia.
  exists sps, n_fft, sp. fold hop.
  split; [exact Hsps|]. split; [exact Hnfft|]. split; [now apply trim_to_even_even|].
  split; [now rewrite Hfr|]. split; [intros k t; now rewrite Hce, Hcell|].
  split; [reflexivity|].
  assert (Hcount : shape0 (sliced sp (Z.quot sps hop))
                   = (n_frames sp / Z.quot sps hop)%Z).
  { unfold shape0, sliced. cbn [items]. rewrite length_map, py_range_length.
    rewrite Z.quot_div_nonneg by lia.
    pose proof (Z.div_pos (n_frames sp) (Z.quot sps hop) Hfr0 ltac:(lia)). lia. }
  split; [exact Hcount|]. split.
  - intros i s Hs. apply sliced_lookup in Hs as [-> Hin]; [|lia].
    split; [reflexivity|]. split; [apply slice_frames_inside; lia|].
    intros k t. reflexivity.
  - rewrite Hcount.
    pose proof (Z.mod_pos_bound (n_frames sp) (Z.quot sps hop) ltac:(lia)).
    pose proof (Z.div_mod (n_frames sp) (Z.quot sps hop) ltac:(lia)). lia.
Qed.

(** X7: Slicing and joining are inverse on the frames the slices cover: the slices
    of a spectrogram, concatenated along the time axis as the reconstructor
    does at line 73, give back its first [n_slices * q] frames, cell for
    cell. *)
Theorem slices_concatenate_back (sp : spectrogram) (q : Z) :
  (1 <= q <= n_frames sp)%Z ->
  exists joined,
    np_concatenate_axis1 (items (sliced sp q)) = Ret joined
    /\ n_bins joined = n_bins sp
    /\ n_frames joined = (shape0 (sliced sp q) * q)%Z
    /\ (n_frames sp - q < n_frames joined <= n_frames sp)%Z
    /\ forall k t, (0 <= t < n_frames joined)%Z -> cell joined k t = cell sp k t.
Proof.
  intros Hq.
  assert (Hn : (1 <= Z.quot (n_frames sp) q)%Z).
  { rewrite Z.quot_div_nonneg by lia. apply Z.div_le_lower_bound; lia. }
  assert (Hcount : shape0 (sliced sp q) = (n_frames sp / q)%Z).
  { unfold shape0, sliced. cbn [items]. rewrite length_map, py_range_length.
    rewrite Z.quot_div_nonneg in * by lia. lia. }
  pose proof (Z.mod_pos_bound (n_frames sp) q ltac:(lia)) as Hmod.
  pose proof (Z.div_mod (n_frames sp) q ltac:(lia)) as Hdiv.
  destruct (hstack_windows sp q (Z.to_nat (Z.quot (n_frames sp) q)) 0 ltac:(lia))
    as [Hframes Hcells].
  { rewrite Z.quot_div_nonneg in * by lia. rewrite Z2Nat.id by lia. lia. }
  exists (hstack (n_bins sp) (items (sliced sp q))).
  assert (Hjoin : n_frames (hstack (n_bins sp) (items (sliced sp q)))
                  = (shape0 (sliced sp q) * q)%Z).
  { rewrite Hcount. unfold sliced, py_range. cbn [items]. rewrite Hframes.
    rewrite Z.quot_div_nonneg in * by lia. rewrite Z2Nat.id by lia. reflexivity. }
  split; [|split; [|split; [exact Hjoin|split]]].
  - unfold np_concatenate_axis1.
    destruct (items (sliced sp q)) as [|a rest] eqn:E.
    + exfalso. unfold sliced, py_range in E. cbn [items] in E.
      destruct (Z.to_nat (Z.quot (n_frames sp) q)) eqn:E'; [lia|discriminate].
    + assert (Hall : forall b, In b (a :: rest) -> n_bins b = n_bins sp).
      { rewrite <- E. intros b Hb. unfold sliced in Hb. cbn [items] in Hb.
        apply in_map_iff in Hb as (i & <- & _). reflexivity. }
      assert (Ha : n_bins a = n_bins sp) by (apply Hall; now left).
      rewrite Ha.
      destruct (forallb _ _) eqn:F; [reflexivity|].
      exfalso. apply Bool.not_true_iff_false in F. apply F.
      apply forallb_forall. intros b Hb. apply Z.eqb_eq. now apply Hall.
  - unfold sliced. cbn [items].
    destruct (map _ _); reflexivity.
  - rewrite Hjoin, Hcount. nia.
  - intros k t Ht. rewrite Hjoin, Hcount in Ht.
    unfold sliced, py_range. cbn [items]. rewrite Hcells; [f_equal; lia|].
    rewrite Z.quot_div_nonneg in * by lia. rewrite Z2Nat.id by lia. lia.
Qed.


(** ** The signal reconstructor *)

Lemma py_float_cases (n : Z) :
  (exists x, py_float n = Ret x) \/ py_float n = Raise OverflowError.
Proof.
  unfold py_float. destruct (binary_normalize prec emax n 0 false); eauto.
Qed.

(** X9: The reconstructor's own errors: a zero video frame rate, of either
    sign, makes line 67 raise, a division by zero unless the sample rate is
    too large for a float; and without a slice there is nothing to concatenate
    at line 73. *)
Theorem reconstructor_errors (mixed_signal : loc)
    (speech_spectrograms : stack spectrogram) (video_frame_rate : float) (peak : Q)
    (db : bool) (h : heap) (mixed : AudioSignal) :
  h !! mixed_signal = Some mixed ->
  ((video_frame_rate =? 0)%float = true ->
   reconstruct_speech_signal mixed_signal speech_spectrograms video_frame_rate peak db h
   = Raise ZeroDivisionError
   \/ (py_float (sig_rate mixed) = Raise OverflowError
       /\ reconstruct_speech_signal mixed_signal speech_spectrograms video_frame_rate
                                    peak db h
          = Raise OverflowError))
  /\ (forall n_fft phase,
        n_fft_of (sig_rate mixed) video_frame_rate = Ret n_fft ->
        signal_phase mixed n_fft (hop_length_of n_fft) = Ret phase ->
        items speech_spectrograms = [] ->
        reconstruct_speech_signal mixed_signal speech_spectrograms video_frame_rate
                                  peak db h
        = Raise ValueError).
Proof.
  intros Hm. split.
  - intros Hz. unfold reconstruct_speech_signal.
    rewrite (bind_run _ _ _ _ _ (get_sample_rate_run _ _ _ Hm)).
    destruct (py_float_cases (sig_rate mixed)) as [[rate Hrate]|Hover].
    + left. apply bind_lift_raise. unfold n_fft_of, py_float_div.
      rewrite Hrate. cbn [obind]. now rewrite Hz.
    + right. split; [exact Hover|]. apply bind_lift_raise. unfold n_fft_of.
      now rewrite Hover.
  - intros n_fft phase Hnfft Hphase Hempty. unfold reconstruct_speech_signal.
    rewrite (bind_run _ _ _ _ _ (get_sample_rate_run _ _ _ Hm)).
    rewrite (bind_lift_ret _ _ _ _ Hnfft).
    rewrite (bind_run _ _ _ _ _ (load_run _ _ _ Hm)).
    rewrite (bind_lift_ret _ _ _ _ Hphase).
    apply bind_lift_raise. now rewrite Hempty.
Qed.


(** ** The mixing stage *)

Lemma tiled_self (noise : list Q) : tiled noise (length noise) = noise.
Proof.
  apply list_eq. intros i.
  destruct (decide (i < length noise)%nat) as [Hi|Hi].
  - rewrite tiled_lookup by exact Hi. rewrite Nat.mod_small by exact Hi.
    destruct (lookup_lt_is_Some_2 noise i Hi) as [x Hx]. now rewrite Hx.
  - rewrite !lookup_ge_None_2; [reflexivity| |]; rewrite ?tiled_length; lia.
Qed.

(** The loop, whenever it returns: the noise is a whole number of periods, at
    least as long as the speech; objects already in the store are untouched,
    and the result is the signal it started from or a newer one. *)
Lemma extend_noise_ret_inv (orig : list Q) (speech_signal : loc) (os : AudioSignal) :
  forall (fuel : nat) (h h' : heap) (noise_signal noise_signal' : loc) (k : nat)
         (rate : Z),
    extend_noise fuel speech_signal noise_signal h = Ret (noise_signal', h') ->
    h !! speech_signal = Some os ->
    h !! noise_signal = Some (mk_signal (tiled orig (k * length orig)) rate) ->
    exists (k' : nat),
      h' !! noise_signal' = Some (mk_signal (tiled orig (k' * length orig)) rate)
      /\ (length (sig_data os) <= k' * length orig)%nat
      /\ (forall l o, h !! l = Some o -> h' !! l = Some o)
      /\ (noise_signal <= noise_signal')%nat
      /\ (length h <= length h')%nat.
Proof.
  induction fuel as [|fuel IH]; intros h h' cur l' k rate H Hs Hn; simpl in H;
    rewrite (bind_run _ _ _ _ _ (get_number_of_samples_run _ _ _ Hn)) in H;
    rewrite (bind_run _ _ _ _ _ (get_number_of_samples_run _ _ _ Hs)) in H;
    cbn [sig_data] in H; rewrite tiled_length in H;
    destruct (Z.ltb_spec (Z.of_nat (k * length orig)) (Z.of_nat (length (sig_data os))))
      as [Hlt|Hge].
  - discriminate.
  - apply ret_ret_inv in H as [-> ->]. exists k. repeat split; auto; lia.
  - rewrite (bind_run _ _ _ _ _ (concat_twice_run _ _ _ Hn)) in H.
    cbn [sig_data sig_rate] in H. rewrite tiled_double in H.
    replace (2 * (k * length orig))%nat with ((2 * k) * length orig)%nat in H by lia.
    destruct (IH _ _ _ _ (2 * k)%nat rate H) as (k' & Hl' & Hlen & Hpres & Hle & Hh).
    + apply lookup_app_l_Some. exact Hs.
    + apply list_lookup_middle. reflexivity.
    + exists k'. split; [exact Hl'|]. split; [exact Hlen|].
      split; [intros l o Hl; apply Hpres; now apply lookup_app_l_Some|].
      apply lookup_lt_Some in Hn. rewrite length_app in Hh. simpl in Hh.
      split; lia.
  - apply ret_ret_inv in H as [-> ->]. exists k. repeat split; auto; lia.
Qed.

Lemma load_all_two_run (a b : loc) (h : heap) (oa ob : AudioSignal) :
  h !! a = Some oa -> h !! b = Some ob -> load_all [a; b] h = Ret ([oa; ob], h).
Proof.
  intros Ha Hb. unfold load_all, bind, load, ret.
  rewrite Ha. simpl. rewrite Hb. reflexivity.
Qed.

Lemma mix_two (speech noise : list Q) :
  length noise = length speech ->
  mix_into (replicate (length speech) 0%Q) (zip [1%Q; 1%Q] [speech; noise])
  = Ret (zip_with (fun a x => a + 1 * x)%Q
           (zip_with (fun a x => a + 1 * x)%Q (replicate (length speech) 0%Q) speech)
           noise).
Proof.
  intros Hlen. cbn [zip_with mix_into].
  rewrite length_replicate, Nat.eqb_refl.
  rewrite length_zip_with, length_replicate, Nat.min_id, Hlen, Nat.eqb_refl.
  reflexivity.
Qed.

Lemma mix_two_lookup (speech noise : list Q) (i : nat) (x y : Q) :
  speech !! i = Some x -> noise !! i = Some y ->
  zip_with (fun a x => a + 1 * x)%Q
    (zip_with (fun a x => a + 1 * x)%Q (replicate (length speech) 0%Q) speech) noise
  !! i = Some (0 + 1 * x + 1 * y)%Q.
Proof.
  intros Hx Hy. rewrite !lookup_zip_with, Hx, Hy.
  rewrite lookup_replicate_2 by (now apply lookup_lt_Some in Hx). reflexivity.
Qed.

Lemma load_and_mix_ret_spec (fuel : nat) (speech_file_path noise_file_path : string)
    (h h1 : heap) (speech_signal noise_signal mixed_signal : loc) :
  load_and_mix fuel speech_file_path noise_file_path h
  = Ret ((speech_signal, noise_signal, mixed_signal), h1) ->
  exists speech speech_rate noise noise_rate scaled mixed,
    wav_at speech_file_path = Some (speech, speech_rate)
    /\ wav_at noise_file_path = Some (noise, noise_rate)
    /\ (speech_signal < noise_signal < mixed_signal)%nat
    /\ h1 !! speech_signal = Some (mk_signal speech speech_rate)
    /\ h1 !! noise_signal = Some (mk_signal scaled noise_rate)
    /\ h1 !! mixed_signal = Some (mk_signal mixed speech_rate)
    /\ scaled = map (Qmult (amplify_gain (tiled noise (length speech)) speech))
                    (tiled noise (length speech))
    /\ length scaled = length speech
    /\ length mixed = length speech
    /\ (length speech <= length noise -> tiled noise (length speech)
                                         = take (length speech) noise)%nat
    /\ forall i x y,
         speech !! i = Some x -> scaled !! i = Some y ->
         mixed !! i = Some (0 + 1 * x + 1 * y)%Q.
Proof.
  unfold load_and_mix, from_wav_file. intros H.
  destruct (wav_at speech_file_path) as [[speech speech_rate]|] eqn:Hsf;
    [|discriminate].
  apply bind_ret_inv in H as (s & h0 & Hnew & H).
  apply new_ret_inv in Hnew as [-> ->].
  destruct (wav_at noise_file_path) as [[noise noise_rate]|] eqn:Hnf;
    [|apply bind_ret_inv in H as (? & ? & Habs & _); discriminate].
  apply bind_ret_inv in H as (n0 & h0 & Hnew & H).
  apply new_ret_inv in Hnew as [-> ->].
  apply bind_ret_inv in H as (n & h2 & Hext & H).
  unfold extend_and_truncate_noise in Hext.
  apply bind_ret_inv in Hext as (n' & h3 & Hloop & Hext).
  set (os := mk_signal speech speech_rate) in *.
  set (h0 := (h ++ [os]) ++ [mk_signal noise noise_rate]) in *.
  assert (Hs0 : h0 !! length h = Some os).
  { unfold h0. apply lookup_app_l_Some, list_lookup_middle. reflexivity. }
  assert (Hn0 : h0 !! length (h ++ [os])
                = Some (mk_signal (tiled noise (1 * length noise)) noise_rate)).
  { unfold h0. rewrite Nat.mul_1_l, tiled_self. apply list_lookup_middle. reflexivity. }
  destruct (extend_noise_ret_inv noise (length h) os _ _ _ _ _ 1%nat noise_rate
              Hloop Hs0 Hn0) as (k' & Hn' & Hlen & Hpres & Hle & Hh3).
  rewrite (bind_run _ _ _ _ _ (get_number_of_samples_run _ _ _ (Hpres _ _ Hs0))) in Hext.
  rewrite (bind_run _ _ _ _ _ (truncate_run _ _ _ _ Hn')) in Hext.
  apply ret_ret_inv in Hext as [-> ->].
  cbn [sig_data sig_rate] in H. rewrite Nat2Z.id in H.
  rewrite tiled_take in H by exact Hlen.
  set (ext := tiled noise (length speech)) in *.
  rewrite length_app in Hle. simpl in Hle.
  assert (Hn'lt : (n' < length h3)%nat) by (now apply lookup_lt_Some in Hn').
  assert (Hslt : (length h < length h3)%nat).
  { pose proof (Hpres _ _ Hs0) as Hs3. now apply lookup_lt_Some in Hs3. }
  set (h4 := <[n' := mk_signal ext noise_rate]> h3) in *.
  assert (Hs4 : h4 !! length h = Some os).
  { unfold h4. rewrite list_lookup_insert_ne by lia. now apply Hpres. }
  assert (Hn4 : h4 !! n' = Some (mk_signal ext noise_rate)).
  { unfold h4. now apply list_lookup_insert_eq. }
  apply bind_ret_inv in H as (u & h5 & Hamp & H).
  unfold amplify in Hamp.
  rewrite (bind_run _ _ _ _ _ (load_run _ _ _ Hn4)) in Hamp.
  rewrite (bind_run _ _ _ _ _ (load_run _ _ _ Hs4)) in Hamp.
  unfold store in Hamp. inversion Hamp. subst u h5. clear Hamp.
  cbn [sig_data sig_rate] in H.
  set (scaled := map (Qmult (amplify_gain ext speech)) ext) in *.
  set (h5 := <[n' := mk_signal scaled noise_rate]> h4) in *.
  assert (Hs5 : h5 !! length h = Some os).
  { unfold h5. rewrite list_lookup_insert_ne by lia. exact Hs4. }
  assert (Hn5 : h5 !! n' = Some (mk_signal scaled noise_rate)).
  { unfold h5. apply list_lookup_insert_eq. unfold h4. now rewrite length_insert. }
  assert (Hsc : length scaled = length speech).
  { unfold scaled, ext. now rewrite length_map, tiled_length. }
  apply bind_ret_inv in H as (m & h6 & Hmix & H).
  apply ret_ret_inv in H as [E ->]. inversion E. subst speech_signal noise_signal m.
  clear E.
  unfold AudioMixer_mix in Hmix.
  rewrite (bind_run _ _ _ _ _ (load_all_two_run _ _ _ _ _ Hs5 Hn5)) in Hmix.
  cbn [map sig_data sig_rate os] in Hmix.
  rewrite (bind_lift_ret _ _ _ _ (mix_two speech scaled Hsc)) in Hmix.
  apply new_ret_inv in Hmix as [-> ->].
  assert (Hlen5 : length h5 = length h3).
  { unfold h5, h4. now rewrite !length_insert. }
  exists speech, speech_rate, noise, noise_rate, scaled. eexists.
  split; [reflexivity|]. split; [reflexivity|].
  split; [rewrite Hlen5; lia|].
  split; [now apply lookup_app_l_Some|].
  split; [now apply lookup_app_l_Some|].
  split; [apply list_lookup_middle; reflexivity|].
  split; [reflexivity|]. split; [exact Hsc|].
  split; [rewrite !length_zip_with, length_replicate; lia|].
  split.
  - intros Hlong. unfold ext. rewrite <- (tiled_self noise) at 2.
    symmetry. now apply tiled_take.
  - intros i x y Hx Hy. now apply mix_two_lookup.
Qed.

(** X10: What lines 85-94 leave in the store whenever they return: both files were
    there; the speech signal holds its file's samples; the noise signal holds
    the noise file's samples repeated periodically over the speech's length
    (its first samples when the file is long enough), each scaled by the gain;
    the mixed signal holds, sample by sample, speech plus scaled noise, at the
    speech's sample rate. The three signals are distinct objects of equal
    length. *)
Theorem mixing_stage_result (fuel : nat) (speech_file_path noise_file_path : string)
    (h h1 : heap) (speech_signal noise_signal mixed_signal : loc) :
  load_and_mix fuel speech_file_path noise_file_path h
  = Ret ((speech_signal, noise_signal, mixed_signal), h1) ->
  exists speech speech_rate noise noise_rate scaled mixed,
    wav_at speech_file_path = Some (speech, speech_rate)
    /\ wav_at noise_file_path = Some (noise, noise_rate)
    /\ (speech_signal < noise_signal < mixed_signal)%nat
    /\ h1 !! speech_signal = Some (mk_signal speech speech_rate)
    /\ h1 !! noise_signal = Some (mk_signal scaled noise_rate)
    /\ h1 !! mixed_signal = Some (mk_signal mixed speech_rate)
    /\ scaled = map (Qmult (amplify_gain (tiled noise (length speech)) speech))
                    (tiled noise (length speech))
    /\ length scaled = length speech
    /\ length mixed = length speech
    /\ (length speech <= length noise -> tiled noise (length speech)
                                         = take (length speech) noise)%nat
    /\ forall i x y,
         speech !! i = Some x -> scaled !! i = Some y ->
         mixed !! i = Some (0 + 1 * x + 1 * y)%Q.
Proof. exact (load_and_mix_ret_spec fuel speech_file_path noise_file_path h h1
                speech_signal noise_signal mixed_signal). Qed.


Lemma new_run (o : AudioSignal) (h : heap) : new o h = Ret (length h, h ++ [o]).
Proof. reflexivity. Qed.

Lemma amplify_run (l reference : loc) (h : heap) (o r : AudioSignal) :
  h !! l = Some o -> h !! reference = Some r ->
  amplify l reference h
  = Ret (tt, <[l := mk_signal (map (Qmult (amplify_gain (sig_data o) (sig_data r)))
                                   (sig_data o))
                              (sig_rate o)]> h).
Proof.
  intros Hl Hr. unfold amplify.
  rewrite (bind_run _ _ _ _ _ (load_run _ _ _ Hl)).
  rewrite (bind_run _ _ _ _ _ (load_run _ _ _ Hr)). reflexivity.
Qed.

Lemma AudioMixer_mix_two_run (a b : loc) (h : heap) (oa ob : AudioSignal) :
  h !! a = Some oa -> h !! b = Some ob ->
  length (sig_data ob) = length (sig_data oa) ->
  AudioMixer_mix [a; b] [1%Q; 1%Q] h
  = Ret (length h,
         h ++ [mk_signal
                 (zip_with (fun a x => a + 1 * x)%Q
                    (zip_with (fun a x => a + 1 * x)%Q
                       (replicate (length (sig_data oa)) 0%Q) (sig_data oa))
                    (sig_data ob))
                 (sig_rate oa)]).
Proof.
  intros Ha Hb Hlen. unfold AudioMixer_mix.
  rewrite (bind_run _ _ _ _ _ (load_all_two_run _ _ _ _ _ Ha Hb)).
  cbn [map].
  rewrite (bind_lift_ret _ _ _ _ (mix_two (sig_data oa) (sig_data ob) Hlen)).
  reflexivity.
Qed.

Lemma extend_noise_no_iteration (fuel : nat) (speech_signal noise_signal : loc)
    (h : heap) (os on : AudioSignal) :
  h !! speech_signal = Some os -> h !! noise_signal = Some on ->
  (length (sig_data os) <= length (sig_data on))%nat ->
  extend_noise fuel speech_signal noise_signal h = Ret (noise_signal, h).
Proof.
  intros Hs Hn Hlen.
  assert (E : (Z.of_nat (length (sig_data on)) <? Z.of_nat (length (sig_data os)))%Z
              = false) by (apply Z.ltb_ge; lia).
  destruct fuel; simpl;
    rewrite (bind_run _ _ _ _ _ (get_number_of_samples_run _ _ _ Hn));
    rewrite (bind_run _ _ _ _ _ (get_number_of_samples_run _ _ _ Hs));
    rewrite E; reflexivity.
Qed.

(** Lines 88-91 from any store: with a non-empty noise and enough iterations,
    or with a noise at least as long as the speech, the step returns the noise
    cut to one period pattern over the speech's length; in the second case it
    is the same object and nothing was allocated. *)
Lemma extend_and_truncate_returns (fuel : nat) (speech_signal noise_signal : loc)
    (h : heap) (os : AudioSignal) (noise : list Q) (noise_rate : Z) :
  h !! speech_signal = Some os ->
  h !! noise_signal = Some (mk_signal noise noise_rate) ->
  (speech_signal < noise_signal)%nat ->
  (noise <> [] /\ (length (sig_data os) <= fuel)%nat)
  \/ (length (sig_data os) <= length noise)%nat ->
  exists noise_signal' h',
    extend_and_truncate_noise fuel speech_signal noise_signal h
    = Ret (noise_signal', h')
    /\ h' !! noise_signal'
       = Some (mk_signal (tiled noise (length (sig_data os))) noise_rate)
    /\ h' !! speech_signal = Some os
    /\ (noise_signal <= noise_signal')%nat
    /\ ((length (sig_data os) <= length noise)%nat ->
        noise_signal' = noise_signal /\ length h' = length h).
Proof.
  intros Hs Hn Hlt Hcase.
  assert (Hn1 : h !! noise_signal
                = Some (mk_signal (tiled noise (1 * length noise)) noise_rate))
    by (now rewrite Nat.mul_1_l, tiled_self).
  assert (Hloop : exists l' h', extend_noise fuel speech_signal noise_signal h
                                = Ret (l', h')
                  /\ ((length (sig_data os) <= length noise)%nat ->
                      l' = noise_signal /\ h' = h)).
  { destruct (le_lt_dec (length (sig_data os)) (length noise)) as [Hlong|Hshort].
    - exists noise_signal, h. split; [|auto].
      now apply (extend_noise_no_iteration _ _ _ _ os (mk_signal noise noise_rate)).
    - destruct Hcase as [[Hne Hfuel]|Hlong]; [|lia].
      assert (Hpos : (0 < length noise)%nat)
        by (destruct noise; [congruence|simpl; lia]).
      destruct (extend_noise_tiles noise speech_signal os fuel h noise_signal 1
                  noise_rate Hs Hn1 ltac:(lia) ltac:(lia))
        as (l' & h' & k' & Hrun & _).
      exists l', h'. split; [exact Hrun|lia]. }
  destruct Hloop as (l' & h' & Hrun & Hsame).
  destruct (extend_noise_ret_inv noise speech_signal os _ _ _ _ _ 1%nat noise_rate
              Hrun Hs Hn1) as (k' & Hl' & Hlen & Hpres & Hle & _).
  exists l', (<[l' := mk_signal (tiled noise (length (sig_data os))) noise_rate]> h').
  split; [|split; [|split; [|split]]].
  - unfold extend_and_truncate_noise.
    rewrite (bind_run _ _ _ _ _ Hrun).
    rewrite (bind_run _ _ _ _ _ (get_number_of_samples_run _ _ _ (Hpres _ _ Hs))).
    rewrite (bind_run _ _ _ _ _ (truncate_run _ _ _ _ Hl')).
    cbn [sig_data sig_rate]. rewrite Nat2Z.id, tiled_take by exact Hlen. reflexivity.
  - apply list_lookup_insert_eq. now apply lookup_lt_Some in Hl'.
  - rewrite list_lookup_insert_ne by lia. now apply Hpres.
  - exact Hle.
  - intros Hlong. destruct (Hsame Hlong) as [-> ->].
    split; [reflexivity|apply length_insert].
Qed.

(** X11: The mixing stage returns whenever both files are there and the noise is not
    empty, given as many loop iterations as the speech has samples; and it
    needs no iteration at all, and allocates nothing but the three signals,
    when the noise is at least as long as the speech. *)
Theorem mixing_stage_returns (fuel : nat) (speech_file_path noise_file_path : string)
    (h : heap) (speech noise : list Q) (speech_rate noise_rate : Z) :
  wav_at speech_file_path = Some (speech, speech_rate) ->
  wav_at noise_file_path = Some (noise, noise_rate) ->
  (noise <> [] /\ (length speech <= fuel)%nat) \/ (length speech <= length noise)%nat ->
  exists noise_signal mixed_signal h1,
    load_and_mix fuel speech_file_path noise_file_path h
    = Ret ((length h, noise_signal, mixed_signal), h1)
    /\ length h1 = S mixed_signal
    /\ ((length speech <= length noise)%nat ->
        noise_signal = S (length h) /\ mixed_signal = S (S (length h))).
Proof.
  intros Hsf Hnf Hcase. unfold load_and_mix, from_wav_file. rewrite Hsf, Hnf.
  rewrite (bind_run _ _ _ _ _ (new_run _ _)).
  rewrite (bind_run _ _ _ _ _ (new_run _ _)).
  set (os := mk_signal speech speech_rate).
  set (h0 := (h ++ [os]) ++ [mk_signal noise noise_rate]).
  assert (Hs0 : h0 !! length h = Some os).
  { unfold h0. apply lookup_app_l_Some, list_lookup_middle. reflexivity. }
  assert (Hn0 : h0 !! length (h ++ [os]) = Some (mk_signal noise noise_rate)).
  { unfold h0. apply list_lookup_middle. reflexivity. }
  destruct (extend_and_truncate_returns fuel (length h) (length (h ++ [os])) h0 os
              noise noise_rate Hs0 Hn0)
    as (n' & h4 & Hext & Hn4 & Hs4 & Hle & Hsame).
  { rewrite length_app. simpl. lia. }
  { exact Hcase. }
  rewrite (bind_run _ _ _ _ _ Hext).
  rewrite length_app in Hle. simpl in Hle.
  rewrite (bind_run _ _ _ _ _ (amplify_run _ _ _ _ _ Hn4 Hs4)).
  cbn [sig_data sig_rate os].
  set (ext := tiled noise (length speech)).
  set (scaled := map (Qmult (amplify_gain ext speech)) ext).
  set (h5 := <[n' := mk_signal scaled noise_rate]> h4).
  assert (Hs5 : h5 !! length h = Some os).
  { unfold h5. rewrite list_lookup_insert_ne by lia. exact Hs4. }
  assert (Hn5 : h5 !! n' = Some (mk_signal scaled noise_rate)).
  { unfold h5. apply list_lookup_insert_eq. now apply lookup_lt_Some in Hn4. }
  assert (Hsc : length scaled = length speech).
  { unfold scaled, ext. now rewrite length_map, tiled_length. }
  rewrite (bind_run _ _ _ _ _ (AudioMixer_mix_two_run _ _ _ _ _ Hs5 Hn5 Hsc)).
  do 3 eexists. split; [reflexivity|]. split; [rewrite length_app; simpl; lia|].
  intros Hlong. destruct (Hsame Hlong) as [-> Hlen4].
  unfold h5. rewrite length_insert, Hlen4. unfold h0.
  rewrite !length_app. simpl. lia.
Qed.


(** ** Shapes of the spectrogram stacks *)

Lemma n_bins_trim_to_even (sp sp' : spectrogram) :
  n_bins sp = n_bins sp' -> n_bins (trim_to_even sp) = n_bins (trim_to_even sp').
Proof.
  intros E. unfold trim_to_even, drop_last_bin. rewrite E.
  now destruct (negb _).
Qed.

Lemma n_frames_trim_to_even (sp : spectrogram) :
  n_frames (trim_to_even sp) = n_frames sp.
Proof. unfold trim_to_even. now destruct (negb _). Qed.

(** The shape of what the linear path returns is decided by the sample rate and
    the slicing parameters alone: two signals at the same rate give stacks with
    the same slice shape and the same number of slices, whatever their samples
    and their lengths before the call. *)
Lemma audio_slicer_shape_by_rate (l1 l2 : loc)
    (slice_duration_ms n_video_slices : Z) (video_frame_rate : float)
    (h1 h1' h2 h2' : heap) (o1 o2 : AudioSignal) (st1 st2 : stack spectrogram) :
  h1 !! l1 = Some o1 -> h2 !! l2 = Some o2 -> sig_rate o1 = sig_rate o2 ->
  preprocess_audio_signal l1 slice_duration_ms n_video_slices video_frame_rate false h1
  = Ret (st1, h1') ->
  preprocess_audio_signal l2 slice_duration_ms n_video_slices video_frame_rate false h2
  = Ret (st2, h2') ->
  item_shape st1 = item_shape st2 /\ shape0 st1 = shape0 st2.
Proof.
  intros Hl1 Hl2 Hrate H1 H2.
  destruct (preprocess_audio_signal_linear_conditions _ _ _ _ _ _ _ _ Hl1 H1)
    as (sps & n_fft & Hsps & Hnfft & Hfits).
  destruct (preprocess_audio_signal_linear_run l1 slice_duration_ms n_video_slices
              video_frame_rate h1 o1 sps n_fft Hl1 Hsps Hnfft Hfits)
    as (sp1 & Hstft1 & Hfr1 & Hrun1).
  rewrite Hrate in Hsps, Hnfft.
  destruct (preprocess_audio_signal_linear_run l2 slice_duration_ms n_video_slices
              video_frame_rate h2 o2 sps n_fft Hl2 Hsps Hnfft Hfits)
    as (sp2 & Hstft2 & Hfr2 & Hrun2).
  rewrite Hrun1 in H1. rewrite Hrun2 in H2. inversion H1. inversion H2.
  apply librosa_stft_db_ret_inv in Hstft1 as (_ & _ & Hb1 & _ & _).
  apply librosa_stft_db_ret_inv in Hstft2 as (_ & _ & Hb2 & _ & _).
  unfold sliced, shape0. cbn [item_shape items].
  rewrite !length_map, !py_range_length, !n_frames_trim_to_even, Hfr1, Hfr2.
  rewrite (n_bins_trim_to_even sp1 sp2) by congruence.
  split; reflexivity.
Qed.

(** X12: When the speech and the noise file have the same sample rate, the three
    stacks [preprocess_audio_pair] returns on the linear path have the same
    slice shape and the same number of slices. *)
Theorem pair_streams_same_shape (fuel : nat)
    (speech_file_path noise_file_path : string)
    (slice_duration_ms n_video_slices : Z) (video_frame_rate : float)
    (h h' : heap) (result : pair_result)
    (speech noise : list Q) (rate : Z) :
  wav_at speech_file_path = Some (speech, rate) ->
  wav_at noise_file_path = Some (noise, rate) ->
  preprocess_audio_pair fuel speech_file_path noise_file_path slice_duration_ms
                        n_video_slices video_frame_rate false h
  = Ret (result, h') ->
  item_shape (pr_speech_spectrograms result) = item_shape (pr_mixed_spectrograms result)
  /\ item_shape (pr_noise_spectrograms result)
     = item_shape (pr_mixed_spectrograms result)
  /\ shape0 (pr_speech_spectrograms result) = shape0 (pr_mixed_spectrograms result)
  /\ shape0 (pr_noise_spectrograms result) = shape0 (pr_mixed_spectrograms result).
Proof.
  intros Hsf Hnf H. unfold preprocess_audio_pair in H.
  apply bind_ret_inv in H as ([[s n] m] & h1 & Hmix & H).
  destruct (load_and_mix_ret_spec _ _ _ _ _ _ _ _ Hmix)
    as (ds & rs & dn & rn & scaled & mixed & Hsf' & Hnf' & [Hsn Hnm]
        & Hs1 & Hn1 & Hm1 & _).
  rewrite Hsf in Hsf'. rewrite Hnf in Hnf'. inversion Hsf'. inversion Hnf'.
  subst ds rs dn rn. clear Hsf' Hnf'.
  assert (Hlen1 : (m < length h1)%nat) by (now apply lookup_lt_Some in Hm1).
  unfold normalize_and_slice in H.
  rewrite (bind_run _ _ _ _ _ (get_data_run _ _ _ Hm1)) in H.
  rewrite (bind_run _ _ _ _ _ (get_sample_rate_run _ _ _ Hm1)) in H.
  unfold AudioSignal_init in H.
  rewrite (bind_run _ _ _ _ _ (new_run _ _)) in H.
  apply bind_ret_inv in H as (p & h3 & Hpm & H).
  apply peak_normalize_ret_inv in Hpm as (om & Hom & ->).
  rewrite (lookup_app_l_Some _ _ _ _ Hm1) in Hom. inversion Hom. subst om. clear Hom.
  apply bind_ret_inv in H as (p' & h4 & Hps & H).
  apply peak_normalize_ret_inv in Hps as (os & Hos & ->).
  rewrite list_lookup_insert_ne in Hos by lia.
  rewrite (lookup_app_l_Some _ _ _ _ Hs1) in Hos. inversion Hos. subst os. clear Hos.
  cbn [sig_data sig_rate] in H.
  apply bind_ret_inv in H as (sts & h5 & Hss & H).
  apply bind_ret_inv in H as (stn & h6 & Hsn' & H).
  apply bind_ret_inv in H as (stm & h7 & Hsm & H).
  apply ret_ret_inv in H as [-> ->]. cbn [pr_speech_spectrograms pr_noise_spectrograms
                                            pr_mixed_spectrograms].
  pose proof (preprocess_audio_signal_ret_inv _ _ _ _ _ _ _ _ Hss) as (os & Hos & -> & _).
  pose proof (preprocess_audio_signal_ret_inv _ _ _ _ _ _ _ _ Hsn') as (on & Hon & -> & _).
  pose proof (preprocess_audio_signal_ret_inv _ _ _ _ _ _ _ _ Hsm) as (om & Hom & _ & _).
  assert (Hros : sig_rate os = rate).
  { rewrite list_lookup_insert_eq in Hos
      by (rewrite length_insert, length_app; simpl; lia).
    now inversion Hos. }
  assert (Hron : sig_rate on = rate).
  { rewrite !list_lookup_insert_ne in Hon by lia.
    rewrite (lookup_app_l_Some _ _ _ _ Hn1) in Hon. now inversion Hon. }
  assert (Hrom : sig_rate om = rate).
  { rewrite !list_lookup_insert_ne in Hom by lia.
    rewrite list_lookup_insert_eq in Hom by (rewrite length_app; simpl; lia).
    now inversion Hom. }
  destruct (audio_slicer_shape_by_rate _ _ _ _ _ _ _ _ _ _ _ _ _ Hos Hom
              ltac:(congruence) Hss Hsm) as [E1 E2].
  destruct (audio_slicer_shape_by_rate _ _ _ _ _ _ _ _ _ _ _ _ _ Hon Hom
              ltac:(congruence) Hsn' Hsm) as [E3 E4].
  auto.
Qed.


(** ** The sample and the batch *)

Lemma stack_take_all {T : Type} (a : stack T) : stack_take (shape0 a) a = a.
Proof.
  destruct a as [sh its]. unfold stack_take, shape0. cbn [items item_shape].
  rewrite Nat2Z.id, firstn_all. reflexivity.
Qed.

(** [preprocess_sample], whenever it returns: the video slicer and the pair
    mixer returned, no spectrogram stack is shorter than the video stack, and
    the reconciled count is the video's. *)
Lemma preprocess_sample_ret_inv (fuel : nat)
    (video_file_path speech_file_path noise_file_path : string)
    (slice_duration_ms : Z) (h h' : heap) (sample : Sample) :
  preprocess_sample fuel video_file_path speech_file_path noise_file_path
                    slice_duration_ms h
  = Ret (sample, h') ->
  exists video rate pair,
    preprocess_video_sample video_file_path slice_duration_ms 128 128
    = Ret (video, rate)
    /\ preprocess_audio_pair fuel speech_file_path noise_file_path slice_duration_ms
                             (shape0 video) rate false h
       = Ret (pair, h')
    /\ (1 <= shape0 video)%Z
    /\ (shape0 video <= shape0 (pr_mixed_spectrograms pair))%Z
    /\ (shape0 video <= shape0 (pr_speech_spectrograms pair))%Z
    /\ (shape0 video <= shape0 (pr_noise_spectrograms pair))%Z
    /\ sample = mk_sample video
                  (stack_take (shape0 video) (pr_mixed_spectrograms pair))
                  (stack_take (shape0 video) (pr_speech_spectrograms pair))
                  (stack_take (shape0 video) (pr_noise_spectrograms pair))
                  (pr_original_mixed pair) (pr_peak pair) rate.
Proof.
  unfold preprocess_sample. intros H.
  apply bind_ret_inv in H as ([video rate] & h0 & Hvideo & H).
  apply lift_ret_inv in Hvideo as [Hvideo ->].
  apply bind_ret_inv in H as (pair & h1 & Hpair & H).
  apply ret_ret_inv in H as [-> ->].
  exists video, rate, pair. split; [exact Hvideo|]. split; [exact Hpair|].
  destruct (pair_streams_well_sliced _ _ _ _ _ _ _ _ _ Hpair)
    as ([Hm _] & [Hs _] & [Hn _]).
  assert (H1 : (1 <= shape0 video)%Z).
  { unfold preprocess_video_sample in Hvideo.
    destruct (video_at video_file_path) as [[frames fr]|]; [|discriminate].
    destruct (crop_all frames) as [crops| |]; try discriminate. cbn [obind] in Hvideo.
    destruct (frames_per_slice _ _) as [fps| |]; try discriminate.
    cbn [obind] in Hvideo.
    destruct (py_int_div _ _) as [ns| |]; try discriminate. cbn [obind] in Hvideo.
    destruct (np_stack _ _) as [st| |] eqn:Hst; try discriminate.
    cbn [obind] in Hvideo. inversion Hvideo. subst st.
    apply np_stack_ret_inv in Hst as (Hne & Hitems & _).
    unfold shape0. rewrite Hitems. destruct (map _ _); [congruence|simpl; lia]. }
  rewrite Z.min_l by lia. rewrite stack_take_all. auto 10.
Qed.

(** X13: The reconciliation of line 115 never shortens the video: when
    [preprocess_sample] returns, the video stream is the video slicer's output
    as it is, with at least one slice, and each spectrogram stream is cut to
    the video's slice count. *)
Theorem video_stream_returned_whole (fuel : nat)
    (video_file_path speech_file_path noise_file_path : string)
    (slice_duration_ms : Z) (h h' : heap) (sample : Sample) :
  preprocess_sample fuel video_file_path speech_file_path noise_file_path
                    slice_duration_ms h
  = Ret (sample, h') ->
  preprocess_video_sample video_file_path slice_duration_ms 128 128
  = Ret (video_samples sample, video_frame_rate sample)
  /\ (1 <= shape0 (video_samples sample))%Z
  /\ shape0 (mixed_spectrograms sample) = shape0 (video_samples sample)
  /\ shape0 (speech_spectrograms sample) = shape0 (video_samples sample)
  /\ shape0 (noise_spectrograms sample) = shape0 (video_samples sample).
Proof.
  intros H.
  destruct (preprocess_sample_ret_inv _ _ _ _ _ _ _ _ H)
    as (video & rate & pair & Hv & _ & H1 & Hm & Hs & Hn & ->).
  cbn [video_samples mixed_spectrograms speech_spectrograms noise_spectrograms
       video_frame_rate] in *.
  rewrite !stack_take_shape0 by lia. auto.
Qed.

Lemma np_concatenate_ret_inv {T : Type} (arrays : list (stack T)) (a : stack T) :
  np_concatenate arrays = Ret a -> items a = concat (map items arrays).
Proof.
  unfold np_concatenate. destruct arrays as [|x rest]; [discriminate|].
  destruct (forallb _ _); [|discriminate]. intros H. inversion H. reflexivity.
Qed.

Lemma concat_lengths_agree {A B C : Type} (f : A -> list B) (g : A -> list C)
    (l : list A) :
  (forall x, In x l -> length (f x) = length (g x)) ->
  length (concat (map f l)) = length (concat (map g l)).
Proof.
  induction l as [|x l IH]; intros Hall; [reflexivity|].
  cbn [map concat]. rewrite !length_app.
  rewrite IH by (intros y Hy; apply Hall; now right).
  rewrite (Hall x) by (now left). reflexivity.
Qed.

Lemma survivors_returned (fuel : nat) (h : heap)
    (samples : list (string * string * string)) (results : list (option Sample)) :
  Forall2 (sample_outcome fuel h) samples results ->
  forall p, In p (not_none results) ->
    exists v s n h', preprocess_sample fuel v s n 200 h = Ret (p, h').
Proof.
  induction 1 as [|[[v s] n] r samples results Hr _ IH]; intros p Hp.
  - destruct Hp.
  - unfold not_none in Hp. cbn [omap] in Hp. destruct r as [q|]; cbn in Hp.
    + destruct Hp as [<-|Hp]; [|now apply IH].
      destruct Hr as [h' Hr]. eauto.
    + now apply IH.
Qed.

(** X14: The four arrays of a batch are aligned: when [preprocess_data] returns, the
    video array and the three spectrogram arrays have the same number of
    slices, and the caller's store is as it was. *)
Theorem batch_arrays_aligned (fuel : nat)
    (video_file_paths speech_file_paths noise_file_paths : list string)
    (h h1 : heap) (v : stack (list image)) (m s n : stack spectrogram) :
  preprocess_data fuel video_file_paths speech_file_paths noise_file_paths h
  = Ret (v, m, s, n, h1) ->
  shape0 m = shape0 v /\ shape0 s = shape0 v /\ shape0 n = shape0 v /\ h1 = h.
Proof.
  unfold preprocess_data. intros H.
  destruct (pool_map_try fuel h (zip3 video_file_paths speech_file_paths noise_file_paths))
    as [Hdiv|(results & Hrun & Hall)]; [rewrite Hdiv in H; discriminate|].
  rewrite Hrun in H. cbn [obind] in H.
  set (survivors := not_none results) in *.
  destruct (np_concatenate (map video_samples survivors)) as [v'| |] eqn:Ev;
    try discriminate. cbn [obind] in H.
  destruct (np_concatenate (map mixed_spectrograms survivors)) as [m'| |] eqn:Em;
    try discriminate. cbn [obind] in H.
  destruct (np_concatenate (map speech_spectrograms survivors)) as [s'| |] eqn:Es;
    try discriminate. cbn [obind] in H.
  destruct (np_concatenate (map noise_spectrograms survivors)) as [n'| |] eqn:En;
    try discriminate. cbn [obind] in H.
  inversion H. subst v' m' s' n' h1. clear H.
  apply np_concatenate_ret_inv in Ev, Em, Es, En.
  assert (Hcounts : forall p, In p survivors ->
            length (items (mixed_spectrograms p)) = length (items (video_samples p))
            /\ length (items (speech_spectrograms p)) = length (items (video_samples p))
            /\ length (items (noise_spectrograms p)) = length (items (video_samples p))).
  { intros p Hp.
    destruct (survivors_returned fuel h _ _ Hall p Hp) as (pv & ps & pn & h' & Hret).
    destruct (preprocess_sample_ret_inv _ _ _ _ _ _ _ _ Hret)
      as (video & vrate & pair & _ & _ & H1 & Hm & Hs & Hn & ->).
    cbn [video_samples mixed_spectrograms speech_spectrograms noise_spectrograms].
    unfold shape0 in *. cbn [stack_take items]. rewrite !length_take. lia. }
  unfold shape0. rewrite Ev, Em, Es, En, !map_map.
  rewrite (concat_lengths_agree (fun p => items (mixed_spectrograms p))
             (fun p => items (video_samples p)))
    by (intros p Hp; apply (Hcounts p Hp)).
  rewrite (concat_lengths_agree (fun p => items (speech_spectrograms p))
             (fun p => items (video_samples p)))
    by (intros p Hp; apply (Hcounts p Hp)).
  rewrite (concat_lengths_agree (fun p => items (noise_spectrograms p))
             (fun p => items (video_samples p)))
    by (intros p Hp; apply (Hcounts p Hp)).
  auto.
Qed.

Lemma pool_map_diverges {A B : Type} (f : A -> M B) (xs : list A) (h : heap) (x : A) :
  (forall y e, f y h <> Raise e) ->
  In x xs -> f x h = Diverge ->
  pool_map f xs h = Diverge.
Proof.
  intros Hno. induction xs as [|y rest IH]; intros Hin Hx; [destruct Hin|].
  cbn [pool_map]. destruct Hin as [->|Hin].
  - now rewrite Hx.
  - destruct (f y h) as [[r h']|e|] eqn:E.
    + rewrite (IH Hin Hx). reflexivity.
    + exfalso. exact (Hno _ _ E).
    + reflexivity.
Qed.

Lemma load_and_mix_empty_noise_diverges (fuel : nat)
    (speech_file_path noise_file_path : string)
    (speech : list Q) (speech_rate noise_rate : Z) (h : heap) :
  wav_at speech_file_path = Some (speech, speech_rate) ->
  speech <> [] ->
  wav_at noise_file_path = Some ([], noise_rate) ->
  load_and_mix fuel speech_file_path noise_file_path h = Diverge.
Proof.
  intros Hsf Hne Hnf. unfold load_and_mix, from_wav_file. rewrite Hsf, Hnf.
  rewrite (bind_run _ _ _ _ _ (new_run _ _)).
  rewrite (bind_run _ _ _ _ _ (new_run _ _)).
  apply bind_diverge. unfold extend_and_truncate_noise. apply bind_diverge.
  apply (extend_noise_empty_diverges _ (mk_signal speech speech_rate) Hne
           fuel _ _ noise_rate).
  - apply lookup_app_l_Some, list_lookup_middle. reflexivity.
  - apply list_lookup_middle. reflexivity.
Qed.

(** X15: Catching exceptions does not isolate a sample that never finishes: if one
    triple of the batch has a video that slices, a speech file with samples and
    a noise file with none, [preprocess_data] does not return, however many
    loop iterations it is granted and whatever the other triples are. *)
Theorem batch_hangs_on_empty_noise (fuel : nat)
    (video_file_paths speech_file_paths noise_file_paths : list string) (h : heap)
    (video_file_path speech_file_path noise_file_path : string)
    (video : stack (list image)) (frame_rate : float)
    (speech : list Q) (speech_rate noise_rate : Z) :
  In (video_file_path, speech_file_path, noise_file_path)
     (zip3 video_file_paths speech_file_paths noise_file_paths) ->
  preprocess_video_sample video_file_path 200 128 128 = Ret (video, frame_rate) ->
  wav_at speech_file_path = Some (speech, speech_rate) ->
  speech <> [] ->
  wav_at noise_file_path = Some ([], noise_rate) ->
  preprocess_data fuel video_file_paths speech_file_paths noise_file_paths h = Diverge.
Proof.
  intros Hin Hvideo Hsf Hne Hnf. unfold preprocess_data.
  rewrite (pool_map_diverges (try_preprocess_sample fuel) _ h
             (video_file_path, speech_file_path, noise_file_path)).
  - reflexivity.
  - intros y e. apply try_preprocess_sample_no_raise.
  - exact Hin.
  - unfold try_preprocess_sample, preprocess_sample.
    rewrite (bind_lift_ret _ _ _ _ Hvideo).
    unfold preprocess_audio_pair.
    rewrite (bind_diverge _ _ _
               (bind_diverge _ _ _
                  (load_and_mix_empty_noise_diverges fuel _ _ _ _ _ h Hsf Hne Hnf))).
    reflexivity.
Qed.

Lemma not_none_all_none {A B : Type} (l : list A) :
  not_none (map (fun _ => @None B) l) = [].
Proof. induction l as [|x l IH]; [reflexivity|exact IH]. Qed.

(** X16: A batch without a survivor has nothing to concatenate: when every triple
    raises, and in particular when a path list is empty, [preprocess_data]
    raises [ValueError]. *)
Theorem batch_without_survivors_raises (fuel : nat)
    (video_file_paths speech_file_paths noise_file_paths : list string) (h : heap) :
  (forall v s n,
     In (v, s, n) (zip3 video_file_paths speech_file_paths noise_file_paths) ->
     exists e, preprocess_sample fuel v s n 200 h = Raise e) ->
  preprocess_data fuel video_file_paths speech_file_paths noise_file_paths h
  = Raise ValueError.
Proof.
  intros Hall. unfold preprocess_data.
  assert (Hrun : pool_map (try_preprocess_sample fuel)
                   (zip3 video_file_paths speech_file_paths noise_file_paths) h
                 = Ret (map (fun _ => None)
                            (zip3 video_file_paths speech_file_paths noise_file_paths))).
  { induction (zip3 video_file_paths speech_file_paths noise_file_paths)
      as [|[[v s] n] rest IH]; [reflexivity|].
    cbn [pool_map map]. unfold try_preprocess_sample at 1.
    destruct (Hall v s n (or_introl eq_refl)) as [e ->].
    rewrite IH; [reflexivity|]. intros v' s' n' Hin. apply Hall. now right. }
  rewrite Hrun. cbn [obind].
  rewrite not_none_all_none. reflexivity.
Qed.


(** ** From a sample back to the inverse transform *)






End Pipeline.

Arguments video_samples {image} s.
Arguments mixed_spectrograms {image} s.
Arguments speech_spectrograms {image} s.
Arguments noise_spectrograms {image} s.
Arguments mixed_signal {image} s.
Arguments peak {image} s.
Arguments video_frame_rate {image} s.

(** ** The mel path is never taken from [preprocess_sample] (C10) *)



(** * A small world to run the pipeline in

    Frames and mouth crops are numbers (frame 99 shows no face). The videos
    "v1", "v2", "v3" and "v4" have 5, 11, 60 and 28 frames, all at 25 frames
    per second; the third frame of "v5" shows no face. "s1" is a speech
    recording of 20 samples and "n1" a noise recording of 3 samples, both at
    100 Hz; "e" is a recording with no sample. The gain is 1 and the
    transform's cells are all 0 dB; the mel converter raises. The phase of a
    signal has [1 + n_fft/2] bins and one frame per hop plus one, and the
    inverse transform gives back [hop_length] samples for every frame after
    the first. *)

Open Scope string_scope.

Definition demo_crop_mouth (f : nat) : outcome nat :=
  if (f =? 99)%nat then Raise DetectionError else Ret f.

Definition demo_video_at (path : string) : option (list nat * float) :=
  if String.eqb path "v1" then Some (seq 0 5, 25%float)
  else if String.eqb path "v2" then Some (seq 0 11, 25%float)
  else if String.eqb path "v3" then Some (seq 0 60, 25%float)
  else if String.eqb path "v4" then Some (seq 0 28, 25%float)
  else if String.eqb path "v5" then Some ([0; 1; 99; 3]%nat, 25%float)
  else None.

Definition demo_wav_at (path : string) : option (list Q * Z) :=
  if String.eqb path "s1" then Some (map (fun n => inject_Z (Z.of_nat n)) (seq 1 20), 100%Z)
  else if String.eqb path "n1" then Some ([1%Q; (-2)%Q; 3%Q], 100%Z)
  else if String.eqb path "e" then Some ([], 100%Z)
  else None.

Definition demo_gain (noise reference : list Q) : Q := 1%Q.

Definition demo_stft_db (data : list Q) (n_fft hop_length k t : Z) : Q := 0%Q.

Definition demo_mel (o : AudioSignal) (n_fft hop_length : Z) : outcome spectrogram :=
  Raise ParameterError.

Definition demo_signal_phase (o : AudioSignal) (n_fft hop_length : Z)
    : outcome spectrogram :=
  Ret (mk_spectrogram (1 + n_fft / 2)
                      (1 + Z.of_nat (length (sig_data o)) / hop_length)
                      (fun _ _ => 0%Q)).

Definition demo_reconstruct (rate n_fft hop_length : Z) (sp ph : spectrogram)
    (peak : Q) (db : bool) : outcome AudioSignal :=
  Ret (mk_signal (replicate (Z.to_nat (hop_length * (n_frames sp - 1))) 0%Q) rate).

Definition demo_preprocess_video_sample :=
  preprocess_video_sample nat nat demo_crop_mouth demo_video_at.

Definition demo_preprocess_audio_signal :=
  preprocess_audio_signal demo_stft_db demo_mel.

Definition demo_load_and_mix := load_and_mix demo_wav_at demo_gain.

Definition demo_preprocess_audio_pair :=
  preprocess_audio_pair demo_wav_at demo_gain demo_stft_db demo_mel.

Definition demo_preprocess_sample :=
  preprocess_sample nat nat demo_crop_mouth demo_video_at demo_wav_at demo_gain
                    demo_stft_db demo_mel.

Definition demo_preprocess_data :=
  preprocess_data nat nat demo_crop_mouth demo_video_at demo_wav_at demo_gain
                  demo_stft_db demo_mel.

Definition demo_reconstruct_speech_signal :=
  reconstruct_speech_signal demo_signal_phase demo_reconstruct.

(** A spectrogram of 4 bins and 21 frames whose cells tell their position. *)
Definition ramp_spectrogram : spectrogram :=
  mk_spectrogram 4 21 (fun k t => inject_Z (100 * k + t)).

(** A waveform of three samples at 44100 Hz, and one of 431 samples at
    48000 Hz. *)
Definition short_signal : AudioSignal := mk_signal [1%Q; 2%Q; 3%Q] 44100.

Definition signal_431 : AudioSignal := mk_signal (replicate 431 1%Q) 48000.

(** ** Instances *)

Lemma slice_counts_agree_witness :
  exists (sample : Sample nat) (h' : list AudioSignal),
    demo_preprocess_sample 10%nat "v2" "s1" "n1" 200%Z [] = Ret (sample, h')
    /\ exists (video : stack (list nat)) (pair : pair_result),
         preprocess_video_sample nat nat demo_crop_mouth demo_video_at "v2" 200 128 128
         = Ret (video, video_frame_rate sample)
         /\ demo_preprocess_audio_pair 10%nat "s1" "n1" 200%Z (shape0 video)
                                       (video_frame_rate sample) false []
            = Ret (pair, h')
         /\ shape0 (video_samples sample)
            = Z.min (shape0 video) (shape0 (pr_mixed_spectrograms pair))
         /\ shape0 (mixed_spectrograms sample)
            = Z.min (shape0 video) (shape0 (pr_mixed_spectrograms pair))
         /\ shape0 (speech_spectrograms sample)
            = Z.min (shape0 video) (shape0 (pr_mixed_spectrograms pair))
         /\ shape0 (noise_spectrograms sample)
            = Z.min (shape0 video) (shape0 (pr_mixed_spectrograms pair))
         /\ items (video_samples sample)
            = take (Z.to_nat (Z.min (shape0 video) (shape0 (pr_mixed_spectrograms pair))))
                   (items video)
         /\ items (mixed_spectrograms sample)
            = take (Z.to_nat (Z.min (shape0 video) (shape0 (pr_mixed_spectrograms pair))))
                   (items (pr_mixed_spectrograms pair))
         /\ items (speech_spectrograms sample)
            = take (Z.to_nat (Z.min (shape0 video) (shape0 (pr_mixed_spectrograms pair))))
                   (items (pr_speech_spectrograms pair))
         /\ items (noise_spectrograms sample)
            = take (Z.to_nat (Z.min (shape0 video) (shape0 (pr_mixed_spectrograms pair))))
                   (items (pr_noise_spectrograms pair)).
Proof.
  destruct (demo_preprocess_sample 10%nat "v2" "s1" "n1" 200%Z []) as [[sample h']|e|] eqn:E.
  - exists sample, h'. split; [reflexivity|].
    exact (slice_counts_agree nat nat demo_crop_mouth demo_video_at demo_wav_at
             demo_gain demo_stft_db demo_mel 10%nat "v2" "s1" "n1" 200%Z [] h' sample E).
  - vm_compute in E. discriminate E.
  - vm_compute in E. discriminate E.
Defined.

(** 9 ms at 48000 Hz is 431 samples in binary64 (432 exactly): a waveform of
    431 samples is at its target length and is cut, not padded. *)
Lemma length_forcing_witness :
  exists (forced : list Q),
    force_length 0%nat 9 1 [signal_431]
    = Ret (431%Z, <[0%nat := mk_signal forced 48000]> [signal_431])
    /\ Z.of_nat (length forced) = (431 * 1)%Z
    /\ ((Z.of_nat (length (replicate 431 1%Q)) < 431 * 1)%Z ->
        exists (k : nat), forced = (replicate 431 1%Q ++ replicate k 0%Q)%list)
    /\ ((431 * 1 <= Z.of_nat (length (replicate 431 1%Q)))%Z ->
        forced = take (Z.to_nat (431 * 1)) (replicate 431 1%Q)).
Proof.
  apply (length_forcing [signal_431] 0%nat signal_431 9 1 431).
  - reflexivity.
  - vm_compute. reflexivity.
  - lia.
  - lia.
Defined.

Lemma noise_extension_periodic_witness :
  exists (noise_signal' : nat) (h' : list AudioSignal) (extended : list Q),
    extend_and_truncate_noise 5%nat 0%nat 1%nat
      [mk_signal [10%Q; 20%Q; 30%Q; 40%Q; 50%Q] 100; mk_signal [1%Q; 2%Q] 100]
    = Ret (noise_signal', h')
    /\ h' !! noise_signal' = Some (mk_signal extended 100)
    /\ extended = tiled [1%Q; 2%Q] 5
    /\ length extended = 5%nat
    /\ (forall i, (i < 5)%nat -> extended !! i = [1%Q; 2%Q] !! (i mod 2)%nat).
Proof.
  apply (noise_extension_periodic
           [mk_signal [10%Q; 20%Q; 30%Q; 40%Q; 50%Q] 100; mk_signal [1%Q; 2%Q] 100]
           0%nat 1%nat
           (mk_signal [10%Q; 20%Q; 30%Q; 40%Q; 50%Q] 100) (mk_signal [1%Q; 2%Q] 100)
           5%nat).
  - reflexivity.
  - reflexivity.
  - simpl. discriminate.
  - simpl. lia.
  - simpl. lia.
Defined.

Lemma zero_length_noise_never_returns_witness :
  demo_preprocess_audio_pair 1000%nat "s1" "e" 200 1 25 false [] = Diverge.
Proof.
  apply (zero_length_noise_never_returns demo_wav_at demo_gain demo_stft_db demo_mel
           1000%nat "s1" "e"
           (map (fun n => inject_Z (Z.of_nat n)) (seq 1 20)) 100 100 200 1 25 false []).
  - reflexivity.
  - simpl. discriminate.
  - reflexivity.
Defined.

Lemma original_mixed_is_untouched_witness :
  exists (result : pair_result) (h' : list AudioSignal),
    demo_preprocess_audio_pair 10%nat "s1" "n1" 200 1 25 false [] = Ret (result, h')
    /\ exists (speech_signal noise_signal mixed_signal : nat)
              (h1 : list AudioSignal) (mixed : AudioSignal),
         load_and_mix demo_wav_at demo_gain 10%nat "s1" "n1" []
         = Ret ((speech_signal, noise_signal, mixed_signal), h1)
         /\ h1 !! mixed_signal = Some mixed
         /\ h' !! pr_original_mixed result = Some mixed
         /\ pr_original_mixed result <> mixed_signal
         /\ h' !! mixed_signal
            = Some (forced_signal
                      (mk_signal (map (fun x => x / pr_peak result)%Q (sig_data mixed))
                                 (sig_rate mixed))
                      200 1).
Proof.
  destruct (demo_preprocess_audio_pair 10%nat "s1" "n1" 200 1 25 false [])
    as [[result h']|e|] eqn:E.
  - exists result, h'. split; [reflexivity|].
    exact (original_mixed_is_untouched demo_wav_at demo_gain demo_stft_db demo_mel
             10%nat "s1" "n1" 200 1 25 false [] h' result E).
  - vm_compute in E. discriminate E.
  - vm_compute in E. discriminate E.
Defined.


(** C7, as stated, fails: the video list names two files and the speech list
    one, and [preprocess_data] returns, on the one triple [zip] forms, instead
    of raising. *)
Lemma batch_mismatched_lengths_returns :
  length ["v1"; "v2"] <> length ["s1"]
  /\ exists v m s n,
       demo_preprocess_data 10%nat ["v1"; "v2"] ["s1"] ["n1"; "n1"] []
       = Ret (v, m, s, n, [])
       /\ shape0 v = 1%Z /\ shape0 m = 1%Z /\ shape0 s = 1%Z /\ shape0 n = 1%Z.
Proof.
  split; [simpl; lia|].
  destruct (demo_preprocess_data 10%nat ["v1"; "v2"] ["s1"] ["n1"; "n1"] [])
    as [[[[[v m] s] n] h']|e|] eqn:E.
  - exists v, m, s, n.
    assert (H : (h', shape0 v, shape0 m, shape0 s, shape0 n)
                = ([], 1%Z, 1%Z, 1%Z, 1%Z)).
    { change (match Ret (v, m, s, n, h') with
              | Ret (v, m, s, n, h') => (h', shape0 v, shape0 m, shape0 s, shape0 n)
              | _ => ([], 0%Z, 0%Z, 0%Z, 0%Z)
              end = ([], 1%Z, 1%Z, 1%Z, 1%Z)).
      rewrite <- E. vm_compute. reflexivity. }
    inversion H. subst. auto.
  - vm_compute in E. discriminate E.
  - vm_compute in E. discriminate E.
Qed.

(** ** A pixel of zero variance (C9) *)

(** One slice of one row, two pixel positions, two frames: the first pixel
    takes the values 1 and 3, the second is 2 in both frames. *)
Definition two_pixel_corpus : video_array :=
  [[[[1%float; 3%float]; [2%float; 2%float]]]].

(** C9 fails on the source: the second pixel of [two_pixel_corpus] has zero
    variance, its standard deviation is 0, and [normalize] returns with NaN
    written at that pixel in every frame, next to the finite values of the
    first pixel. *)
Theorem zero_variance_pixel_becomes_nan :
  std_image (VideoNormalizer_init two_pixel_corpus) = [[1%float; 0%float]]
  /\ map (map (map (map PrimFloat.is_nan)))
         (normalize (VideoNormalizer_init two_pixel_corpus) two_pixel_corpus)
     = [[[[false; false]; [true; true]]]].
Proof. split; vm_compute; reflexivity. Qed.

(** * Further properties of the video normalizer *)

(** [video_samples[s, r, c, f]], when the index is inside the array. *)
Definition pixel_at (video_samples : video_array) (s r c f : nat) : option float :=
  match video_samples !! s with
  | Some slice =>
      match slice !! r with
      | Some row =>
          match row !! c with
          | Some px => px !! f
          | None => None
          end
      | None => None
      end
  | None => None
  end.

(** [img[r, c]], when the index is inside the image. *)
Definition image_at (img : list (list float)) (r c : nat) : option float :=
  match img !! r with
  | Some row => row !! c
  | None => None
  end.

Lemma image_at_default (img : list (list float)) (r c : nat) :
  default nan (img !! r ≫= (.!! c)) = default nan (image_at img r c).
Proof. unfold image_at. now destruct (img !! r). Qed.

Lemma update_plane_at (op : float -> float -> float) (img : list (list float))
    (s0 f0 : nat) (v : video_array) (s r c f : nat) :
  pixel_at (update_plane op img s0 f0 v) s r c f
  = option_map (fun x => if (s =? s0)%nat && (f =? f0)%nat
                         then op x (default nan (image_at img r c))
                         else x)
               (pixel_at v s r c f).
Proof.
  unfold pixel_at, update_plane, video_array in *. rewrite list_lookup_imap.
  destruct (v !! s) as [slice|]; [|reflexivity]. cbn [fmap option_fmap option_map].
  destruct (s =? s0)%nat; cbn [andb].
  - rewrite list_lookup_imap.
    destruct (slice !! r) as [row|]; [|reflexivity]. cbn [fmap option_fmap option_map].
    rewrite list_lookup_imap.
    destruct (row !! c) as [px|]; [|reflexivity]. cbn [fmap option_fmap option_map].
    rewrite list_lookup_imap, image_at_default.
    destruct (px !! f) as [x|]; reflexivity.
  - destruct (slice !! r) as [row|]; [|reflexivity].
    destruct (row !! c) as [px|]; [|reflexivity].
    destruct (px !! f) as [x|]; reflexivity.
Qed.

Lemma existsb_eqb_notin (x : nat) (l : list nat) :
  ~ In x l -> existsb (Nat.eqb x) l = false.
Proof.
  intros H. apply Bool.not_true_iff_false. intros E.
  apply existsb_exists in E as (y & Hy & Exy). apply Nat.eqb_eq in Exy. now subst.
Qed.

Lemma existsb_eqb_seq (x n : nat) : existsb (Nat.eqb x) (seq 0 n) = (x <? n)%nat.
Proof.
  destruct (Nat.ltb_spec x n) as [Hlt|Hge].
  - apply existsb_exists. exists x. split; [apply in_seq; lia|apply Nat.eqb_refl].
  - apply existsb_eqb_notin. rewrite in_seq. lia.
Qed.

(** The normalized value of a sample at pixel position [(r, c)]. *)
Definition normalized (self : VideoNormalizer) (r c : nat) (x : float) : float :=
  ((x - default nan (image_at (mean_image self) r c))
   / default nan (image_at (std_image self) r c))%float.

Lemma frame_loop_at (self : VideoNormalizer) (s0 : nat) (fs : list nat) :
  NoDup fs ->
  forall (v : video_array) (s r c f : nat),
    pixel_at
      (fold_left (fun v f =>
                    let v := update_plane PrimFloat.sub (mean_image self) s0 f v in
                    update_plane PrimFloat.div (std_image self) s0 f v) fs v)
      s r c f
    = option_map (fun x => if (s =? s0)%nat && existsb (Nat.eqb f) fs
                           then normalized self r c x else x)
                 (pixel_at v s r c f).
Proof.
  induction fs as [|f0 fs IH]; intros Hnd v s r c f.
  - cbn [fold_left existsb]. rewrite Bool.andb_false_r.
    now destruct (pixel_at v s r c f).
  - apply NoDup_cons in Hnd as [Hnotin Hnd].
    cbn [fold_left]. rewrite (IH Hnd), !update_plane_at.
    destruct (pixel_at v s r c f) as [x|]; [|reflexivity]. cbn [option_map existsb].
    destruct (s =? s0)%nat; cbn [andb]; [|reflexivity].
    destruct (Nat.eqb_spec f f0) as [->|Hne]; cbn [orb].
    + rewrite existsb_eqb_notin by (now rewrite <- list_elem_of_In). reflexivity.
    + reflexivity.
Qed.

Lemma slice_loop_at (self : VideoNormalizer) (fs ss : list nat) :
  NoDup fs -> NoDup ss ->
  forall (v : video_array) (s r c f : nat),
    pixel_at
      (fold_left (fun v s0 =>
         fold_left (fun v f =>
                      let v := update_plane PrimFloat.sub (mean_image self) s0 f v in
                      update_plane PrimFloat.div (std_image self) s0 f v) fs v) ss v)
      s r c f
    = option_map (fun x => if existsb (Nat.eqb s) ss && existsb (Nat.eqb f) fs
                           then normalized self r c x else x)
                 (pixel_at v s r c f).
Proof.
  intros Hfs. induction ss as [|s0 ss IH]; intros Hnd v s r c f.
  - cbn [fold_left existsb andb]. now destruct (pixel_at v s r c f).
  - apply NoDup_cons in Hnd as [Hnotin Hnd].
    cbn [fold_left]. rewrite (IH Hnd), (frame_loop_at self s0 fs Hfs).
    destruct (pixel_at v s r c f) as [x|]; [|reflexivity]. cbn [option_map existsb].
    destruct (Nat.eqb_spec s s0) as [->|Hne]; cbn [orb andb].
    + rewrite existsb_eqb_notin by (now rewrite <- list_elem_of_In). cbn [andb].
      reflexivity.
    + reflexivity.
Qed.

(** The loops of [normalize], cell by cell. *)
Lemma normalize_at (self : VideoNormalizer) (v : video_array) (s r c f : nat) :
  pixel_at (normalize self v) s r c f
  = option_map (fun x => if (f <? n_frames_per_slice v)%nat
                         then normalized self r c x else x)
               (pixel_at v s r c f).
Proof.
  unfold normalize.
  rewrite (slice_loop_at self (seq 0 (n_frames_per_slice v)) (seq 0 (length v))
             (NoDup_seq _ _) (NoDup_seq _ _)).
  rewrite !existsb_eqb_seq.
  destruct (pixel_at v s r c f) as [x|] eqn:E; [|reflexivity]. cbn [option_map].
  assert (Hs : (s < length v)%nat).
  { unfold pixel_at in E. destruct (v !! s) eqn:Es; [|discriminate].
    now apply lookup_lt_Some in Es. }
  apply Nat.ltb_lt in Hs. rewrite Hs. reflexivity.
Qed.

(** X18: [normalize] is the pointwise formula: inside the array, and where the mean
    and std images have an entry for the pixel position, the value becomes
    [(x - mean[r, c]) / std[r, c]]; the loops visit every slice and every
    frame once, and no value is normalized twice. *)
Theorem normalize_pointwise (self : VideoNormalizer) (v : video_array)
    (s r c f : nat) (x m sd : float) :
  pixel_at v s r c f = Some x ->
  (f < n_frames_per_slice v)%nat ->
  image_at (mean_image self) r c = Some m ->
  image_at (std_image self) r c = Some sd ->
  pixel_at (normalize self v) s r c f = Some ((x - m) / sd)%float.
Proof.
  intros Hx Hf Hm Hsd. rewrite normalize_at, Hx. cbn [option_map].
  apply Nat.ltb_lt in Hf. rewrite Hf. unfold normalized. now rewrite Hm, Hsd.
Qed.

(** * Instances of the further properties *)

Lemma demo_crops (n : nat) (f : nat) :
  (n <= 99)%nat -> In f (seq 0 n) -> exists c, demo_crop_mouth f = Ret c.
Proof.
  intros Hn Hf. apply in_seq in Hf. exists f. unfold demo_crop_mouth.
  destruct (Nat.eqb_spec f 99) as [->|_]; [lia|reflexivity].
Qed.

(** 1160 ms at 25 frames per second is 28 frames in binary64 (29 exactly): a
    video of 28 frames holds one slice. *)
Lemma video_slicer_returns_iff_witness :
  exists (st : stack (list nat)) (frame_rate : float),
    demo_preprocess_video_sample "v4" 1160 128 128 = Ret (st, frame_rate).
Proof.
  apply (proj2 (video_slicer_returns_iff nat nat demo_crop_mouth demo_video_at
                  "v4" 1160 128 128)).
  exists (seq 0 28), 25%float, 28%Z.
  split; [reflexivity|].
  split; [intros f Hf; apply (demo_crops 28 f); [lia | exact Hf]|].
  split; [vm_compute; reflexivity|]. simpl. lia.
Defined.

Lemma video_slicer_errors_witness :
  demo_preprocess_video_sample "v1" (10 ^ 400) 128 128 = Raise OverflowError
  /\ demo_preprocess_video_sample "v1" 0 128 128 = Raise ZeroDivisionError
  /\ demo_preprocess_video_sample "v1" 400 128 128 = Raise ValueError
  /\ demo_preprocess_video_sample "v1" (-200) 128 128 = Raise ValueError.
Proof.
  pose proof (fun f => demo_crops 5 f ltac:(lia)) as crops.
  split; [|split; [|split]].
  - apply (proj1 (video_slicer_errors nat nat demo_crop_mouth demo_video_at
                    "v1" (10 ^ 400) 128 128 (seq 0 5) 25%float eq_refl crops)).
    vm_compute. reflexivity.
  - apply (proj1 (proj2 (video_slicer_errors nat nat demo_crop_mouth demo_video_at
                           "v1" 0 128 128 (seq 0 5) 25%float eq_refl crops) 0%Z
                    ltac:(vm_compute; reflexivity))).
    reflexivity.
  - apply (proj1 (proj2 (proj2 (video_slicer_errors nat nat demo_crop_mouth demo_video_at
                                  "v1" 400 128 128 (seq 0 5) 25%float eq_refl crops)
                           10%Z ltac:(vm_compute; reflexivity)))).
    simpl. lia.
  - apply (proj2 (proj2 (proj2 (video_slicer_errors nat nat demo_crop_mouth demo_video_at
                                  "v1" (-200) 128 128 (seq 0 5) 25%float eq_refl crops)
                           (-5)%Z ltac:(vm_compute; reflexivity)))).
    lia.
Defined.

Lemma video_slicer_detection_failure_witness :
  preprocess_video_sample nat nat demo_crop_mouth demo_video_at "v5" 200 128 128
  = Raise DetectionError.
Proof.
  apply (video_slicer_detection_failure nat nat demo_crop_mouth demo_video_at
           "v5" 200 128 128 [0; 1]%nat [3]%nat 99%nat 25%float DetectionError).
  - reflexivity.
  - intros g [<-|[<-|[]]]; eexists; reflexivity.
  - reflexivity.
Defined.

(** 60 frames in slices of 1160 ms at 25 frames per second: two slices of 28
    frames, four frames left out. *)
Lemma video_slices_partition_witness :
  exists (st : stack (list nat)) (rate : float),
    demo_preprocess_video_sample "v3" 1160 128 128 = Ret (st, rate)
    /\ item_shape st = [128%Z; 128%Z; 28%Z]
    /\ shape0 st = 2%Z
    /\ exists frames crops fps,
         demo_video_at "v3" = Some (frames, rate)
         /\ Forall2 (fun f c => demo_crop_mouth f = Ret c) frames crops
         /\ frames_per_slice 1160 rate = Ret fps
         /\ (1 <= fps)%Z
         /\ item_shape st = [128%Z; 128%Z; fps]
         /\ shape0 st = (Z.of_nat (length frames) / fps)%Z
         /\ Forall (fun s => Z.of_nat (length s) = fps) (items st)
         /\ concat (items st) = take (Z.to_nat (shape0 st * fps)) crops
         /\ (0 <= Z.of_nat (length frames) - shape0 st * fps < fps)%Z.
Proof.
  destruct (demo_preprocess_video_sample "v3" 1160 128 128) as [[st rate]|e|] eqn:E.
  - exists st, rate. split; [reflexivity|].
    assert (H : item_shape st = [128%Z; 128%Z; 28%Z] /\ shape0 st = 2%Z).
    { change (match Ret (st, rate) with
              | Ret (st, _) => item_shape st = [128%Z; 128%Z; 28%Z] /\ shape0 st = 2%Z
              | _ => False
              end).
      rewrite <- E. vm_compute. split; reflexivity. }
    destruct H as [Hshape Hcount]. split; [exact Hshape|]. split; [exact Hcount|].
    exact (video_slices_partition nat nat demo_crop_mouth demo_video_at
             "v3" 1160 128 128 st rate E).
  - vm_compute in E. discriminate E.
  - vm_compute in E. discriminate E.
Defined.

(** Without a video slice the audio slicer still returns when n_fft is even
    and a slice is shorter than two hops: 10 ms at 100 Hz is one sample, and
    100 Hz over 25 frames per second an n_fft of 4 with a hop of 1. *)
Lemma audio_slicer_returns_iff_witness :
  exists (st : stack spectrogram) (h' : list AudioSignal),
    demo_preprocess_audio_signal 0%nat 10 0 25 false [mk_signal [1%Q; 2%Q; 3%Q] 100]
    = Ret (st, h').
Proof.
  apply (proj2 (audio_slicer_returns_iff demo_stft_db demo_mel 0%nat 10 0 25%float
                  [mk_signal [1%Q; 2%Q; 3%Q] 100] (mk_signal [1%Q; 2%Q; 3%Q] 100)
                  eq_refl ltac:(lia))).
  exists 1%Z, 4%Z.
  split; [vm_compute; reflexivity|]. split; [vm_compute; reflexivity|].
  split; [vm_compute; split; discriminate|].
  right. split; [reflexivity|]. split; [reflexivity|]. vm_compute. reflexivity.
Defined.

(** 9 ms at 48000 Hz is 431 samples and 48000 Hz over 27.75 frames per second
    an n_fft of 1729, a hop of 432: a slice is shorter than a hop, and line 56
    divides by zero. *)
Lemma audio_slicer_short_slice_raises :
  samples_per_slice 9 48000 = Ret 431%Z
  /\ n_fft_of 48000 27.75 = Ret 1729%Z
  /\ hop_length_of 1729 = 432%Z
  /\ demo_preprocess_audio_signal 0%nat 9 1 27.75 false [signal_431]
     = Raise ZeroDivisionError.
Proof. repeat split; vm_compute; reflexivity. Qed.

(** 350 ms at 44100 Hz is 15434 samples in binary64 (15435 exactly); at 25
    frames per second n_fft is 1764 and a hop 441 samples, so a slice is 34
    frames wide. *)
Lemma audio_slices_windows_witness :
  exists (st : stack spectrogram) (h' : list AudioSignal),
    demo_preprocess_audio_signal 0%nat 350 1 25 false [short_signal] = Ret (st, h')
    /\ item_shape st = [882%Z; 34%Z]
    /\ shape0 st = 1%Z
    /\ exists samples n_fft sp,
         samples_per_slice 350 44100 = Ret samples
         /\ n_fft_of 44100 25 = Ret n_fft
         /\ (n_bins sp mod 2 = 0)%Z
         /\ n_frames sp
            = (1 + (samples * 1 + 2 * (n_fft / 2) - n_fft) / hop_length_of n_fft)%Z
         /\ (forall k t,
               cell sp k t
               = demo_stft_db (sig_data (forced_signal short_signal 350 1))
                              n_fft (hop_length_of n_fft) k t)
         /\ item_shape st = [n_bins sp; Z.quot samples (hop_length_of n_fft)]
         /\ shape0 st = (n_frames sp / Z.quot samples (hop_length_of n_fft))%Z
         /\ (forall i s,
               items st !! i = Some s ->
               n_bins s = n_bins sp
               /\ n_frames s = Z.quot samples (hop_length_of n_fft)
               /\ forall k t,
                    cell s k t
                    = cell sp k (Z.of_nat i * Z.quot samples (hop_length_of n_fft) + t)%Z)
         /\ (0 <= n_frames sp - shape0 st * Z.quot samples (hop_length_of n_fft)
             < Z.quot samples (hop_length_of n_fft))%Z.
Proof.
  destruct (demo_preprocess_audio_signal 0%nat 350 1 25 false [short_signal])
    as [[st h']|e|] eqn:E.
  - exists st, h'. split; [reflexivity|].
    assert (H : item_shape st = [882%Z; 34%Z] /\ shape0 st = 1%Z).
    { change (match Ret (st, h') with
              | Ret (st, _) => item_shape st = [882%Z; 34%Z] /\ shape0 st = 1%Z
              | _ => False
              end).
      rewrite <- E. vm_compute. split; reflexivity. }
    destruct H as [Hshape Hcount]. split; [exact Hshape|]. split; [exact Hcount|].
    exact (audio_slices_windows demo_stft_db demo_mel 0%nat 350 1 25%float
             [short_signal] h' short_signal st eq_refl ltac:(lia) E).
  - vm_compute in E. discriminate E.
  - vm_compute in E. discriminate E.
Defined.

Lemma slices_concatenate_back_witness :
  exists joined,
    np_concatenate_axis1 (items (sliced ramp_spectrogram 5)) = Ret joined
    /\ n_bins joined = n_bins ramp_spectrogram
    /\ n_frames joined = (shape0 (sliced ramp_spectrogram 5) * 5)%Z
    /\ (n_frames ramp_spectrogram - 5 < n_frames joined <= n_frames ramp_spectrogram)%Z
    /\ forall k t,
         (0 <= t < n_frames joined)%Z -> cell joined k t = cell ramp_spectrogram k t.
Proof.
  apply (slices_concatenate_back ramp_spectrogram 5). simpl. lia.
Defined.

Lemma reconstructor_errors_witness :
  demo_reconstruct_speech_signal 0%nat (sliced ramp_spectrogram 5) 0 2 true
                                 [mk_signal [1%Q; 2%Q; 3%Q] 100]
  = Raise ZeroDivisionError
  /\ demo_reconstruct_speech_signal 0%nat (sliced ramp_spectrogram 5) (-0) 2 true
                                    [mk_signal [1%Q; 2%Q; 3%Q] 100]
     = Raise ZeroDivisionError
  /\ demo_reconstruct_speech_signal 0%nat (sliced ramp_spectrogram 50) 25 2 true
                                    [mk_signal [1%Q; 2%Q; 3%Q] 100]
     = Raise ValueError.
Proof.
  split; [|split].
  - destruct (proj1 (reconstructor_errors demo_signal_phase demo_reconstruct 0%nat
                       (sliced ramp_spectrogram 5) 0%float 2 true
                       [mk_signal [1%Q; 2%Q; 3%Q] 100] (mk_signal [1%Q; 2%Q; 3%Q] 100)
                       eq_refl) eq_refl) as [H|[H _]].
    + exact H.
    + vm_compute in H. discriminate H.
  - destruct (proj1 (reconstructor_errors demo_signal_phase demo_reconstruct 0%nat
                       (sliced ramp_spectrogram 5) (-0)%float 2 true
                       [mk_signal [1%Q; 2%Q; 3%Q] 100] (mk_signal [1%Q; 2%Q; 3%Q] 100)
                       eq_refl) eq_refl) as [H|[H _]].
    + exact H.
    + vm_compute in H. discriminate H.
  - apply (proj2 (reconstructor_errors demo_signal_phase demo_reconstruct 0%nat
                    (sliced ramp_spectrogram 50) 25%float 2 true
                    [mk_signal [1%Q; 2%Q; 3%Q] 100] (mk_signal [1%Q; 2%Q; 3%Q] 100)
                    eq_refl)
             4%Z (mk_spectrogram 3 4 (fun _ _ => 0%Q))).
    + vm_compute. reflexivity.
    + reflexivity.
    + reflexivity.
Defined.

Lemma mixing_stage_result_witness :
  exists (speech_signal noise_signal mixed_signal : nat) (h1 : list AudioSignal),
    demo_load_and_mix 10%nat "s1" "n1" []
    = Ret ((speech_signal, noise_signal, mixed_signal), h1)
    /\ exists speech speech_rate noise noise_rate scaled mixed,
         demo_wav_at "s1" = Some (speech, speech_rate)
         /\ demo_wav_at "n1" = Some (noise, noise_rate)
         /\ (speech_signal < noise_signal < mixed_signal)%nat
         /\ h1 !! speech_signal = Some (mk_signal speech speech_rate)
         /\ h1 !! noise_signal = Some (mk_signal scaled noise_rate)
         /\ h1 !! mixed_signal = Some (mk_signal mixed speech_rate)
         /\ scaled = map (Qmult (demo_gain (tiled noise (length speech)) speech))
                         (tiled noise (length speech))
         /\ length scaled = length speech
         /\ length mixed = length speech
         /\ ((length speech <= length noise)%nat ->
             tiled noise (length speech) = take (length speech) noise)
         /\ forall i x y,
              speech !! i = Some x -> scaled !! i = Some y ->
              mixed !! i = Some (0 + 1 * x + 1 * y)%Q.
Proof.
  destruct (demo_load_and_mix 10%nat "s1" "n1" []) as [[[[s n] m] h1]|e|] eqn:E.
  - exists s, n, m, h1. split; [reflexivity|].
    exact (mixing_stage_result demo_wav_at demo_gain 10%nat "s1" "n1" [] h1 s n m E).
  - vm_compute in E. discriminate E.
  - vm_compute in E. discriminate E.
Defined.

Lemma mixing_stage_returns_witness :
  exists noise_signal mixed_signal h1,
    demo_load_and_mix 20%nat "s1" "n1" []
    = Ret ((length (@nil AudioSignal), noise_signal, mixed_signal), h1)
    /\ length h1 = S mixed_signal
    /\ ((length (map (fun n => inject_Z (Z.of_nat n)) (seq 1 20))
         <= length [1%Q; (-2)%Q; 3%Q])%nat ->
        noise_signal = S (length (@nil AudioSignal))
        /\ mixed_signal = S (S (length (@nil AudioSignal)))).
Proof.
  apply (mixing_stage_returns demo_wav_at demo_gain 20%nat "s1" "n1" []
           (map (fun n => inject_Z (Z.of_nat n)) (seq 1 20)) [1%Q; (-2)%Q; 3%Q] 100 100).
  - reflexivity.
  - reflexivity.
  - left. split; [discriminate | simpl; lia].
Defined.

Lemma pair_streams_same_shape_witness :
  exists (result : pair_result) (h' : list AudioSignal),
    demo_preprocess_audio_pair 10%nat "s1" "n1" 200 1 25 false [] = Ret (result, h')
    /\ item_shape (pr_speech_spectrograms result)
       = item_shape (pr_mixed_spectrograms result)
    /\ item_shape (pr_noise_spectrograms result)
       = item_shape (pr_mixed_spectrograms result)
    /\ shape0 (pr_speech_spectrograms result) = shape0 (pr_mixed_spectrograms result)
    /\ shape0 (pr_noise_spectrograms result) = shape0 (pr_mixed_spectrograms result).
Proof.
  destruct (demo_preprocess_audio_pair 10%nat "s1" "n1" 200 1 25 false [])
    as [[result h']|e|] eqn:E.
  - exists result, h'. split; [reflexivity|].
    exact (pair_streams_same_shape demo_wav_at demo_gain demo_stft_db demo_mel
             10%nat "s1" "n1" 200 1 25 [] h' result
             (map (fun n => inject_Z (Z.of_nat n)) (seq 1 20)) [1%Q; (-2)%Q; 3%Q] 100
             eq_refl eq_refl E).
  - vm_compute in E. discriminate E.
  - vm_compute in E. discriminate E.
Defined.

Lemma video_stream_returned_whole_witness :
  exists (sample : Sample nat) (h' : list AudioSignal),
    demo_preprocess_sample 10%nat "v2" "s1" "n1" 200%Z [] = Ret (sample, h')
    /\ demo_preprocess_video_sample "v2" 200 128 128
       = Ret (video_samples sample, video_frame_rate sample)
    /\ (1 <= shape0 (video_samples sample))%Z
    /\ shape0 (mixed_spectrograms sample) = shape0 (video_samples sample)
    /\ shape0 (speech_spectrograms sample) = shape0 (video_samples sample)
    /\ shape0 (noise_spectrograms sample) = shape0 (video_samples sample).
Proof.
  destruct (demo_preprocess_sample 10%nat "v2" "s1" "n1" 200%Z []) as [[sample h']|e|] eqn:E.
  - exists sample, h'. split; [reflexivity|].
    exact (video_stream_returned_whole nat nat demo_crop_mouth demo_video_at demo_wav_at
             demo_gain demo_stft_db demo_mel 10%nat "v2" "s1" "n1" 200%Z [] h' sample E).
  - vm_compute in E. discriminate E.
  - vm_compute in E. discriminate E.
Defined.

Lemma batch_arrays_aligned_witness :
  exists v m s n h1,
    demo_preprocess_data 10%nat ["v1"; "nowhere"; "v2"] ["s1"; "s1"; "s1"]
                         ["n1"; "n1"; "n1"] []
    = Ret (v, m, s, n, h1)
    /\ shape0 m = shape0 v /\ shape0 s = shape0 v /\ shape0 n = shape0 v /\ h1 = [].
Proof.
  destruct (demo_preprocess_data 10%nat ["v1"; "nowhere"; "v2"] ["s1"; "s1"; "s1"]
              ["n1"; "n1"; "n1"] []) as [[[[[v m] s] n] h1]|e|] eqn:E.
  - exists v, m, s, n, h1. split; [reflexivity|].
    exact (batch_arrays_aligned nat nat demo_crop_mouth demo_video_at demo_wav_at
             demo_gain demo_stft_db demo_mel 10%nat
             ["v1"; "nowhere"; "v2"] ["s1"; "s1"; "s1"] ["n1"; "n1"; "n1"]
             [] h1 v m s n E).
  - vm_compute in E. discriminate E.
  - vm_compute in E. discriminate E.
Defined.

Lemma batch_hangs_on_empty_noise_witness :
  demo_preprocess_data 1000%nat ["v1"; "v2"] ["s1"; "s1"] ["n1"; "e"] [] = Diverge.
Proof.
  eapply (batch_hangs_on_empty_noise nat nat demo_crop_mouth demo_video_at demo_wav_at
            demo_gain demo_stft_db demo_mel 1000%nat
            ["v1"; "v2"] ["s1"; "s1"] ["n1"; "e"] [] "v2" "s1" "e").
  - simpl. right. left. reflexivity.
  - vm_compute. reflexivity.
  - reflexivity.
  - simpl. discriminate.
  - reflexivity.
Defined.

Lemma batch_without_survivors_raises_witness :
  demo_preprocess_data 10%nat ["nowhere"; "v1"] ["s1"; "nowhere"] ["n1"; "n1"] []
  = Raise ValueError.
Proof.
  apply (batch_without_survivors_raises nat nat demo_crop_mouth demo_video_at
           demo_wav_at demo_gain demo_stft_db demo_mel 10%nat
           ["nowhere"; "v1"] ["s1"; "nowhere"] ["n1"; "n1"] []).
  intros v s n [H|[H|[]]]; inversion H; subst; exists IOError; vm_compute; reflexivity.
Defined.


Lemma normalize_pointwise_witness :
  pixel_at (normalize (mk_normalizer [[2%float; 2%float]] [[4%float; 0.5%float]])
                      two_pixel_corpus)
           0 0 0 1
  = Some ((3 - 2) / 4)%float.
Proof.
  apply (normalize_pointwise (mk_normalizer [[2%float; 2%float]] [[4%float; 0.5%float]])
           two_pixel_corpus 0%nat 0%nat 0%nat 1%nat 3%float 2%float 4%float).
  - reflexivity.
  - vm_compute. lia.
  - reflexivity.
  - reflexivity.
Defined.
